(** * HWOC: the online enrichment engine of [HWOC.py]

    A shallow embedding of the online part of [HWOC.py]: the cache layer
    [_cache_or_fetch_json], the three resolvers [_wikipedia_summary],
    [_intel_ark_specs] and [_techpowerup_gpu_specs], the orchestrator
    [enrich_online] and the start of [main]; and of the helpers
    [normspace] and [bytes_to_human] with the blocks of [collect_local]
    that read the video controllers and the network adapters.

    Conventions.
    - A Python [str] is a [string]; a character is a code point of the
      range U+0000..U+00FF.
    - A parsed JSON document is a [json] value; JSON numbers are integers.
    - A Python [dict] is an association list in insertion order, read by
      first match.
    - Code that raises runs in the monad [M]: a result or an exception,
      together with the state of the process (the binding of the global
      name [CACHE] and the log of the HTTP requests sent so far). *)

From Stdlib Require Import ZArith NArith Ascii String List Lia Permutation.
From stdpp Require Import base option list strings gmap pretty.

Local Open Scope string_scope.
Local Open Scope list_scope.

#[local] Set Warnings "-register-all,-clear-no-such-hyp".

(** ** Python built-ins used by the program *)

Module Py.

Definition code (c : ascii) : N := N_of_ascii c.

Definition between (lo hi : N) (c : ascii) : bool :=
  ((lo <=? code c) && (code c <=? hi))%N.

(** [str.isspace] on one character, which is also what [\s] matches. *)
Definition isspace (c : ascii) : bool :=
  between 9 13 c || between 28 32 c || (code c =? 133)%N || (code c =? 160)%N.

(** [str.lower] on one character. *)
Definition lower_char (c : ascii) : ascii :=
  if between 65 90 c || (between 192 222 c && negb (code c =? 215)%N)
  then ascii_of_N (code c + 32) else c.

Fixpoint lower (s : string) : string :=
  match s with
  | EmptyString => EmptyString
  | String c s' => String (lower_char c) (lower s')
  end.

(** [s.startswith(p)] *)
Fixpoint startswith (p s : string) : bool :=
  match p, s with
  | EmptyString, _ => true
  | String a p', String b s' => if ascii_dec a b then startswith p' s' else false
  | String _ _, EmptyString => false
  end.

(** [sub in s] *)
Fixpoint contains (sub s : string) : bool :=
  startswith sub s ||
  match s with
  | EmptyString => false
  | String _ s' => contains sub s'
  end.

(** [s.endswith(p)] *)
Definition endswith (p s : string) : bool :=
  startswith (String.rev p) (String.rev s).

(** [s[:n]] *)
Fixpoint slice_to (n : nat) (s : string) : string :=
  match n, s with
  | S n', String c s' => String c (slice_to n' s')
  | _, _ => EmptyString
  end.

(** [re.sub(r"\s+", " ", s)]: [in_run] tells that the previous character
    was white space, whose run has already been replaced. *)
Fixpoint sub_spaces (in_run : bool) (s : string) : string :=
  match s with
  | EmptyString => EmptyString
  | String c s' =>
      if isspace c
      then (if in_run then sub_spaces true s' else String " " (sub_spaces true s'))
      else String c (sub_spaces false s')
  end.

Fixpoint lstrip (s : string) : string :=
  match s with
  | String c s' => if isspace c then lstrip s' else s
  | EmptyString => EmptyString
  end.

(** [s.strip()] *)
Definition strip (s : string) : string :=
  String.rev (lstrip (String.rev (lstrip s))).

(** [urllib.parse.quote(s)]: letters, digits and [_.-~/] are kept, every
    other character is replaced by the [%XX] escapes of its UTF-8 bytes. *)
Definition unreserved (c : ascii) : bool :=
  between 65 90 c || between 97 122 c || between 48 57 c ||
  (code c =? 45)%N || (code c =? 46)%N || (code c =? 95)%N ||
  (code c =? 126)%N || (code c =? 47)%N.

Definition hex_digit (n : N) : ascii :=
  if (n <? 10)%N then ascii_of_N (48 + n) else ascii_of_N (55 + n).

Definition percent (b : N) : string :=
  String "%" (String (hex_digit (b / 16)) (String (hex_digit (b mod 16)) EmptyString)).

Definition utf8 (c : ascii) : list N :=
  if (code c <? 128)%N then [code c]
  else [(192 + code c / 64)%N; (128 + code c mod 64)%N].

Fixpoint quote (s : string) : string :=
  match s with
  | EmptyString => EmptyString
  | String c s' =>
      (if unreserved c then String c EmptyString
       else String.concat "" (map percent (utf8 c))) +:+ quote s'
  end.

End Py.

(** [normspace]: runs of white space collapsed to one space, then trimmed. *)
Definition normspace (s : string) : string :=
  Py.strip (Py.sub_spaces false s).

(** ** Values *)

(** A parsed JSON document, which is also the shape of everything the
    resolvers return and the cache holds. *)
Inductive json : Type :=
| JNull
| JBool (b : bool)
| JNum (z : Z)
| JStr (s : string)
| JList (l : list json)
| JDict (d : list (string * json)).

(** The exceptions the modelled code can raise; all derive from
    [Exception]. *)
Inductive exn : Type :=
| NameError
| HTTPError
| JSONDecodeError
| AttributeError
| TypeError
| IndexError
| KeyError
| ValueError.

Inductive result (A : Type) : Type :=
| Ok (a : A)
| Raise (e : exn).
Arguments Ok {A} a.
Arguments Raise {A} e.

Definition result_to_option {A} (r : result A) : option A :=
  match r with
  | Ok a => Some a
  | Raise _ => None
  end.

Definition and_then {A B} (r : result A) (k : A -> result B) : result B :=
  match r with
  | Ok a => k a
  | Raise e => Raise e
  end.

Notation "x <- r ; k" := (and_then r (fun x => k))
  (at level 100, r at next level, right associativity).

(** *** Dictionaries *)

Section Dict.
Context {V : Type}.

(** [d.get(k)] *)
Fixpoint dict_get (k : string) (d : list (string * V)) : option V :=
  match d with
  | [] => None
  | (k', v) :: d' => if String.eqb k k' then Some v else dict_get k d'
  end.

(** [d[k] = v]: an existing key keeps its place, a new one goes last. *)
Fixpoint dict_set (k : string) (v : V) (d : list (string * V)) : list (string * V) :=
  match d with
  | [] => [(k, v)]
  | (k', v') :: d' =>
      if String.eqb k k' then (k, v) :: d' else (k', v') :: dict_set k v d'
  end.

Definition dict_keys (d : list (string * V)) : list string := map fst d.

(** The dictionary built by assigning the pairs of [l] in order. *)
Definition dict_of_pairs (l : list (string * V)) : list (string * V) :=
  fold_left (fun d kv => dict_set (fst kv) (snd kv) d) l [].

(** [bool(d)] *)
Definition dict_truthy (d : list (string * V)) : bool :=
  match d with [] => false | _ => true end.
End Dict.

(** *** Operations on JSON values *)

(** [bool(v)] *)
Definition truthy (v : json) : bool :=
  match v with
  | JNull => false
  | JBool b => b
  | JNum z => negb (z =? 0)%Z
  | JStr s => negb (String.eqb s "")
  | JList l => match l with [] => false | _ => true end
  | JDict d => dict_truthy d
  end.

(** [isinstance(v, dict)] *)
Definition is_dict (v : json) : bool :=
  match v with JDict _ => true | _ => false end.

(** [v.get(k, dflt)]: only a dict has the method. *)
Definition json_get (v : json) (k : string) (dflt : json) : result json :=
  match v with
  | JDict d => Ok (default dflt (dict_get k d))
  | _ => Raise AttributeError
  end.

(** [v[0]] *)
Definition json_index0 (v : json) : result json :=
  match v with
  | JList (x :: _) => Ok x
  | JList [] => Raise IndexError
  | JStr (String c _) => Ok (JStr (String c EmptyString))
  | JStr EmptyString => Raise IndexError
  | JDict _ => Raise KeyError
  | _ => Raise TypeError
  end.

(** [v[:n]] *)
Definition json_slice_to (n : nat) (v : json) : result json :=
  match v with
  | JStr s => Ok (JStr (Py.slice_to n s))
  | JList l => Ok (JList (take n l))
  | _ => Raise TypeError
  end.

(** The number of characters of a string, of elements of a list. *)
Definition json_len (v : json) : nat :=
  match v with
  | JStr s => String.length s
  | JList l => length l
  | JDict d => length d
  | _ => 0
  end.

(** ** The report *)

(** The fields of [CPUInfo] and [GPUInfo] that the enrichment reads;
    [cpu_name] and [gpu_name] are the field [name] of each. *)
Record CPUInfo : Type := {
  cpu_name : string;
  manufacturer : string
}.

Record GPUInfo : Type := {
  gpu_name : string
}.

(** [OnlineSpec]: the defaults are the empty string for [source] and
    [official_url] and the empty dict for [fields]. *)
Record OnlineSpec : Type := {
  source : json;
  official_url : json;
  fields : json
}.

(** The fields of [Report] that the enrichment reads or writes. *)
Record Report : Type := {
  cpu : option CPUInfo;
  gpus : list GPUInfo;
  online : list (string * OnlineSpec)
}.

(** What [collect_local] has read of the processor and of the video
    controllers. *)
Record inventory : Type := {
  local_cpu : option CPUInfo;
  local_gpus : list GPUInfo
}.

(** [collect_local]: a fresh [Report], whose [online] is the empty dict,
    filled with what was read. *)
Definition collect_local (w : inventory) : Report :=
  {| cpu := local_cpu w; gpus := local_gpus w; online := [] |}.

(** ** Routing *)

Inductive kind : Type := CPU | GPU.

Inductive resolver : Type := intel_ark | wikipedia | techpowerup.

(** The resolver that [enrich_online] submits for a component, read off
    its two [if] statements; [None] when it submits nothing. *)
Definition route (k : kind) (manufacturer name : string) : option resolver :=
  match k with
  | CPU =>
      if negb (String.eqb name "") then
        Some (if Py.contains "intel" (Py.lower manufacturer)
                 || Py.startswith "intel " (Py.lower name)
              then intel_ark else wikipedia)
      else None
  | GPU =>
      if negb (String.eqb name "") then Some techpowerup else None
  end.

(** The routing in the words of section 4.5 of the specification, to
    compare [route] with: a substring match against manufacturer or name
    for a CPU, the GPU resolver for every GPU. *)
Definition route_by_substring (k : kind) (manufacturer name : string) : resolver :=
  match k with
  | CPU =>
      if Py.contains "intel" (Py.lower manufacturer)
         || Py.contains "intel" (Py.lower name)
      then intel_ark else wikipedia
  | GPU => techpowerup
  end.

(** The two vendor-specific resolvers. *)
Inductive vendor : Type := Intel | TechPowerUp.

Definition vendor_resolver (vd : vendor) : resolver :=
  match vd with Intel => intel_ark | TechPowerUp => techpowerup end.

(** The [source] that a resolver writes in its own results. *)
Definition source_tag (r : resolver) : string :=
  match r with
  | intel_ark => "intel_ark"
  | wikipedia => "wikipedia"
  | techpowerup => "techpowerup"
  end.

(** The key under which a resolver caches the lookup of a name. *)
Definition cache_key (r : resolver) (name : string) : string :=
  match r with
  | intel_ark => "intel:" +:+ name
  | wikipedia => "wikipedia:" +:+ name
  | techpowerup => "tpu:" +:+ name
  end.

Definition wikipedia_key (title : string) : string := cache_key wikipedia title.

(** A record such as the generic fallback resolver builds for a page it
    has found, with a summary of 1200 at most. *)
Definition wikipedia_record (v : json) : Prop :=
  exists url summary,
    v = JDict [("source", JStr "wikipedia");
               ("official_url", JStr url);
               ("fields", JDict [("summary", summary)])]
    /\ json_len summary <= 1200.

(** The keys under which the components of a report are enriched. *)
Definition identifiers (rep : Report) : list string :=
  match cpu rep with Some _ => ["cpu"] | None => [] end
  ++ imap (fun i _ => "gpu" +:+ pretty i) (gpus rep).

(** A URL of the encyclopedia that the generic fallback resolver reads. *)
Definition is_wikipedia_url (u : string) : bool :=
  Py.startswith "https://en.wikipedia.org/" u.

(** ** Documents and the network *)

(** What the program reads of a parsed HTML page. *)
Record soup : Type := {
  (** [select("a")]: for each anchor, its [href] attribute if it has one *)
  anchors : list (option string);
  (** [select("dt")]: for each [dt], its text and the text of its next
      sibling [dd] if it has one *)
  dts : list (string * option string);
  (** [select("table tr")]: for each row, the texts of its [td] and [th]
      cells *)
  rows : list (list string);
  (** the text of the [title] element if the page has one *)
  title : option string
}.

(** A response with a success status: its body read as JSON ([None] when
    [.json()] raises) and as HTML. *)
Record response : Type := {
  body_json : option json;
  body_soup : soup
}.

(** ** The cache store *)

(** Modelled from the spec: the Cache Store of section 4.1, the object
    with [get], [set] and [invalidate] that the program calls through the
    global name [CACHE] and that [HWOC.py] itself never defines. It is a
    finite map from keys to documents. *)
Abbreviation store := (gmap string json).

(** Modelled from the spec: [get] of the Cache Store of section 4.1, a
    point lookup that returns the document or nothing. *)
Definition cache_get (c : store) (key : string) : option json := c !! key.

(** Modelled from the spec: [set] of the Cache Store of section 4.1, a
    point write that replaces the document of the key. *)
Definition cache_set (c : store) (key : string) (doc : json) : store := <[key := doc]> c.

(** Modelled from the spec: [invalidate] of the Cache Store of section
    4.1, which clears every entry. *)
Definition cache_invalidate (c : store) : store := ∅.

(** ** The state of the process and the monad of the code *)

Record state : Type := {
  (** the object bound to the global name [CACHE]; [None] when the name
      is unbound *)
  CACHE : option store;
  (** the URLs requested so far, the latest first *)
  requests : list string
}.

Definition M (A : Type) : Type := state -> result A * state.

Definition ret {A} (a : A) : M A := fun st => (Ok a, st).

Definition raise {A} (e : exn) : M A := fun st => (Raise e, st).

Definition bind {A B} (m : M A) (k : A -> M B) : M B :=
  fun st =>
    match m st with
    | (Ok a, st') => k a st'
    | (Raise e, st') => (Raise e, st')
    end.

(** [try: m  except Exception: h] *)
Definition try_except {A} (m : M A) (h : M A) : M A :=
  fun st =>
    match m st with
    | (Ok a, st') => (Ok a, st')
    | (Raise _, st') => h st'
    end.

Definition lift {A} (r : result A) : M A := fun st => (r, st).

Notation "x <- m ;; k" := (bind m (fun x => k))
  (at level 100, m at next level, right associativity).
Notation "m ;;; k" := (bind m (fun _ => k))
  (at level 100, right associativity).

(** ** The cache layer and the resolvers *)

Section World.

(** The network: what a GET of a URL answers, given the requests sent
    before it. [None] is a request that fails (connection error, timeout
    or a status that [raise_for_status] refuses). *)
Variable net : list string -> string -> option response.

(** [str] of a list or of a dict. *)
Variable py_repr : json -> string.

(** [str(v)], as the f-strings and [str(pageid)] compute it. *)
Definition py_str (v : json) : string :=
  match v with
  | JNull => "None"
  | JBool true => "True"
  | JBool false => "False"
  | JNum z => pretty z
  | JStr s => s
  | _ => py_repr v
  end.

(** [HardwareReporter._http_get] *)
Definition _http_get (url : string) : M response :=
  fun st =>
    let st' := {| CACHE := CACHE st; requests := url :: requests st |} in
    match net (requests st) url with
    | Some r => (Ok r, st')
    | None => (Raise HTTPError, st')
    end.

(** [response.json()] *)
Definition json_of (r : response) : M json :=
  match body_json r with
  | Some j => ret j
  | None => raise JSONDecodeError
  end.

(** [CACHE.get(key)] *)
Definition CACHE_get (key : string) : M (option json) :=
  fun st =>
    match CACHE st with
    | None => (Raise NameError, st)
    | Some c => (Ok (cache_get c key), st)
    end.

(** [CACHE.set(key, data)] *)
Definition CACHE_set (key : string) (data : json) : M unit :=
  fun st =>
    match CACHE st with
    | None => (Raise NameError, st)
    | Some c => (Ok tt, {| CACHE := Some (cache_set c key data); requests := requests st |})
    end.

(** [CACHE.invalidate()] *)
Definition CACHE_invalidate : M unit :=
  fun st =>
    match CACHE st with
    | None => (Raise NameError, st)
    | Some c => (Ok tt, {| CACHE := Some (cache_invalidate c); requests := requests st |})
    end.

(** [bool(cached)] for what [CACHE.get] returned. *)
Definition hit (cached : option json) : bool :=
  match cached with
  | Some v => truthy v
  | None => false
  end.

(** [HardwareReporter._cache_or_fetch_json] *)
Definition _cache_or_fetch_json (key : string) (fetch_fn : M json) : M json :=
  cached <- CACHE_get key ;;
  if hit cached then ret (default JNull cached)
  else
    data <- fetch_fn ;;
    if is_dict data then (CACHE_set key data ;;; ret data)
    else ret (JDict []).

(** [j.get("query", {}).get("search", [{}])[0].get("pageid")] *)
Definition pageid_of (j : json) : result json :=
  query <- json_get j "query" (JDict []) ;
  search <- json_get query "search" (JList [JDict []]) ;
  top <- json_index0 search ;
  json_get top "pageid" JNull.

(** [j2.get("query", {}).get("pages", {}).get(pid, {}).get("extract", "")] *)
Definition extract_of (j2 : json) (pid : string) : result json :=
  query <- json_get j2 "query" (JDict []) ;
  pages <- json_get query "pages" (JDict []) ;
  page <- json_get pages pid (JDict []) ;
  json_get page "extract" (JStr "").

Definition wikipedia_search_url (title : string) : string :=
  "https://en.wikipedia.org/w/api.php?action=query&list=search&srsearch="
  +:+ Py.quote title +:+ "&format=json&srlimit=1".

Definition wikipedia_extract_url (pid : string) : string :=
  "https://en.wikipedia.org/w/api.php?action=query&prop=extracts&explaintext=1&pageids="
  +:+ pid +:+ "&format=json".

(** The [try] block of the inner [fetch] of [_wikipedia_summary]. *)
Definition wikipedia_try (title : string) : M json :=
  r <- _http_get (wikipedia_search_url title) ;;
  j <- json_of r ;;
  pageid <- lift (pageid_of j) ;;
  if negb (truthy pageid) then ret (JDict [])
  else
    r2 <- _http_get (wikipedia_extract_url (py_str pageid)) ;;
    j2 <- json_of r2 ;;
    extract <- lift (extract_of j2 (py_str pageid)) ;;
    let fullurl := "https://en.wikipedia.org/?curid=" +:+ py_str pageid in
    summary <- lift (json_slice_to 1200 extract) ;;
    ret (JDict [("source", JStr "wikipedia");
                ("official_url", JStr fullurl);
                ("fields", JDict [("summary", summary)])]).

(** The inner [fetch] of [_wikipedia_summary]. *)
Definition wikipedia_fetch (title : string) : M json :=
  try_except (wikipedia_try title) (ret (JDict [])).

(** [HardwareReporter._wikipedia_summary] *)
Definition _wikipedia_summary (title : string) : M json :=
  _cache_or_fetch_json ("wikipedia:" +:+ title) (wikipedia_fetch title).

(** What [wikipedia_try] returns for a page it has found. *)
Definition wikipedia_found (pageid summary : json) : json :=
  JDict [("source", JStr "wikipedia");
         ("official_url", JStr ("https://en.wikipedia.org/?curid=" +:+ py_str pageid));
         ("fields", JDict [("summary", summary)])].

(** The two requests of [wikipedia_try] were answered, and [summary] is
    the extract of the found page cut at 1200. *)
Definition wikipedia_answered (title : string) (log : list string)
           (pageid extract summary : json) : Prop :=
  exists r1 j r2 j2,
    net log (wikipedia_search_url title) = Some r1 /\
    body_json r1 = Some j /\
    pageid_of j = Ok pageid /\
    truthy pageid = true /\
    net (wikipedia_search_url title :: log)
        (wikipedia_extract_url (py_str pageid)) = Some r2 /\
    body_json r2 = Some j2 /\
    extract_of j2 (py_str pageid) = Ok extract /\
    json_slice_to 1200 extract = Ok summary.

(** The first [href] of the anchors that contains [pat] and ends in
    [.html]: the [next(..., None)] of both vendor resolvers. *)
Definition first_link (pat : string) (doc : soup) : option string :=
  find (fun h => Py.contains pat h && Py.endswith ".html" h)
       (map (default "") (anchors doc)).

(** The label/value pairs of the [dt] elements that have a next
    sibling [dd]. *)
Definition dt_pairs (doc : soup) : list (string * string) :=
  omap (fun p => match snd p with
                 | Some dd => Some (normspace (fst p), normspace dd)
                 | None => None
                 end) (dts doc).

(** The label/value pairs of the table rows that have two cells or
    more. *)
Definition row_pairs (doc : soup) : list (string * string) :=
  omap (fun r => match r with
                 | c0 :: c1 :: _ => Some (normspace c0, normspace c1)
                 | _ => None
                 end) (rows doc).

(** [{k: v for k, v in specs.items() if k in wanted}] *)
Definition keep_wanted (wanted : list string) (specs : list (string * string))
  : list (string * string) :=
  filter (fun kv => bool_decide (fst kv ∈ wanted)) specs.

(** [filtered or specs or {"title": title}] *)
Definition fields_of (filtered specs : list (string * string)) (title : string)
  : list (string * string) :=
  if dict_truthy filtered then filtered
  else if dict_truthy specs then specs
  else [("title", title)].

Definition json_fields (d : list (string * string)) : json :=
  JDict (map (fun kv => (fst kv, JStr (snd kv))) d).

Definition intel_wanted : list string :=
  ["Total Cores"; "Total Threads"; "Max Turbo Frequency"; "Processor Base Frequency";
   "Cache"; "Bus Speed"; "TDP"; "Lithography"; "Max Memory Size"; "Memory Types";
   "Max # of PCI Express Lanes"; "Processor Graphics"].

(** The extraction of [_intel_ark_specs] from the product page. *)
Definition intel_fields (psoup : soup) (cpu_name : string) : list (string * string) :=
  let specs := dict_of_pairs (dt_pairs psoup) in
  let specs := if dict_truthy specs then specs else dict_of_pairs (row_pairs psoup) in
  let filtered := keep_wanted intel_wanted specs in
  let title := match title psoup with
               | Some t => normspace t
               | None => cpu_name
               end in
  fields_of filtered specs title.

Definition intel_search_url (cpu_name : string) : string :=
  "https://ark.intel.com/content/www/us/en/ark/search.html?q=" +:+ Py.quote cpu_name.

(** The [try] block of the inner [fetch] of [_intel_ark_specs]. *)
Definition intel_try (cpu_name : string) : M json :=
  r <- _http_get (intel_search_url cpu_name) ;;
  match first_link "/products/" (body_soup r) with
  | None => _wikipedia_summary cpu_name
  | Some href =>
      if String.eqb href "" then _wikipedia_summary cpu_name
      else
        let href := if Py.startswith "http" href then href
                    else "https://ark.intel.com" +:+ href in
        r2 <- _http_get href ;;
        ret (JDict [("source", JStr "intel_ark");
                    ("official_url", JStr href);
                    ("fields", json_fields (intel_fields (body_soup r2) cpu_name))])
  end.

(** The inner [fetch] of [_intel_ark_specs]. *)
Definition intel_fetch (cpu_name : string) : M json :=
  try_except (intel_try cpu_name) (_wikipedia_summary cpu_name).

(** [HardwareReporter._intel_ark_specs] *)
Definition _intel_ark_specs (cpu_name : string) : M json :=
  _cache_or_fetch_json ("intel:" +:+ cpu_name) (intel_fetch cpu_name).

Definition techpowerup_wanted : list string :=
  ["GPU Name"; "GPU Variant"; "Architecture"; "Foundry"; "Process Size"; "TDP";
   "Transistors"; "Die Size"; "Base Clock"; "Boost Clock"; "Memory Size";
   "Memory Type"; "Memory Bus"; "Bandwidth"; "Release Date"].

(** The extraction of [_techpowerup_gpu_specs] from the GPU page. *)
Definition techpowerup_fields (psoup : soup) (gpu_name : string) : list (string * string) :=
  let specs := dict_of_pairs (row_pairs psoup) in
  let filtered := keep_wanted techpowerup_wanted specs in
  let title := match title psoup with
               | Some t => normspace t
               | None => gpu_name
               end in
  fields_of filtered specs title.

Definition techpowerup_search_url (gpu_name : string) : string :=
  "https://www.techpowerup.com/search/?q=" +:+ Py.quote gpu_name.

(** The [try] block of the inner [fetch] of [_techpowerup_gpu_specs]. *)
Definition techpowerup_try (gpu_name : string) : M json :=
  r <- _http_get (techpowerup_search_url gpu_name) ;;
  match first_link "/gpu-specs/" (body_soup r) with
  | None => _wikipedia_summary gpu_name
  | Some href =>
      if String.eqb href "" then _wikipedia_summary gpu_name
      else
        let href := if Py.startswith "http" href then href
                    else "https://www.techpowerup.com" +:+ href in
        r2 <- _http_get href ;;
        ret (JDict [("source", JStr "techpowerup");
                    ("official_url", JStr href);
                    ("fields", json_fields (techpowerup_fields (body_soup r2) gpu_name))])
  end.

(** The inner [fetch] of [_techpowerup_gpu_specs]. *)
Definition techpowerup_fetch (gpu_name : string) : M json :=
  try_except (techpowerup_try gpu_name) (_wikipedia_summary gpu_name).

(** [HardwareReporter._techpowerup_gpu_specs] *)
Definition _techpowerup_gpu_specs (gpu_name : string) : M json :=
  _cache_or_fetch_json ("tpu:" +:+ gpu_name) (techpowerup_fetch gpu_name).

(** The call of a resolver. *)
Definition resolve (r : resolver) (name : string) : M json :=
  match r with
  | intel_ark => _intel_ark_specs name
  | wikipedia => _wikipedia_summary name
  | techpowerup => _techpowerup_gpu_specs name
  end.

(** [fields] is what [filtered or specs or {"title": t}] chooses, for
    the allow-list [wanted] and the raw pairs [raw]. *)
Definition chosen_from (wanted : list string) (raw : list (string * string))
           (t : string) (fields : list (string * string)) : Prop :=
  (keep_wanted wanted raw <> [] -> fields = keep_wanted wanted raw) /\
  (keep_wanted wanted raw = [] -> raw <> [] -> fields = raw) /\
  (raw = [] -> fields = [("title", t)]) /\
  fields <> [].

(** *** The two vendor resolvers side by side *)

Definition vendor_search_url (vd : vendor) (name : string) : string :=
  match vd with
  | Intel => intel_search_url name
  | TechPowerUp => techpowerup_search_url name
  end.

Definition vendor_pattern (vd : vendor) : string :=
  match vd with Intel => "/products/" | TechPowerUp => "/gpu-specs/" end.

Definition vendor_site (vd : vendor) : string :=
  match vd with
  | Intel => "https://ark.intel.com"
  | TechPowerUp => "https://www.techpowerup.com"
  end.

Definition vendor_fields (vd : vendor) : soup -> string -> list (string * string) :=
  match vd with Intel => intel_fields | TechPowerUp => techpowerup_fields end.

(** The address of the detail page for a link found on the search page. *)
Definition detail_url (vd : vendor) (href : string) : string :=
  if Py.startswith "http" href then href else vendor_site vd +:+ href.

(** What a vendor resolver returns for a detail page it has read. *)
Definition vendor_found (vd : vendor) (href : string) (psoup : soup) (name : string) : json :=
  JDict [("source", JStr (source_tag (vendor_resolver vd)));
         ("official_url", JStr href);
         ("fields", json_fields (vendor_fields vd psoup name))].

(** [intel_try] and [techpowerup_try] as one function of the vendor. *)
Definition vendor_try (vd : vendor) (name : string) : M json :=
  r <- _http_get (vendor_search_url vd name) ;;
  match first_link (vendor_pattern vd) (body_soup r) with
  | None => _wikipedia_summary name
  | Some href =>
      if String.eqb href "" then _wikipedia_summary name
      else
        r2 <- _http_get (detail_url vd href) ;;
        ret (vendor_found vd (detail_url vd href) (body_soup r2) name)
  end.

Definition vendor_fetch (vd : vendor) (name : string) : M json :=
  try_except (vendor_try vd name) (_wikipedia_summary name).

Definition fetch_of (r : resolver) (name : string) : M json :=
  match r with
  | intel_ark => intel_fetch name
  | wikipedia => wikipedia_fetch name
  | techpowerup => techpowerup_fetch name
  end.

(** ** The orchestrator *)

(** [OnlineSpec] called with the entries of [v] as keyword arguments:
    [v] must be a mapping whose keys are field names, and a missing
    field takes its default. The dataclass does not check the
    types of the values. *)
Definition OnlineSpec_of (v : json) : result OnlineSpec :=
  match v with
  | JDict d =>
      if forallb (fun k => bool_decide (k ∈ ["source"; "official_url"; "fields"]))
                 (dict_keys d)
      then Ok {| source := default (JStr "") (dict_get "source" d);
                 official_url := default (JStr "") (dict_get "official_url" d);
                 fields := default (JDict []) (dict_get "fields" d) |}
      else Raise TypeError
  | _ => Raise TypeError
  end.

(** A submitted lambda: it returns the pair of its key and of what its
    lookup returns. *)
Record task : Type := {
  key : string;
  lookup : M json
}.

(** A finished future: the pair the lambda returned or the exception it
    raised. *)
Inductive outcome : Type :=
| Returned (k : string) (v : json)
| Raised (e : exn).

(** The keys of the futures that returned. *)
Definition returned_keys (done : list outcome) : list string :=
  omap (fun o => match o with Returned k _ => Some k | Raised _ => None end) done.

Definition run_task (t : task) (st : state) : outcome * state :=
  match lookup t st with
  | (Ok v, st') => (Returned (key t) v, st')
  | (Raise e, st') => (Raised e, st')
  end.

(** The pool runs the lookups of [ts] one after the other. *)
Fixpoint run_pool (ts : list task) (st : state) : list outcome * state :=
  match ts with
  | [] => ([], st)
  | t :: ts' =>
      let (o, st1) := run_task t st in
      let (os, st2) := run_pool ts' st1 in
      (o :: os, st2)
  end.

(** The CPU task of [enrich_online], if one is submitted. *)
Definition cpu_futures (rep : Report) : list task :=
  match cpu rep with
  | Some c =>
      if negb (String.eqb (cpu_name c) "") then
        if Py.contains "intel" (Py.lower (manufacturer c))
           || Py.startswith "intel " (Py.lower (cpu_name c))
        then [{| key := "cpu"; lookup := _intel_ark_specs (cpu_name c) |}]
        else [{| key := "cpu"; lookup := _wikipedia_summary (cpu_name c) |}]
      else []
  | None => []
  end.

(** The GPU tasks of [enrich_online]: one for each GPU that has a name,
    keyed by the index of the GPU. *)
Definition gpu_futures (rep : Report) : list task :=
  omap (fun ig =>
          if negb (String.eqb (gpu_name (snd ig)) "")
          then Some {| key := "gpu" +:+ pretty (fst ig);
                       lookup := _techpowerup_gpu_specs (gpu_name (snd ig)) |}
          else None)
       (imap (fun i g => (i, g)) (gpus rep)).

Definition futures (rep : Report) : list task :=
  cpu_futures rep ++ gpu_futures rep.

(** One turn of the loop over the finished futures. *)
Definition collect_one (online : list (string * OnlineSpec)) (o : outcome)
  : list (string * OnlineSpec) :=
  match o with
  | Returned k v =>
      match OnlineSpec_of v with
      | Ok spec => dict_set k spec online
      | Raise _ => online
      end
  | Raised _ => online
  end.

Definition collect (done : list outcome) (online : list (string * OnlineSpec))
  : list (string * OnlineSpec) :=
  fold_left collect_one done online.

Section Pool.

(** [max_workers] of the reporter. *)
Variable max_workers : Z.

(** The order in which the pool runs the submitted lookups, each to
    its end before the next starts, and the order in which
    [as_completed] hands the finished futures back. *)
Variable schedule : list task -> list task.
Variable as_completed : list outcome -> list outcome.

(** The body of the [with] block, on the tasks submitted. *)
Definition gather (fs : list task) (online : list (string * OnlineSpec))
  : M (list (string * OnlineSpec)) :=
  if (max_workers <=? 0)%Z then raise ValueError
  else fun st =>
         let (done, st') := run_pool (schedule fs) st in
         (Ok (collect (as_completed done) online), st').

(** [HardwareReporter.enrich_online] *)
Definition enrich_online (rep : Report) (online_flag : bool) : M Report :=
  if negb online_flag then ret rep
  else
    online' <- gather (futures rep) (online rep) ;;
    ret {| cpu := cpu rep; gpus := gpus rep; online := online' |}.

(** [main] from the cache refresh to the enrichment; [local] is what
    [collect_local] has read of the machine. Nothing in [main] handles
    the exceptions of [exn], and the handler around the call of [main]
    is for [KeyboardInterrupt] alone: an exception that [main] raises
    ends the program. *)
Definition main (refresh_cache no_online : bool) (local : inventory) : M Report :=
  (if refresh_cache then CACHE_invalidate else ret tt) ;;;
  enrich_online (collect_local local) (negb no_online).

End Pool.

End World.

(** The state of the process once the top-level statements of [HWOC.py]
    have run: none of them binds [CACHE], and no import brings the name. *)
Definition module_state : state := {| CACHE := None; requests := [] |}.

(** What the store holds under a key, [None] also when [CACHE] is
    unbound. *)
Definition stored (st : state) (key : string) : option json :=
  match CACHE st with
  | Some c => cache_get c key
  | None => None
  end.

(** Every document stored under a key of the generic fallback resolver
    is the empty mapping or a record of a found page: what a store holds
    that only this program has written. *)
Definition fallback_entries_ok (c : store) : Prop :=
  forall title v,
    c !! wikipedia_key title = Some v -> v = JDict [] \/ wikipedia_record v.

(** ** Sample pages *)

(** A page with no [dt], no table and no [title]. *)
Definition bare_page : soup :=
  {| anchors := []; dts := []; rows := []; title := None |}.

(** A page whose only data is one [dt] followed by its [dd]. *)
Definition dt_page : soup :=
  {| anchors := [];
     dts := [("Architecture", Some "Ada Lovelace")];
     rows := [];
     title := Some "RTX 4090 Specs" |}.

(** ** Sample networks and states *)

Definition page_response (doc : soup) : response :=
  {| body_json := None; body_soup := doc |}.

Definition json_response (j : json) : response :=
  {| body_json := Some j; body_soup := bare_page |}.

(** No request is answered. *)
Definition offline : list string -> string -> option response :=
  fun _ _ => None.

(** The ARK site answers every request with a page that has no link; no
    other site answers. *)
Definition no_link_net : list string -> string -> option response :=
  fun _ u =>
    if Py.startswith "https://ark.intel.com/" u then Some (page_response bare_page)
    else None.

Definition search_answer : json :=
  JDict [("query", JDict [("search", JList [JDict [("pageid", JNum 42)]])])].

Definition extract_answer : json :=
  JDict [("query",
          JDict [("pages",
                  JDict [("42", JDict [("extract", JStr "Coffee Lake desktop processor.")])])])].

(** The encyclopedia answers its two queries; no other site answers. *)
Definition encyclopedia (u : string) : option response :=
  if is_wikipedia_url u && Py.contains "list=search" u then Some (json_response search_answer)
  else if is_wikipedia_url u && Py.contains "prop=extracts" u then Some (json_response extract_answer)
  else None.

Definition encyclopedia_net : list string -> string -> option response :=
  fun _ u => encyclopedia u.

(** The network is down for the first two requests and the encyclopedia
    answers from the third on. *)
Definition recovering_net : list string -> string -> option response :=
  fun sent u => if (length sent <? 2)%nat then None else encyclopedia u.

(** A stand-in for [str] of a list or a dict, which no sample reaches. *)
Definition no_repr : json -> string := fun _ => "".

(** [CACHE] bound to an empty store, no request sent yet. *)
Definition fresh : state := {| CACHE := Some ∅; requests := [] |}.

(** A store that holds the empty mapping of an earlier failed lookup. *)
Definition stale_store : store := {["wikipedia:i7" := JDict []]}.

(** A batch of two tasks: the first always raises, the second returns
    the record of a found page. *)
Definition sample_batch : list task :=
  [{| key := "cpu"; lookup := raise TypeError |};
   {| key := "gpu0"; lookup := ret (wikipedia_found no_repr (JNum 42) (JStr "An Ada Lovelace GPU.")) |}].

Definition sample_inventory : inventory :=
  {| local_cpu := Some {| cpu_name := "Intel(R) Core(TM) i7-9700K"; manufacturer := "GenuineIntel" |};
     local_gpus := [{| gpu_name := "NVIDIA GeForce RTX 4090" |}; {| gpu_name := "" |}] |}.

(** ** Shapes of texts *)

(** The white space of a text is made of single spaces: every white-space
    character is a space and no two of them are next to each other. *)
Definition tidy_chars (l : list ascii) : Prop :=
  (forall c, c ∈ l -> Py.isspace c = true -> c = " "%char)
  /\ (forall l1 a b l2, l = l1 ++ a :: b :: l2 ->
        Py.isspace a = true -> Py.isspace b = true -> False).

(** The first character, if there is one, is not white space. *)
Definition starts_clean (l : list ascii) : Prop :=
  match l with
  | c :: _ => Py.isspace c = false
  | [] => True
  end.

(** The characters of a text that are not white space, in order. *)
Definition visible (s : string) : list ascii :=
  List.filter (fun c => negb (Py.isspace c)) (list_ascii_of_string s).

(** ** What the store holds, what a lookup leaves *)

(** [OnlineSpec] accepts the document as its keyword arguments. *)
Definition accepted (v : json) : Prop :=
  exists spec, OnlineSpec_of v = Ok spec.

(** Every stored document is one that [OnlineSpec] accepts. *)
Definition store_accepted (c : store) : Prop :=
  forall k v, c !! k = Some v -> accepted v.

(** No stored document counts as a hit. *)
Definition quiet (c : store) : Prop :=
  forall k v, c !! k = Some v -> truthy v = false.

(** A search page of the ARK site with one product link, and the product
    page it leads to. *)
Definition ark_search_page : soup :=
  {| anchors := [None; Some "/about.html"; Some "/content/www/us/en/ark/products/186604/i7.html"];
     dts := []; rows := []; title := Some "Search" |}.

Definition ark_product_page : soup :=
  {| anchors := [];
     dts := [("Total  Cores", Some " 8 "); ("Lithography", Some "14 nm"); ("Status", None)];
     rows := [];
     title := Some "Intel Core i7-9700K" |}.

(** The ARK site answers the search and the product page; nothing else
    is answered. *)
Definition ark_net : list string -> string -> option response :=
  fun _ u =>
    if String.eqb u (intel_search_url "i7") then Some (page_response ark_search_page)
    else if String.eqb u "https://ark.intel.com/content/www/us/en/ark/products/186604/i7.html"
         then Some (page_response ark_product_page)
         else None.

(** A machine with an unnamed video controller between two named ones. *)
Definition three_gpus : Report :=
  {| cpu := None;
     gpus := [{| gpu_name := "RTX 4090" |}; {| gpu_name := "" |}; {| gpu_name := "UHD 630" |}];
     online := [] |}.

(** ** Sizes for the reader *)

(** [bytes_to_human]. The float [x] of the source is [n / 1024^i],
    held here as the exact quotient of [n] by [1024^i]: [float(n)] is
    exact for [n] below [2^53], and so is each division by [1024.0]. *)

Definition units : list string := ["B"; "KiB"; "MiB"; "GiB"; "TiB"].

(** The [while] loop: from the unit [i], with [more] units above it, the
    index of the unit it stops at. [x >= step] reads [1024^(i+1) <= n]. *)
Fixpoint scale (more : nat) (n : Z) (i : nat) : nat :=
  match more with
  | O => i
  | S more' => if (1024 ^ Z.of_nat (S i) <=? n)%Z then scale more' n (S i) else i
  end.

(** The integer nearest to [a / d], the even one of the two when [a / d]
    is half way, for [d] positive. *)
Definition round_half_even (a d : Z) : Z :=
  let q := (a / d)%Z in
  let r := (a mod d)%Z in
  if (2 * r <? d)%Z then q
  else if (d <? 2 * r)%Z then (q + 1)%Z
  else if Z.even q then q else (q + 1)%Z.

(** The number of tenths that the format [.1f] prints for [n / d]. *)
Definition tenths (n d : Z) : Z := round_half_even (10 * n) d.

(** The text of a number of tenths: the f-string field [{x:.1f}]. *)
Definition format_tenths (t : Z) : string :=
  pretty (t / 10)%Z +:+ "." +:+ pretty (t mod 10)%Z.

Definition bytes_to_human (n : option Z) : string :=
  match n with
  | None => ""
  | Some n =>
      if (n =? 0)%Z || (n <=? 0)%Z then ""
      else
        let i := scale (length units - 1) n 0 in
        format_tenths (tenths n (1024 ^ Z.of_nat i)) +:+ " " +:+ default "" (units !! i)
  end.

(** ** Reading the video controllers *)

(** The properties of [Win32_VideoController] that [collect_local]
    reads, as WMI gives them: texts and an integer, [None] for a property
    that is empty. *)
Module Win32_VideoController.
Record t : Type := {
  Name : option string;
  DriverVersion : option string;
  PNPDeviceID : option string;
  AdapterRAM : option Z;
  DriverDate : option string
}.
End Win32_VideoController.

(** The dataclass [GPUInfo] with all its fields. *)
Module GPU.
Record GPUInfo : Type := {
  name : string;
  driver_version : string;
  vendor_id : option string;
  device_id : option string;
  adapter_ram : option Z;
  driver_date : string;
  pnp_device_id : string
}.
End GPU.

(** A character that [[0-9A-F]] matches under [re.I]. *)
Definition is_hex (c : ascii) : bool :=
  Py.between 48 57 c || Py.between 65 70 c || Py.between 97 102 c.

(** [str.upper] on one character of such a match. *)
Definition upper_hex (c : ascii) : ascii :=
  if Py.between 97 102 c then ascii_of_N (Py.code c - 32) else c.

Fixpoint upper_hexes (s : string) : string :=
  match s with
  | EmptyString => EmptyString
  | String c s' => String (upper_hex c) (upper_hexes s')
  end.

(** [s[n:]] *)
Fixpoint slice_from (n : nat) (s : string) : string :=
  match n, s with
  | S n', String _ s' => slice_from n' s'
  | _, _ => s
  end.

(** The four characters that [[0-9A-F]{4}] matches at the start of [s]. *)
Definition four_hex (s : string) : option string :=
  match s with
  | String a (String b (String c (String d _))) =>
      if is_hex a && is_hex b && is_hex c && is_hex d
      then Some (String a (String b (String c (String d EmptyString))))
      else None
  | _ => None
  end.

(** The group of a match, at the start of [s], of the pattern made of
    the four characters [tag], given in lower case, and of
    [([0-9A-F]{4})], under [re.I]. *)
Definition match_id (tag s : string) : option string :=
  if Py.startswith tag (Py.lower s) then four_hex (slice_from 4 s) else None.

(** [re.search]: the match that starts first. *)
Fixpoint search_id (tag s : string) : option string :=
  match match_id tag s with
  | Some m => Some m
  | None =>
      match s with
      | String _ s' => search_id tag s'
      | EmptyString => None
      end
  end.

(** [re.search(...).group(1).upper() if g.PNPDeviceID else None]: with no
    match, [group] is asked of [None]. *)
Definition pnp_id (tag : string) (pnp : option string) : result (option string) :=
  match pnp with
  | None => Ok None
  | Some p =>
      if String.eqb p "" then Ok None
      else
        match search_id tag p with
        | Some m => Ok (Some (upper_hexes m))
        | None => Raise AttributeError
        end
  end.

(** [int(g.AdapterRAM) if g.AdapterRAM and int(g.AdapterRAM) > 0 else None] *)
Definition positive_ram (ram : option Z) : option Z :=
  match ram with
  | Some z => if negb (z =? 0)%Z && (0 <? z)%Z then Some z else None
  | None => None
  end.

(** The call [GPUInfo(...)] of the comprehension, for one controller. *)
Definition gpu_info (g : Win32_VideoController.t) : result GPU.GPUInfo :=
  let name := normspace (default "" (Win32_VideoController.Name g)) in
  let driver_version := default "" (Win32_VideoController.DriverVersion g) in
  vendor_id <- pnp_id "ven_" (Win32_VideoController.PNPDeviceID g) ;
  device_id <- pnp_id "dev_" (Win32_VideoController.PNPDeviceID g) ;
  Ok {| GPU.name := name;
        GPU.driver_version := driver_version;
        GPU.vendor_id := vendor_id;
        GPU.device_id := device_id;
        GPU.adapter_ram := positive_ram (Win32_VideoController.AdapterRAM g);
        GPU.driver_date := default "" (Win32_VideoController.DriverDate g);
        GPU.pnp_device_id := default "" (Win32_VideoController.PNPDeviceID g) |}.

(** The list comprehension over the controllers. *)
Fixpoint gpu_infos (l : list Win32_VideoController.t) : result (list GPU.GPUInfo) :=
  match l with
  | [] => Ok []
  | g :: l' =>
      info <- gpu_info g ;
      infos <- gpu_infos l' ;
      Ok (info :: infos)
  end.

(** The block of [collect_local] that fills [rep.gpus], which is the
    empty list before it; [query] is the list that
    [Win32_VideoController()] returned, [None] when the call raised. *)
Definition collect_gpus (query : option (list Win32_VideoController.t)) : list GPU.GPUInfo :=
  match query with
  | None => []
  | Some l =>
      match gpu_infos l with
      | Ok infos => infos
      | Raise _ => []
      end
  end.

(** The PNP identifier of the controller is read without failure. *)
Definition pnp_readable (g : Win32_VideoController.t) : Prop :=
  match Win32_VideoController.PNPDeviceID g with
  | None => True
  | Some p => p = "" \/ (is_Some (search_id "ven_" p) /\ is_Some (search_id "dev_" p))
  end.

(** A display adapter as WMI reports it, and a virtual display whose
    PNP identifier names no vendor. *)
Definition nvidia_controller : Win32_VideoController.t :=
  {| Win32_VideoController.Name := Some "NVIDIA  GeForce RTX 4090 ";
     Win32_VideoController.DriverVersion := Some "31.0.15.3623";
     Win32_VideoController.PNPDeviceID := Some "PCI\VEN_10de&DEV_2684&SUBSYS_88E21043";
     Win32_VideoController.AdapterRAM := Some (-1048576)%Z;
     Win32_VideoController.DriverDate := None |}.

Definition virtual_controller : Win32_VideoController.t :=
  {| Win32_VideoController.Name := Some "Virtual Display";
     Win32_VideoController.DriverVersion := None;
     Win32_VideoController.PNPDeviceID := Some "ROOT\DISPLAY\0000";
     Win32_VideoController.AdapterRAM := None;
     Win32_VideoController.DriverDate := None |}.

Definition sample_controllers : list Win32_VideoController.t :=
  [nvidia_controller; virtual_controller].

(** ** Reading the network adapters *)

(** The properties of [Win32_NetworkAdapter] and of
    [Win32_NetworkAdapterConfiguration] that [collect_local] reads. *)
Module Win32_NetworkAdapter.
Record t : Type := {
  Index : Z;
  Name : option string;
  MACAddress : option string;
  Manufacturer : option string;
  NetConnectionStatus : option Z
}.
End Win32_NetworkAdapter.

Module Win32_NetworkAdapterConfiguration.
Record t : Type := {
  Index : Z;
  IPAddress : option (list string)
}.
End Win32_NetworkAdapterConfiguration.

(** The dataclass [NICInfo]. *)
Module NIC.
Record NICInfo : Type := {
  name : string;
  mac : string;
  manufacturer : string;
  status : string;
  ip4 : list string
}.

(** [nic.ip4 = l] *)
Definition set_ip4 (l : list string) (nic : NICInfo) : NICInfo :=
  {| name := name nic; mac := mac nic; manufacturer := manufacturer nic;
     status := status nic; ip4 := l |}.
End NIC.

(** The dict [nics_by_index], in the order of insertion. *)
Fixpoint nics_get (k : Z) (d : list (Z * NIC.NICInfo)) : option NIC.NICInfo :=
  match d with
  | [] => None
  | (k', v) :: d' => if (k =? k')%Z then Some v else nics_get k d'
  end.

Fixpoint nics_set (k : Z) (v : NIC.NICInfo) (d : list (Z * NIC.NICInfo))
  : list (Z * NIC.NICInfo) :=
  match d with
  | [] => [(k, v)]
  | (k', v') :: d' =>
      if (k =? k')%Z then (k, v) :: d' else (k', v') :: nics_set k v d'
  end.

(** The call [NICInfo(...)] of the dict comprehension. *)
Definition nic_info (n : Win32_NetworkAdapter.t) : NIC.NICInfo :=
  {| NIC.name := normspace (default "" (Win32_NetworkAdapter.Name n));
     NIC.mac := default "" (Win32_NetworkAdapter.MACAddress n);
     NIC.manufacturer := normspace (default "" (Win32_NetworkAdapter.Manufacturer n));
     NIC.status := match Win32_NetworkAdapter.NetConnectionStatus n with
                   | Some z => pretty z
                   | None => ""
                   end;
     NIC.ip4 := [] |}.

(** The dict comprehension over the adapters. *)
Definition adapters_by_index (adapters : list Win32_NetworkAdapter.t)
  : list (Z * NIC.NICInfo) :=
  fold_left (fun d n => nics_set (Win32_NetworkAdapter.Index n) (nic_info n) d) adapters [].

(** [[ip for ip in (conf.IPAddress or []) if ":" not in ip]] *)
Definition ipv4_only (conf : Win32_NetworkAdapterConfiguration.t) : list string :=
  List.filter (fun ip => negb (Py.contains ":" ip))
              (default [] (Win32_NetworkAdapterConfiguration.IPAddress conf)).

(** One turn of the loop over the configurations: the [NICInfo] found
    under the index is the object that the dict holds, and it is
    changed in place; an instance of a dataclass is always true. *)
Definition assign_ip4 (d : list (Z * NIC.NICInfo)) (conf : Win32_NetworkAdapterConfiguration.t)
  : list (Z * NIC.NICInfo) :=
  match nics_get (Win32_NetworkAdapterConfiguration.Index conf) d with
  | Some nic =>
      nics_set (Win32_NetworkAdapterConfiguration.Index conf)
               (NIC.set_ip4 (ipv4_only conf) nic) d
  | None => d
  end.

Definition nics_by_index (adapters : list Win32_NetworkAdapter.t)
    (configs : list Win32_NetworkAdapterConfiguration.t) : list (Z * NIC.NICInfo) :=
  fold_left assign_ip4 configs (adapters_by_index adapters).

(** The block of [collect_local] that fills [rep.nics], which is the
    empty list before it; the arguments are what the two WMI queries
    returned, [None] for a query that raised. *)
Definition collect_nics (adapters : option (list Win32_NetworkAdapter.t))
    (configs : option (list Win32_NetworkAdapterConfiguration.t)) : list NIC.NICInfo :=
  match adapters with
  | None => []
  | Some a =>
      match configs with
      | None => []
      | Some c => (nics_by_index a c).*2
      end
  end.

(** What holds of every entry of [nics_by_index]. *)
Definition nic_entry_ok (adapters : list Win32_NetworkAdapter.t)
    (configs : list Win32_NetworkAdapterConfiguration.t) (i : Z) (nic : NIC.NICInfo) : Prop :=
  (exists n, n ∈ adapters /\ Win32_NetworkAdapter.Index n = i
             /\ NIC.set_ip4 [] nic = nic_info n)
  /\ (NIC.ip4 nic = []
      \/ exists conf, conf ∈ configs /\ Win32_NetworkAdapterConfiguration.Index conf = i
                      /\ NIC.ip4 nic = ipv4_only conf).

Definition sample_adapters : list Win32_NetworkAdapter.t :=
  [{| Win32_NetworkAdapter.Index := 1; Win32_NetworkAdapter.Name := Some "Intel(R)  Ethernet";
      Win32_NetworkAdapter.MACAddress := Some "00:11:22:33:44:55";
      Win32_NetworkAdapter.Manufacturer := Some "Intel";
      Win32_NetworkAdapter.NetConnectionStatus := Some 2%Z |};
   {| Win32_NetworkAdapter.Index := 7; Win32_NetworkAdapter.Name := Some "Wi-Fi";
      Win32_NetworkAdapter.MACAddress := None;
      Win32_NetworkAdapter.Manufacturer := None;
      Win32_NetworkAdapter.NetConnectionStatus := None |}].

Definition sample_configs : list Win32_NetworkAdapterConfiguration.t :=
  [{| Win32_NetworkAdapterConfiguration.Index := 1;
      Win32_NetworkAdapterConfiguration.IPAddress := Some ["192.168.1.10"; "fe80::1"] |};
   {| Win32_NetworkAdapterConfiguration.Index := 3;
      Win32_NetworkAdapterConfiguration.IPAddress := Some ["10.0.0.1"] |}].

(** A store in which another program has left, under a key of the
    fallback resolver, a document that is not a mapping. *)
Definition foreign_store : store := {["wikipedia:i7" := JList [JNum 1]]}.

(** * Properties *)

(** ** The built-ins on examples *)

Example normspace_ex : normspace "  Total   Cores
 " = "Total Cores".
Proof. reflexivity. Qed.

Example quote_ex : Py.quote "Intel(R) Core i7/9" = "Intel%28R%29%20Core%20i7/9".
Proof. reflexivity. Qed.

Example lower_ex : Py.lower "GenuineIntel" = "genuineintel".
Proof. reflexivity. Qed.

Example endswith_ex : Py.endswith ".html" "/products/x.html" = true.
Proof. reflexivity. Qed.

(** ** Strings and dictionaries *)

Lemma slice_to_length n s : String.length (Py.slice_to n s) <= n.
Proof.
  revert s; induction n as [|n IH]; intros [|c s]; simpl; try lia.
  specialize (IH s); lia.
Qed.

Lemma slice_to_prefix n s : exists rest, s = Py.slice_to n s +:+ rest.
Proof.
  revert s; induction n as [|n IH]; intros [|c s]; simpl.
  - by exists "".
  - by exists (String c s).
  - by exists "".
  - destruct (IH s) as [rest Hrest]. exists rest.
    change (String c s = String c (Py.slice_to n s +:+ rest)). by f_equal.
Qed.

Lemma slice_to_short n s : String.length s <= n -> Py.slice_to n s = s.
Proof.
  revert s; induction n as [|n IH]; intros [|c s]; simpl; intros Hlen;
    try done; try lia.
  rewrite IH; [done | lia].
Qed.

Lemma json_slice_to_len n v w : json_slice_to n v = Ok w -> json_len w <= n.
Proof.
  destruct v; simpl; intros H; inversion H; subst; simpl.
  - apply slice_to_length.
  - rewrite length_take. lia.
Qed.

Section DictFacts.
Context {V : Type}.
Implicit Types (d : list (string * V)) (k : string) (v : V).

Lemma dict_set_nonempty k v d : dict_set k v d <> [].
Proof. destruct d as [|[k' v'] d]; simpl; [done|]. by destruct (String.eqb k k'). Qed.

Lemma dict_get_set_eq k v d : dict_get k (dict_set k v d) = Some v.
Proof.
  induction d as [|[k' v'] d IH]; simpl.
  - by rewrite String.eqb_refl.
  - destruct (String.eqb k k') eqn:E; simpl.
    + by rewrite String.eqb_refl.
    + by rewrite E.
Qed.

Lemma dict_get_set_ne k k' v d : k <> k' -> dict_get k' (dict_set k v d) = dict_get k' d.
Proof.
  intros Hne. induction d as [|[k0 v0] d IH]; simpl.
  - destruct (String.eqb k' k) eqn:E; [|done].
    apply String.eqb_eq in E. congruence.
  - destruct (String.eqb k k0) eqn:E; simpl.
    + apply String.eqb_eq in E. subst k0.
      destruct (String.eqb k' k) eqn:E'; [|done].
      apply String.eqb_eq in E'. congruence.
    + by rewrite IH.
Qed.

Lemma dict_keys_set k v d :
  dict_keys (dict_set k v d) =
  if bool_decide (k ∈ dict_keys d) then dict_keys d else dict_keys d ++ [k].
Proof.
  induction d as [|[k0 v0] d IH]; simpl; [done|].
  destruct (String.eqb k k0) eqn:E; simpl.
  - apply String.eqb_eq in E. subst k0.
    rewrite bool_decide_eq_true_2; [done | set_solver].
  - apply String.eqb_neq in E. unfold dict_keys in *. rewrite IH.
    destruct (bool_decide (k ∈ map fst d)) eqn:B.
    + apply bool_decide_eq_true_1 in B.
      rewrite bool_decide_eq_true_2; [done | set_solver].
    + apply bool_decide_eq_false_1 in B.
      rewrite bool_decide_eq_false_2; [done | set_solver].
Qed.

Lemma dict_set_NoDup k v d : NoDup (dict_keys d) -> NoDup (dict_keys (dict_set k v d)).
Proof.
  intros Hnd. rewrite dict_keys_set. case_bool_decide as Hin; [done|].
  apply NoDup_app. split_and!; [done | set_solver | apply NoDup_singleton].
Qed.

Lemma dict_set_keys_incl k v d x :
  x ∈ dict_keys (dict_set k v d) -> x = k \/ x ∈ dict_keys d.
Proof. rewrite dict_keys_set. case_bool_decide; set_solver. Qed.

Lemma dict_of_pairs_nil (l : list (string * V)) : dict_of_pairs l = [] <-> l = [].
Proof.
  split; [|by intros ->].
  unfold dict_of_pairs.
  assert (Hne : forall (l : list (string * V)) d, d <> [] ->
            fold_left (fun d kv => dict_set kv.1 kv.2 d) l d <> []).
  { clear l. induction l as [|kv l IH]; intros d Hd; simpl; [done|].
    apply IH, dict_set_nonempty. }
  destruct l as [|kv l]; [done|]. simpl. intros H.
  by apply Hne in H.
Qed.
End DictFacts.

(** ** The cache layer *)

(** Unfolds the monad and splits on every [match] of the code. *)
Ltac run :=
  unfold bind, ret, raise, lift, try_except, and_then in *; simpl in *.

Section CacheLayer.
Implicit Types (c : store) (log : list string) (key : string) (fetch_fn : M json).

Lemma hit_true (cached : option json) :
  hit cached = true -> exists v, cached = Some v /\ truthy v = true.
Proof. destruct cached as [v|]; simpl; [eauto | done]. Qed.

(** A hit: the stored document is returned and nothing else happens. *)
Lemma cache_hit key fetch_fn c log v :
  c !! key = Some v -> truthy v = true ->
  _cache_or_fetch_json key fetch_fn {| CACHE := Some c; requests := log |}
  = (Ok v, {| CACHE := Some c; requests := log |}).
Proof.
  intros Hget Hv. unfold _cache_or_fetch_json, CACHE_get, cache_get. run.
  by rewrite Hget; simpl; rewrite Hv.
Qed.

(** A miss: the fetch function runs, and a mapping it returns is
    written under the key. *)
Lemma cache_miss key fetch_fn c log :
  hit (c !! key) = false ->
  _cache_or_fetch_json key fetch_fn {| CACHE := Some c; requests := log |}
  = (data <- fetch_fn ;;
     if is_dict data then (CACHE_set key data ;;; ret data) else ret (JDict []))
      {| CACHE := Some c; requests := log |}.
Proof.
  intros Hmiss. unfold _cache_or_fetch_json at 1, CACHE_get, cache_get.
  unfold bind at 1. simpl. by rewrite Hmiss.
Qed.

(** With [CACHE] unbound the first line of the function raises. *)
Lemma cache_unbound key fetch_fn log :
  _cache_or_fetch_json key fetch_fn {| CACHE := None; requests := log |}
  = (Raise NameError, {| CACHE := None; requests := log |}).
Proof. reflexivity. Qed.

(** What a call that returns leaves in the store under its key. *)
Lemma cache_after key fetch_fn st v st' :
  _cache_or_fetch_json key fetch_fn st = (Ok v, st') ->
  truthy v = true ->
  exists c', CACHE st' = Some c' /\ c' !! key = Some v.
Proof.
  unfold _cache_or_fetch_json, CACHE_get, CACHE_set, cache_get, cache_set.
  intros Hrun Hv. destruct st as [[c|] log]; run; [|done].
  destruct (hit (c !! key)) eqn:Hhit.
  - apply hit_true in Hhit as (w & Hw & _). rewrite Hw in Hrun.
    simplify_eq/=. eauto.
  - destruct (fetch_fn _) as [[data|e] st1]; [|done].
    destruct (is_dict data) eqn:Hd.
    + destruct (CACHE st1) as [c1|] eqn:Hc1; [|done]. simplify_eq/=.
      eexists; split; [done|]. apply lookup_insert_eq.
    + by simplify_eq/=.
Qed.
End CacheLayer.

(** C1 (amended). On a miss the cache layer writes under the key every
    mapping that the fetch function returns, the empty mapping of a failed
    lookup included; it writes nothing when the fetch function returns
    something else or raises. A stored empty mapping counts as a miss (it
    is not a hit), so the next lookup of the key runs the fetch function
    again instead of serving it. *)
Theorem C1_cache_layer_writes (key : string) (fetch_fn : M json) (c : store) (log : list string) :
  hit (c !! key) = false ->
  let st := {| CACHE := Some c; requests := log |} in
  (forall d c' log',
      fetch_fn st = (Ok (JDict d), {| CACHE := Some c'; requests := log' |}) ->
      _cache_or_fetch_json key fetch_fn st
      = (Ok (JDict d), {| CACHE := Some (<[key := JDict d]> c'); requests := log' |}))
  /\ (forall data st',
         fetch_fn st = (Ok data, st') -> is_dict data = false ->
         _cache_or_fetch_json key fetch_fn st = (Ok (JDict []), st'))
  /\ (forall e st',
         fetch_fn st = (Raise e, st') ->
         _cache_or_fetch_json key fetch_fn st = (Raise e, st'))
  /\ hit (Some (JDict [])) = false.
Proof.
  intros Hmiss st. subst st. rewrite cache_miss by done.
  split_and!; [| | |done].
  - intros d c' log' Hf. unfold bind at 1. by rewrite Hf.
  - intros data st' Hf Hd. unfold bind at 1. by rewrite Hf, Hd.
  - intros e st' Hf. unfold bind at 1. by rewrite Hf.
Qed.

(** [OnlineSpec()]: the record of "no data found". *)
Lemma OnlineSpec_of_empty :
  OnlineSpec_of (JDict []) = Ok {| source := JStr ""; official_url := JStr ""; fields := JDict [] |}.
Proof. reflexivity. Qed.

(** A second call under the same key, after a call that returned a
    non-empty result: the result is served from the store, whatever the
    fetch function would do, and the state (so the log of requests) is
    unchanged. *)
Lemma cache_second_call (key : string) (fetch_fn fetch_fn' : M json) st v st' :
  _cache_or_fetch_json key fetch_fn st = (Ok v, st') ->
  truthy v = true ->
  _cache_or_fetch_json key fetch_fn' st' = (Ok v, st').
Proof.
  intros Hrun Hv. destruct (cache_after _ _ _ _ _ Hrun Hv) as (c' & Hc' & Hget).
  destruct st' as [c0 log']; simpl in Hc'; subst c0. by apply cache_hit.
Qed.

(** ** The generic fallback resolver *)

Section Fallback.
Variable net : list string -> string -> option response.
Variable py_repr : json -> string.

(** Every run of the [try] block: it leaves the store alone, sends one
    or two requests, all to the encyclopedia, and what it returns is
    the empty mapping or the record of a found page. *)
Lemma wikipedia_try_cases title st :
  exists r st' new,
    wikipedia_try net py_repr title st = (r, st') /\
    CACHE st' = CACHE st /\
    requests st' = new ++ requests st /\
    Forall (fun u => is_wikipedia_url u = true) new /\
    1 <= length new <= 2 /\
    match r with
    | Ok v =>
        v = JDict [] \/
        exists pageid extract summary,
          wikipedia_answered net py_repr title (requests st) pageid extract summary /\
          v = wikipedia_found py_repr pageid summary
    | Raise _ => True
    end.
Proof.
  unfold wikipedia_try, _http_get, json_of. run.
  destruct (net (requests st) (wikipedia_search_url title)) as [r1|] eqn:N1;
    [|do 2 eexists; exists [wikipedia_search_url title]; simpl;
      split_and!; try done; [by repeat constructor | lia]].
  destruct (body_json r1) as [j|] eqn:J1; run;
    [|do 2 eexists; exists [wikipedia_search_url title]; simpl;
      split_and!; try done; [by repeat constructor | lia]].
  destruct (pageid_of j) as [pageid|e] eqn:P; run;
    [|do 2 eexists; exists [wikipedia_search_url title]; simpl;
      split_and!; try done; [by repeat constructor | lia]].
  destruct (truthy pageid) eqn:T; run;
    [|do 2 eexists; exists [wikipedia_search_url title]; simpl;
      split_and!; try done; [by repeat constructor | lia | by left]].
  set (u2 := wikipedia_extract_url (py_str py_repr pageid)).
  assert (Hlog : Forall (fun u => is_wikipedia_url u = true)
                   [u2; wikipedia_search_url title]) by by repeat constructor.
  destruct (net (wikipedia_search_url title :: requests st) u2) as [r2|] eqn:N2;
    [|do 2 eexists; exists [u2; wikipedia_search_url title]; simpl;
      split_and!; try done; lia].
  destruct (body_json r2) as [j2|] eqn:J2; run;
    [|do 2 eexists; exists [u2; wikipedia_search_url title]; simpl;
      split_and!; try done; lia].
  destruct (extract_of j2 (py_str py_repr pageid)) as [extract|e] eqn:E; run;
    [|do 2 eexists; exists [u2; wikipedia_search_url title]; simpl;
      split_and!; try done; lia].
  destruct (json_slice_to 1200 extract) as [summary|e] eqn:S; run;
    [|do 2 eexists; exists [u2; wikipedia_search_url title]; simpl;
      split_and!; try done; lia].
  do 2 eexists; exists [u2; wikipedia_search_url title]; simpl.
  split_and!; try done; try lia.
  right. exists pageid, extract, summary. split; [|done].
  by exists r1, j, r2, j2.
Qed.

(** Every run of the inner [fetch]: it returns, and what it returns is
    a mapping. *)
Lemma wikipedia_fetch_cases title st :
  exists v st' new,
    wikipedia_fetch net py_repr title st = (Ok v, st') /\
    CACHE st' = CACHE st /\
    requests st' = new ++ requests st /\
    Forall (fun u => is_wikipedia_url u = true) new /\
    1 <= length new <= 2 /\
    (v = JDict [] \/
     exists pageid extract summary,
       wikipedia_answered net py_repr title (requests st) pageid extract summary /\
       v = wikipedia_found py_repr pageid summary) /\
    (forall e st1, wikipedia_try net py_repr title st = (Raise e, st1) -> v = JDict []).
Proof.
  destruct (wikipedia_try_cases title st) as (r & st' & new & Hrun & Hc & Hlog & Hw & Hlen & Hr).
  unfold wikipedia_fetch, try_except. rewrite Hrun.
  destruct r as [v|e].
  - exists v, st', new. split_and!; try done; try lia; intros; congruence.
  - exists (JDict []), st', new. split_and!; try done; try lia; by left.
Qed.

Lemma wikipedia_fetch_is_dict title st v st' :
  wikipedia_fetch net py_repr title st = (Ok v, st') -> is_dict v = true.
Proof.
  intros Hrun.
  destruct (wikipedia_fetch_cases title st) as (v0 & st0 & new & Hrun0 & _ & _ & _ & _ & Hv & _).
  rewrite Hrun in Hrun0. simplify_eq.
  destruct Hv as [->|(pageid & extract & summary & _ & ->)]; done.
Qed.

(** Every call of the generic fallback resolver when [CACHE] is bound:
    it returns; a hit changes nothing; a miss sends one or two requests
    to the encyclopedia and writes what it returns under its own key. *)
Lemma wikipedia_summary_cases title c log :
  exists v c' new,
    _wikipedia_summary net py_repr title {| CACHE := Some c; requests := log |}
    = (Ok v, {| CACHE := Some c'; requests := new ++ log |}) /\
    Forall (fun u => is_wikipedia_url u = true) new /\
    length new <= 2 /\
    ((c !! wikipedia_key title = Some v /\ truthy v = true /\ c' = c /\ new = [])
     \/ (hit (c !! wikipedia_key title) = false /\
         c' = <[wikipedia_key title := v]> c /\
         1 <= length new /\
         (v = JDict [] \/
          exists pageid extract summary,
            wikipedia_answered net py_repr title log pageid extract summary /\
            v = wikipedia_found py_repr pageid summary) /\
         (forall e st1,
             wikipedia_try net py_repr title {| CACHE := Some c; requests := log |}
             = (Raise e, st1) -> v = JDict []))).
Proof.
  unfold _wikipedia_summary. fold (wikipedia_key title).
  destruct (hit (c !! wikipedia_key title)) eqn:Hhit.
  - apply hit_true in Hhit as (v & Hget & Hv).
    exists v, c, []. rewrite (cache_hit _ _ _ _ v) by done.
    split_and!; try done; [simpl; lia | by left].
  - rewrite cache_miss by done.
    destruct (wikipedia_fetch_cases title {| CACHE := Some c; requests := log |})
      as (v & st' & new & Hrun & Hc & Hlog & Hw & Hlen & Hv & Hraise).
    destruct st' as [c0 log0]; simpl in *; subst c0 log0.
    exists v, (<[wikipedia_key title := v]> c), new.
    unfold bind at 1. rewrite Hrun.
    rewrite (wikipedia_fetch_is_dict _ _ _ _ Hrun).
    split_and!; try done; [lia|]. right. split_and!; try done. lia.
Qed.

(** With [CACHE] unbound the call raises before any request. *)
Lemma wikipedia_summary_unbound title log :
  _wikipedia_summary net py_repr title {| CACHE := None; requests := log |}
  = (Raise NameError, {| CACHE := None; requests := log |}).
Proof. reflexivity. Qed.

Lemma answered_record title log pageid extract summary :
  wikipedia_answered net py_repr title log pageid extract summary ->
  wikipedia_record (wikipedia_found py_repr pageid summary).
Proof.
  intros (r1 & j & r2 & j2 & _ & _ & _ & _ & _ & _ & _ & Hcut).
  eexists _, summary. split; [reflexivity|]. by eapply json_slice_to_len.
Qed.

Lemma fallback_entries_insert c title v :
  fallback_entries_ok c ->
  v = JDict [] \/ wikipedia_record v ->
  fallback_entries_ok (<[wikipedia_key title := v]> c).
Proof.
  intros Hok Hv title' w. rewrite lookup_insert.
  case_decide; [by intros [= <-] | apply Hok].
Qed.

(** The generic fallback resolver keeps the store well formed, and on a
    well-formed store a result that is not empty is a record of a found
    page, whether it was fetched or served from the store. *)
Lemma wikipedia_summary_keeps title c log v st' :
  fallback_entries_ok c ->
  _wikipedia_summary net py_repr title {| CACHE := Some c; requests := log |} = (Ok v, st') ->
  (exists c', CACHE st' = Some c' /\ fallback_entries_ok c')
  /\ (truthy v = true -> wikipedia_record v).
Proof.
  intros Hok Hrun.
  destruct (wikipedia_summary_cases title c log) as (v0 & c' & new & Hrun0 & _ & _ & Hcases).
  rewrite Hrun0 in Hrun. injection Hrun as <- <-. simpl.
  destruct Hcases as [(Hget & Hv & -> & _)|(_ & -> & _ & Hshape & _)].
  - split; [by eauto|]. intros _.
    destruct (Hok _ _ Hget) as [->|?]; [done | done].
  - assert (Hv : v0 = JDict [] \/ wikipedia_record v0).
    { destruct Hshape as [->|(pageid & extract & summary & Hans & ->)]; [by left|].
      right. by eapply answered_record. }
    split; [eauto using fallback_entries_insert|].
    intros Ht. destruct Hv as [->|?]; [done | done].
Qed.

(** C5. The generic fallback resolver raises to its caller: in the state
    that the module leaves, where nothing has bound [CACHE], the call
    raises [NameError] for every name and every network, at the first
    line of the cache layer, which no [try] block of the resolver
    encloses; no request is sent and no empty result is returned. *)
Theorem C5_fallback_raises_NameError (title : string) (log : list string) :
  CACHE module_state = None
  /\ _wikipedia_summary net py_repr title
       {| CACHE := CACHE module_state; requests := log |}
     = (Raise NameError, {| CACHE := CACHE module_state; requests := log |})
  /\ result_to_option
       (fst (_wikipedia_summary net py_repr title
               {| CACHE := CACHE module_state; requests := log |}))
     <> Some (JDict []).
Proof.
  split; [reflexivity|].
  change (CACHE module_state) with (@None store).
  rewrite wikipedia_summary_unbound. split; [reflexivity | discriminate].
Qed.

(** What the [try] block of the resolver achieves once [CACHE] is bound
    to a store: the resolver returns for every name and never raises; it
    sends requests to the encyclopedia only and writes under its own key
    only, so it calls no other resolver; and when its search, the
    retrieval of the page identifier or the fetch of the summary fails,
    what it returns is the empty mapping, from which the orchestrator
    builds the [OnlineSpec] with empty source and empty fields. *)
Lemma fallback_never_raises_bound (title : string) (c : store) (log : list string) :
  exists v c' new,
    _wikipedia_summary net py_repr title {| CACHE := Some c; requests := log |}
    = (Ok v, {| CACHE := Some c'; requests := new ++ log |})
    /\ Forall (fun u => is_wikipedia_url u = true) new
    /\ (c' = c \/ c' = <[wikipedia_key title := v]> c)
    /\ (hit (c !! wikipedia_key title) = false ->
        (v = JDict [] \/
         exists pageid extract summary,
           wikipedia_answered net py_repr title log pageid extract summary /\
           v = wikipedia_found py_repr pageid summary)
        /\ (forall e st1,
               wikipedia_try net py_repr title {| CACHE := Some c; requests := log |}
               = (Raise e, st1) -> v = JDict []))
    /\ OnlineSpec_of (JDict [])
       = Ok {| source := JStr ""; official_url := JStr ""; fields := JDict [] |}.
Proof.
  destruct (wikipedia_summary_cases title c log)
    as (v & c' & new & Hrun & Hw & Hlen & Hcases).
  exists v, c', new. split_and!; try done.
  - destruct Hcases as [(_ & _ & -> & _)|(_ & -> & _)]; auto.
  - intros Hmiss. destruct Hcases as [(Hget & Hv & _)|(_ & _ & _ & Hshape & Hraise)].
    + rewrite Hget in Hmiss. simpl in Hmiss. congruence.
    + done.
Qed.

(** C6. For every name for which the generic fallback resolver succeeds
    (its result is not empty): when it has fetched (a miss), the result
    is the record of source [wikipedia] whose fields hold exactly one
    entry, [summary], the extract that the second request returned, cut
    at 1200; a text extract is cut to its first 1200 characters at most
    and is kept whole when it has no more. When the result is served from
    a store that only this program has written, it is such a record
    too. *)
Theorem C6_fallback_summary (title : string) (c : store) (log : list string) v st' :
  _wikipedia_summary net py_repr title {| CACHE := Some c; requests := log |} = (Ok v, st') ->
  truthy v = true ->
  (hit (c !! wikipedia_key title) = false ->
   exists pageid extract summary,
     wikipedia_answered net py_repr title log pageid extract summary
     /\ OnlineSpec_of v
        = Ok {| source := JStr "wikipedia";
                official_url := JStr ("https://en.wikipedia.org/?curid=" +:+ py_str py_repr pageid);
                fields := JDict [("summary", summary)] |}
     /\ json_slice_to 1200 extract = Ok summary
     /\ json_len summary <= 1200
     /\ (forall s, extract = JStr s ->
           summary = JStr (Py.slice_to 1200 s)
           /\ String.length (Py.slice_to 1200 s) <= 1200
           /\ (exists rest, s = Py.slice_to 1200 s +:+ rest)
           /\ (String.length s <= 1200 -> Py.slice_to 1200 s = s)))
  /\ (fallback_entries_ok c ->
      exists url summary,
        OnlineSpec_of v
        = Ok {| source := JStr "wikipedia";
                official_url := JStr url;
                fields := JDict [("summary", summary)] |}
        /\ json_len summary <= 1200).
Proof.
  intros Hrun Hv. split.
  - intros Hmiss.
    destruct (wikipedia_summary_cases title c log)
      as (v0 & c' & new & Hrun0 & _ & _ & Hcases).
    rewrite Hrun0 in Hrun. injection Hrun as <- <-.
    destruct Hcases as [(Hget & _)|(_ & _ & _ & Hshape & _)].
    { rewrite Hget in Hmiss. simpl in Hmiss. congruence. }
    destruct Hshape as [->|(pageid & extract & summary & Hans & ->)]; [done|].
    exists pageid, extract, summary.
    assert (Hcut : json_slice_to 1200 extract = Ok summary)
      by (destruct Hans as (? & ? & ? & ? & ? & ? & ? & ? & ? & ? & ? & ?); done).
    split_and!; try done.
    + by eapply json_slice_to_len.
    + intros s ->. simpl in Hcut. simplify_eq. split_and!; try done.
      * apply slice_to_length.
      * apply slice_to_prefix.
      * apply slice_to_short.
  - intros Hok.
    destruct (wikipedia_summary_keeps title c log v st' Hok Hrun) as (_ & Hrec).
    destruct (Hrec Hv) as (url & summary & -> & Hlen). by exists url, summary.
Qed.
End Fallback.

(** ** The vendor resolvers *)

Section Vendors.
Variable net : list string -> string -> option response.
Variable py_repr : json -> string.

Lemma intel_fetch_vendor name :
  intel_fetch net py_repr name = vendor_fetch net py_repr Intel name.
Proof. reflexivity. Qed.

Lemma techpowerup_fetch_vendor name :
  techpowerup_fetch net py_repr name = vendor_fetch net py_repr TechPowerUp name.
Proof. reflexivity. Qed.

Lemma resolve_vendor vd name :
  resolve net py_repr (vendor_resolver vd) name
  = _cache_or_fetch_json (cache_key (vendor_resolver vd) name)
                         (vendor_fetch net py_repr vd name).
Proof. by destruct vd. Qed.

Lemma resolve_cache r name :
  resolve net py_repr r name
  = _cache_or_fetch_json (cache_key r name) (fetch_of net py_repr r name).
Proof. by destruct r. Qed.

Lemma vendor_key_not_wikipedia vd name title :
  cache_key (vendor_resolver vd) name <> wikipedia_key title.
Proof. destruct vd; discriminate. Qed.

(** Every run of the inner [fetch] of a vendor resolver when [CACHE] is
    bound: it returns, it has sent the search request at least, and the
    only key it may have written is the one of the fallback resolver. *)
Lemma vendor_fetch_cases vd name c log :
  exists w c1 new,
    vendor_fetch net py_repr vd name {| CACHE := Some c; requests := log |}
    = (Ok w, {| CACHE := Some c1; requests := new ++ log |}) /\
    1 <= length new /\
    (c1 = c \/ exists w', c1 = <[wikipedia_key name := w']> c) /\
    (fallback_entries_ok c -> fallback_entries_ok c1).
Proof.
  assert (Hfb : forall log0 pre, log0 = pre ++ log -> 1 <= length pre ->
            exists w c1 new,
              _wikipedia_summary net py_repr name {| CACHE := Some c; requests := log0 |}
              = (Ok w, {| CACHE := Some c1; requests := new ++ log |}) /\
              1 <= length new /\
              (c1 = c \/ exists w', c1 = <[wikipedia_key name := w']> c) /\
              (fallback_entries_ok c -> fallback_entries_ok c1)).
  { intros log0 pre -> Hpre.
    destruct (wikipedia_summary_cases net py_repr name c (pre ++ log))
      as (w & c1 & new & Hrun & _ & _ & Hcases).
    exists w, c1, (new ++ pre). rewrite <- app_assoc. split_and!; [done| | |].
    - rewrite length_app. lia.
    - destruct Hcases as [(_ & _ & -> & _)|(_ & -> & _)]; eauto.
    - intros Hok.
      destruct (wikipedia_summary_keeps net py_repr name c (pre ++ log) _ _ Hok Hrun)
        as ((c' & Hc' & Hok') & _).
      simpl in Hc'. by simplify_eq. }
  unfold vendor_fetch, try_except, vendor_try, _http_get. run.
  set (u := vendor_search_url vd name).
  destruct (net log u) as [r|]; [|by apply (Hfb _ [u])].
  destruct (first_link (vendor_pattern vd) (body_soup r)) as [href|].
  2: { destruct (Hfb (u :: log) [u]) as (w & c1 & new & Hrun & Hlen & Hc); [done..|].
       rewrite Hrun. by exists w, c1, new. }
  destruct (String.eqb href "").
  { destruct (Hfb (u :: log) [u]) as (w & c1 & new & Hrun & Hlen & Hc); [done..|].
    rewrite Hrun. by exists w, c1, new. }
  set (d := detail_url vd href). simpl.
  destruct (net (u :: log) d) as [r2|]; simpl.
  - eexists _, c, [d; u]. split_and!; [done | simpl; lia | by left | done].
  - apply (Hfb _ [d; u]); [done | simpl; lia].
Qed.

Lemma fetch_of_cases r name c log :
  exists data c1 new,
    fetch_of net py_repr r name {| CACHE := Some c; requests := log |}
    = (Ok data, {| CACHE := Some c1; requests := new ++ log |}) /\
    1 <= length new /\
    c1 !! cache_key r name = c !! cache_key r name.
Proof.
  assert (Hv : forall vd,
             exists data c1 new,
               vendor_fetch net py_repr vd name {| CACHE := Some c; requests := log |}
               = (Ok data, {| CACHE := Some c1; requests := new ++ log |}) /\
               1 <= length new /\
               c1 !! cache_key (vendor_resolver vd) name
               = c !! cache_key (vendor_resolver vd) name).
  { intros vd.
    destruct (vendor_fetch_cases vd name c log) as (w & c1 & new & Hrun & Hlen & Hc & _).
    exists w, c1, new. split_and!; [done..|].
    destruct Hc as [->|[w' ->]]; [done|].
    apply lookup_insert_ne. apply not_eq_sym, vendor_key_not_wikipedia. }
  destruct r; simpl.
  - apply (Hv Intel).
  - destruct (wikipedia_fetch_cases net py_repr name {| CACHE := Some c; requests := log |})
      as (v & [c0 log0] & new & Hrun & Hc & Hlog & _ & Hlen & _).
    simpl in *. subst. exists v, c, new. split_and!; [done | lia | done].
  - apply (Hv TechPowerUp).
Qed.

(** Every call of a resolver when [CACHE] is bound: it returns; on a
    miss it sends a request at least; and after an empty result its key
    is still a miss. *)
Lemma resolve_cases r name c log :
  exists w c2 new,
    resolve net py_repr r name {| CACHE := Some c; requests := log |}
    = (Ok w, {| CACHE := Some c2; requests := new ++ log |}) /\
    (hit (c !! cache_key r name) = false -> 1 <= length new) /\
    (truthy w = false -> hit (c2 !! cache_key r name) = false).
Proof.
  rewrite resolve_cache.
  destruct (hit (c !! cache_key r name)) eqn:Hhit.
  - apply hit_true in Hhit as (v & Hget & Hv).
    exists v, c, []. rewrite (cache_hit _ _ _ _ v) by done.
    split_and!; [done | done | congruence].
  - rewrite cache_miss by done.
    destruct (fetch_of_cases r name c log) as (data & c1 & new & Hrun & Hlen & Hkey).
    unfold bind at 1. rewrite Hrun.
    destruct (is_dict data) eqn:Hd.
    + exists data, (<[cache_key r name := data]> c1), new.
      split_and!; [done | done |].
      intros Hf. by rewrite lookup_insert_eq.
    + exists (JDict []), c1, new. split_and!; [done | done |].
      intros _. by rewrite Hkey.
Qed.

Lemma fallback_entries_ok_empty : fallback_entries_ok ∅.
Proof. intros title v. by rewrite lookup_empty. Qed.

(** Every resolver keeps the store well formed: the vendor resolvers
    write, besides their own key, only what the fallback resolver
    writes. *)
Lemma resolve_keeps r name c log :
  fallback_entries_ok c ->
  exists w c2 log2,
    resolve net py_repr r name {| CACHE := Some c; requests := log |}
    = (Ok w, {| CACHE := Some c2; requests := log2 |})
    /\ fallback_entries_ok c2.
Proof.
  intros Hok.
  assert (Hv : forall vd,
             exists w c2 log2,
               resolve net py_repr (vendor_resolver vd) name {| CACHE := Some c; requests := log |}
               = (Ok w, {| CACHE := Some c2; requests := log2 |})
               /\ fallback_entries_ok c2).
  { intros vd. rewrite resolve_vendor.
    destruct (hit (c !! cache_key (vendor_resolver vd) name)) eqn:Hhit.
    - apply hit_true in Hhit as (v & Hget & Hv').
      rewrite (cache_hit _ _ _ _ v) by done. by eauto.
    - rewrite cache_miss by done.
      destruct (vendor_fetch_cases vd name c log) as (w & c1 & new & Hrun & _ & _ & Hok1).
      unfold bind at 1. rewrite Hrun.
      destruct (is_dict w); [|eexists _, _, _; split; [reflexivity | by apply Hok1]].
      eexists _, _, _. split; [reflexivity|].
      unfold cache_set. intros title v.
      rewrite lookup_insert_ne by apply vendor_key_not_wikipedia.
      by apply Hok1. }
  destruct r; simpl.
  - apply (Hv Intel).
  - destruct (wikipedia_summary_cases net py_repr name c log) as (v & c' & new & Hrun & _).
    destruct (wikipedia_summary_keeps net py_repr name c log _ _ Hok Hrun)
      as ((c2 & Hc2 & Hok2) & _).
    simpl in Hc2. simplify_eq. by eauto.
  - apply (Hv TechPowerUp).
Qed.

(** What the generic fallback resolver returns when it fetches, or
    serves from a store that only this program has written: a mapping,
    from which [OnlineSpec] builds a record of the source [wikipedia], or
    one with empty source and fields; never the source of a vendor. *)
Lemma fallback_result_shape (name : string) (c : store) (log : list string) :
  exists w c1 new,
    _wikipedia_summary net py_repr name {| CACHE := Some c; requests := log |}
    = (Ok w, {| CACHE := Some c1; requests := new ++ log |})
    /\ (hit (c !! wikipedia_key name) = false \/ fallback_entries_ok c ->
        is_dict w = true /\
        exists spec,
          OnlineSpec_of w = Ok spec /\
          (source spec = JStr "wikipedia"
           \/ (source spec = JStr "" /\ fields spec = JDict [])) /\
          forall vd, source spec <> JStr (source_tag (vendor_resolver vd))).
Proof.
  destruct (wikipedia_summary_cases net py_repr name c log)
    as (w & c1 & new & Hrun & _ & _ & Hcases).
  exists w, c1, new. split; [done|].
  intros Hstore.
  assert (Hshape : w = JDict [] \/ wikipedia_record w).
  { destruct Hcases as [(Hget & Hv & _)|(_ & _ & _ & Hshape & _)].
    - destruct Hstore as [Hwmiss|Hok]; [|by apply (Hok name)].
      rewrite Hget in Hwmiss. simpl in Hwmiss. congruence.
    - destruct Hshape as [->|(pageid & extract & summary & Hans & ->)]; [by left|].
      right. by eapply answered_record. }
  destruct Hshape as [->|(url & summary & -> & _)].
  + split; [done|]. eexists; split; [reflexivity|]. simpl.
    split; [by right | by intros []].
  + split; [done|]. eexists; split; [reflexivity|]. simpl.
    split; [by left | by intros []].
Qed.

(** C2 (amended). When a vendor resolver misses its cache and its search
    page holds no matching link, the resolver calls the generic fallback
    resolver. When the fallback resolver fetches (a miss under its key
    too), or serves from a store that only this program has written, its
    result is a mapping: the vendor resolver returns it, stores it under
    the vendor key as well, and the record built from it has the source
    [wikipedia] if the fallback has a page, and the empty source with
    empty fields if it has none; it never has the source of the vendor.
    When the fallback resolver serves a stored document that is not a
    mapping, the vendor resolver returns the empty mapping and stores
    nothing. *)
Theorem C2_no_link_delegates (vd : vendor) (name : string) (c : store)
        (log : list string) (r : response) :
  hit (c !! cache_key (vendor_resolver vd) name) = false ->
  net log (vendor_search_url vd name) = Some r ->
  first_link (vendor_pattern vd) (body_soup r) = None ->
  exists w c1 log1,
    _wikipedia_summary net py_repr name
      {| CACHE := Some c; requests := vendor_search_url vd name :: log |}
    = (Ok w, {| CACHE := Some c1; requests := log1 |})
    /\ resolve net py_repr (vendor_resolver vd) name {| CACHE := Some c; requests := log |}
       = (if is_dict w
          then (Ok w, {| CACHE := Some (<[cache_key (vendor_resolver vd) name := w]> c1);
                         requests := log1 |})
          else (Ok (JDict []), {| CACHE := Some c1; requests := log1 |}))
    /\ (hit (c !! wikipedia_key name) = false \/ fallback_entries_ok c ->
        is_dict w = true /\
        resolve net py_repr (vendor_resolver vd) name {| CACHE := Some c; requests := log |}
        = (Ok w, {| CACHE := Some (<[cache_key (vendor_resolver vd) name := w]> c1);
                    requests := log1 |}) /\
        exists spec,
          OnlineSpec_of w = Ok spec /\
          (source spec = JStr "wikipedia"
           \/ (source spec = JStr "" /\ fields spec = JDict [])) /\
          source spec <> JStr (source_tag (vendor_resolver vd))).
Proof.
  intros Hmiss Hnet Hlink.
  destruct (fallback_result_shape name c (vendor_search_url vd name :: log))
    as (w & c1 & new & Hrun & Hshape).
  assert (Hres : resolve net py_repr (vendor_resolver vd) name
                   {| CACHE := Some c; requests := log |}
                 = (if is_dict w
                    then (Ok w, {| CACHE := Some (<[cache_key (vendor_resolver vd) name := w]> c1);
                                   requests := new ++ vendor_search_url vd name :: log |})
                    else (Ok (JDict []),
                          {| CACHE := Some c1;
                             requests := new ++ vendor_search_url vd name :: log |}))).
  { rewrite resolve_vendor, cache_miss by done.
    unfold bind at 1, vendor_fetch, try_except, vendor_try, bind, _http_get. simpl.
    rewrite Hnet. simpl. rewrite Hlink, Hrun.
    by destruct (is_dict w). }
  exists w, c1, (new ++ vendor_search_url vd name :: log). split_and!; [done | done |].
  intros Hstore. destruct (Hshape Hstore) as (Hd & spec & Hspec & Hsrc & Hvd).
  split_and!; [done | by rewrite Hres, Hd |]. exists spec. split_and!; [done | done | apply Hvd].
Qed.

(** C3 (amended). A second call of a chain resolver with the same name:
    after a first call that returned a non-empty result it returns the
    same result and leaves the state as it is, so it sends no request,
    whatever the network would answer; after a first call that returned
    the empty result it is a miss again and sends a request at least. *)
Theorem C3_second_call (r : resolver) (name : string) (st : state) v st' :
  resolve net py_repr r name st = (Ok v, st') ->
  (truthy v = true ->
   forall net' py_repr', resolve net' py_repr' r name st' = (Ok v, st'))
  /\ (truthy v = false ->
      exists w st'' new,
        resolve net py_repr r name st' = (Ok w, st'') /\
        requests st'' = new ++ requests st' /\
        1 <= length new).
Proof.
  intros Hrun. split.
  - intros Hv net' py_repr'.
    destruct r; simpl in *;
      unfold _intel_ark_specs, _wikipedia_summary, _techpowerup_gpu_specs in *;
      by eapply cache_second_call.
  - intros Hv. destruct st as [[c|] log].
    2: { rewrite resolve_cache, cache_unbound in Hrun. done. }
    destruct (resolve_cases r name c log) as (w & c2 & new & Hrun' & _ & Hkey).
    rewrite Hrun in Hrun'. simplify_eq.
    destruct (resolve_cases r name c2 (new ++ log)) as (w' & c3 & new' & Hrun2 & Hlen & _).
    eexists w', _, new'. split_and!; [done | done | auto].
Qed.
End Vendors.

(** ** Field extraction *)

Lemma fields_of_chosen wanted raw t :
  chosen_from wanted raw t (fields_of (keep_wanted wanted raw) raw t).
Proof.
  unfold chosen_from, fields_of.
  destruct (keep_wanted wanted raw) as [|kv filtered] eqn:Hf; simpl.
  - destruct raw as [|kv raw]; simpl; split_and!; done.
  - split_and!; try done. intros ->. simpl in Hf. done.
Qed.

(** C4 (amended). The Intel resolver takes its raw pairs from the
    [dt]/[dd] sibling pairs and reads the table rows only when there is no
    such pair; the TechPowerUp resolver reads the table rows only. In
    both, the pairs whose label is on the allow-list are returned when
    there is one; otherwise all the raw pairs when there is one; otherwise
    the single entry [title], whose value is the normalised title of the
    page or, when the page has no title, the name of the component. The
    mapping returned is never empty. *)
Theorem C4_field_extraction (psoup : soup) (name : string) :
  let t := match title psoup with Some t => normspace t | None => name end in
  chosen_from intel_wanted
    (dict_of_pairs (match dt_pairs psoup with [] => row_pairs psoup | l => l end))
    t (intel_fields psoup name)
  /\ chosen_from techpowerup_wanted (dict_of_pairs (row_pairs psoup))
       t (techpowerup_fields psoup name)
  /\ (forall l : list (string * string), dict_of_pairs l = [] <-> l = []).
Proof.
  intros t. split_and!.
  - unfold intel_fields. fold t.
    destruct (dt_pairs psoup) as [|p l] eqn:Hdt.
    + simpl. apply fields_of_chosen.
    + assert (Hne : dict_truthy (dict_of_pairs (p :: l)) = true).
      { destruct (dict_of_pairs (p :: l)) eqn:E; [|done].
        pose proof (proj1 (dict_of_pairs_nil (p :: l)) E). done. }
      rewrite Hne. apply fields_of_chosen.
  - unfold techpowerup_fields. fold t. apply fields_of_chosen.
  - apply dict_of_pairs_nil.
Qed.

(** ** Routing *)

Lemma omap_pointwise {A B} (f g : A -> option B) (l : list A) :
  (forall x, f x = g x) -> omap f l = omap g l.
Proof.
  intros Hfg. induction l as [|x l IH]; [done|].
  csimpl. rewrite Hfg. destruct (g x); [|done]. by f_equal.
Qed.

(** C7 (amended). Routing is a function of kind, manufacturer and name
    that reads no state. A CPU with a name goes to the Intel resolver
    exactly when its manufacturer in lower case contains [intel] or its
    name in lower case starts with [intel] followed by a space, and to the
    generic fallback resolver otherwise; a GPU with a name goes to the
    GPU resolver; a component with an empty name gets no lookup. The
    tasks that [enrich_online] submits are the calls of the resolvers so
    chosen. *)
Theorem C7_routing :
  (forall m n, route CPU m n = Some intel_ark <->
     n <> "" /\ (Py.contains "intel" (Py.lower m) = true
                 \/ Py.startswith "intel " (Py.lower n) = true))
  /\ (forall m n, route CPU m n = Some wikipedia <->
        n <> "" /\ Py.contains "intel" (Py.lower m) = false
        /\ Py.startswith "intel " (Py.lower n) = false)
  /\ (forall k m n, route k m n = None <-> n = "")
  /\ (forall m n, n <> "" -> route GPU m n = Some techpowerup)
  /\ (forall net py_repr rep,
        cpu_futures net py_repr rep =
        match cpu rep with
        | Some c =>
            match route CPU (manufacturer c) (cpu_name c) with
            | Some r => [{| key := "cpu"; lookup := resolve net py_repr r (cpu_name c) |}]
            | None => []
            end
        | None => []
        end)
  /\ (forall net py_repr rep,
        gpu_futures net py_repr rep =
        omap (fun ig =>
                match route GPU "" (gpu_name (snd ig)) with
                | Some r => Some {| key := "gpu" +:+ pretty (fst ig);
                                    lookup := resolve net py_repr r (gpu_name (snd ig)) |}
                | None => None
                end)
             (imap (fun i g => (i, g)) (gpus rep))).
Proof.
  split_and!.
  - intros m n. unfold route.
    generalize (Py.contains "intel" (Py.lower m)) (Py.startswith "intel " (Py.lower n)).
    intros a b. destruct (String.eqb_spec n ""), a, b; simpl;
      (split; [intros ?; simplify_eq; auto | intros [? [?|?]]; congruence]).
  - intros m n. unfold route.
    generalize (Py.contains "intel" (Py.lower m)) (Py.startswith "intel " (Py.lower n)).
    intros a b. destruct (String.eqb_spec n ""), a, b; simpl;
      (split; [intros ?; simplify_eq; auto | intros (? & ? & ?); congruence]).
  - intros k m n. unfold route.
    destruct k; destruct (String.eqb_spec n ""); simpl; split; done.
  - intros m n Hn. unfold route. by destruct (String.eqb_spec n "").
  - intros net py_repr rep. unfold cpu_futures, route.
    destruct (cpu rep) as [c|]; [|done].
    generalize (Py.contains "intel" (Py.lower (manufacturer c))
                || Py.startswith "intel " (Py.lower (cpu_name c))).
    intros b. by destruct (String.eqb (cpu_name c) ""), b.
  - intros net py_repr rep. unfold gpu_futures. apply omap_pointwise.
    intros [i g]. unfold route. simpl.
    by destruct (String.eqb (gpu_name g) "").
Qed.

(** ** The orchestrator *)

Section Collect.
Implicit Types (done : list outcome) (online : list (string * OnlineSpec)).

Lemma collect_cons o done online :
  collect (o :: done) online = collect done (collect_one online o).
Proof. reflexivity. Qed.

Lemma collect_one_keys online o x :
  x ∈ dict_keys (collect_one online o) ->
  x ∈ dict_keys online \/ x ∈ returned_keys [o].
Proof.
  destruct o as [k v|e]; simpl; [|auto].
  destruct (OnlineSpec_of v); [|auto].
  intros [->|?]%dict_set_keys_incl; [right; set_solver | auto].
Qed.

Lemma collect_one_NoDup online o :
  NoDup (dict_keys online) -> NoDup (dict_keys (collect_one online o)).
Proof.
  destruct o as [k v|e]; simpl; [|done].
  destruct (OnlineSpec_of v); [|done]. apply dict_set_NoDup.
Qed.

(** The keys of the report after the loop are keys it had before or
    keys of futures that returned. *)
Lemma collect_keys done online x :
  x ∈ dict_keys (collect done online) ->
  x ∈ dict_keys online \/ x ∈ returned_keys done.
Proof.
  revert online. induction done as [|o done IH]; intros online; [auto|].
  rewrite collect_cons. intros [Hx|Hx]%IH.
  - apply collect_one_keys in Hx as [?|Hx]; [auto|].
    right. change (o :: done) with ([o] ++ done).
    unfold returned_keys in *. rewrite omap_app. set_solver.
  - right. change (o :: done) with ([o] ++ done).
    unfold returned_keys in *. rewrite omap_app. set_solver.
Qed.

Lemma collect_NoDup done online :
  NoDup (dict_keys online) -> NoDup (dict_keys (collect done online)).
Proof.
  revert online. induction done as [|o done IH]; intros online Hnd; [done|].
  rewrite collect_cons. by apply IH, collect_one_NoDup.
Qed.

(** A key that no returned future carries keeps its entry, or its
    absence. *)
Lemma collect_other done online k :
  k ∉ returned_keys done ->
  dict_get k (collect done online) = dict_get k online.
Proof.
  revert online. induction done as [|o done IH]; intros online Hk; [done|].
  rewrite collect_cons.
  destruct o as [k' v|e]; simpl in *.
  - rewrite IH by set_solver.
    destruct (OnlineSpec_of v); [|done].
    apply dict_get_set_ne. set_solver.
  - apply IH. set_solver.
Qed.

(** A future that returned well-formed data under a key of its own puts
    the record of that data in the report. *)
Lemma collect_entry done online k v spec :
  NoDup (returned_keys done) ->
  Returned k v ∈ done ->
  OnlineSpec_of v = Ok spec ->
  dict_get k (collect done online) = Some spec.
Proof.
  revert online. induction done as [|o done IH]; intros online Hnd Hin Hspec.
  { by apply elem_of_nil in Hin. }
  rewrite collect_cons.
  apply elem_of_cons in Hin as [<-|Hin].
  - simpl in *. rewrite Hspec. apply NoDup_cons in Hnd as [Hk _].
    rewrite collect_other by done. apply dict_get_set_eq.
  - apply IH; [|done..].
    destruct o; simpl in Hnd; [by apply NoDup_cons in Hnd as [_ ?] | done].
Qed.

(** A future that returned data from which no record can be built
    leaves the entry of its key as it was. *)
Lemma collect_ill_formed done online k v e :
  NoDup (returned_keys done) ->
  Returned k v ∈ done ->
  OnlineSpec_of v = Raise e ->
  dict_get k (collect done online) = dict_get k online.
Proof.
  revert online. induction done as [|o done IH]; intros online Hnd Hin Hspec.
  { by apply elem_of_nil in Hin. }
  rewrite collect_cons.
  apply elem_of_cons in Hin as [<-|Hin].
  - simpl in *. rewrite Hspec. apply NoDup_cons in Hnd as [Hk _].
    by apply collect_other.
  - assert (Hk : k ∈ returned_keys done).
    { unfold returned_keys. apply list_elem_of_omap. by exists (Returned k v). }
    destruct o as [k' v'|e']; simpl in Hnd.
    + apply NoDup_cons in Hnd as [Hk' Hnd]. rewrite IH by done. simpl.
      destruct (OnlineSpec_of v'); [|done].
      apply dict_get_set_ne. by intros ->.
    + by rewrite IH.
Qed.

Lemma collect_all_raised done online :
  Forall (fun o => exists e, o = Raised e) done -> collect done online = online.
Proof.
  induction 1 as [|o done [e ->] _ IH]; [done|]. by rewrite collect_cons.
Qed.
End Collect.

Section Pools.
Implicit Types (ts : list task) (st : state).

(** The futures that return carry the keys of their tasks, in the order
    of the run. *)
Lemma run_pool_keys ts st done st' :
  run_pool ts st = (done, st') -> returned_keys done `sublist_of` (key <$> ts).
Proof.
  revert st done st'. induction ts as [|t ts IH]; intros st done st' Hrun; simpl in *.
  - simplify_eq. constructor.
  - destruct (run_task t st) as [o st1] eqn:Ht.
    destruct (run_pool ts st1) as [os st2] eqn:Hts. simplify_eq.
    specialize (IH _ _ _ Hts). unfold run_task in Ht.
    destruct (lookup t st) as [[v|e] ?]; simplify_eq; csimpl.
    + by constructor.
    + by constructor.
Qed.

(** A task runs in the state that the tasks before it have left,
    whatever they did, and the tasks after it run in the state it
    leaves. *)
Lemma run_pool_app pre t post st done st' :
  run_pool (pre ++ t :: post) st = (done, st') ->
  exists outs1 st1 r st2 outs2,
    run_pool pre st = (outs1, st1)
    /\ lookup t st1 = (r, st2)
    /\ run_pool post st2 = (outs2, st')
    /\ done = outs1 ++ match r with
                       | Ok v => Returned (key t) v
                       | Raise e => Raised e
                       end :: outs2.
Proof.
  revert st done. induction pre as [|p pre IH]; intros st done Hrun; simpl in Hrun.
  - unfold run_task in Hrun.
    destruct (lookup t st) as [[v|e] st2] eqn:Ht;
      destruct (run_pool post st2) as [outs2 st3] eqn:Hpost; simplify_eq;
      by eexists [], st, _, st2, outs2.
  - destruct (run_task p st) as [o st0] eqn:Hp.
    destruct (run_pool (pre ++ t :: post) st0) as [outs st3] eqn:Hrest.
    simplify_eq.
    destruct (IH _ _ Hrest) as (outs1 & st1 & r & st2 & outs2 & Hpre & Ht & Hpost & ->).
    exists (o :: outs1), st1, r, st2, outs2. simpl. rewrite Hp, Hpre. done.
Qed.

Lemma run_pool_all_raise ts st e :
  (forall t, t ∈ ts -> run_task t st = (Raised e, st)) ->
  exists done, run_pool ts st = (done, st) /\ Forall (fun o => exists e, o = Raised e) done.
Proof.
  induction ts as [|t ts IH]; intros Hall; simpl.
  - by exists [].
  - rewrite Hall by set_solver.
    destruct IH as (done & -> & Hdone); [set_solver|].
    exists (Raised e :: done). split; [done|]. constructor; eauto.
Qed.
End Pools.

Lemma gpu_key_inj : Inj (=) (=) (fun i : nat => "gpu" +:+ pretty i).
Proof. intros i j H. by apply (inj (String.append "gpu")), (inj pretty) in H. Qed.

Lemma identifiers_NoDup rep : NoDup (identifiers rep).
Proof.
  unfold identifiers. apply NoDup_app. split_and!.
  - destruct (cpu rep); [apply NoDup_singleton | constructor].
  - intros x Hx Hgpu. destruct (cpu rep); [|by apply elem_of_nil in Hx].
    apply list_elem_of_singleton in Hx as ->.
    apply elem_of_lookup_imap in Hgpu as (i & g & Heq & _). discriminate.
  - rewrite (imap_seq_0 _ (fun i => "gpu" +:+ pretty i)).
    apply (@NoDup_fmap_2 _ _ _ gpu_key_inj), NoDup_seq.
Qed.

Section Orchestrator.
Variable net : list string -> string -> option response.
Variable py_repr : json -> string.

Lemma gpu_futures_keys (n : nat) (l : list GPUInfo) :
  (key <$> omap (fun ig =>
                   if negb (String.eqb (gpu_name (snd ig)) "")
                   then Some {| key := "gpu" +:+ pretty (fst ig);
                                lookup := _techpowerup_gpu_specs net py_repr (gpu_name (snd ig)) |}
                   else None)
                (imap (fun i g => (n + i, g)) l))
  `sublist_of` imap (fun i _ => "gpu" +:+ pretty (n + i)) l.
Proof.
  revert n. induction l as [|g l IH]; intros n; [constructor|].
  rewrite !imap_cons.
  rewrite (imap_ext _ (fun i g => (S n + i, g))) by (intros; simpl; f_equal; lia).
  rewrite (imap_ext (_ ∘ S) (fun i _ => "gpu" +:+ pretty (S n + i)))
    by (intros; simpl; do 2 f_equal; lia).
  csimpl. destruct (negb (String.eqb (gpu_name g) "")); csimpl.
  - constructor. apply (IH (S n)).
  - constructor. apply (IH (S n)).
Qed.

(** The keys of the submitted tasks are identifiers of the components,
    each at most once. *)
Lemma futures_keys rep :
  (key <$> futures net py_repr rep) `sublist_of` identifiers rep.
Proof.
  unfold futures, identifiers. rewrite fmap_app. apply sublist_app.
  - unfold cpu_futures. destruct (cpu rep) as [c|]; [|constructor].
    destruct (negb (String.eqb (cpu_name c) "")); [|apply sublist_nil_l].
    by destruct (Py.contains "intel" (Py.lower (manufacturer c))
                 || Py.startswith "intel " (Py.lower (cpu_name c))).
  - apply (gpu_futures_keys 0).
Qed.

Lemma futures_keys_NoDup rep : NoDup (key <$> futures net py_repr rep).
Proof. eapply sublist_NoDup; [apply identifiers_NoDup | apply futures_keys]. Qed.

Variable max_workers : Z.
Variable schedule : list task -> list task.
Variable as_completed : list outcome -> list outcome.
Hypothesis schedule_perm : forall l, schedule l ≡ₚ l.
Hypothesis as_completed_perm : forall l, as_completed l ≡ₚ l.

Lemma returned_keys_as_completed done :
  returned_keys (as_completed done) ≡ₚ returned_keys done.
Proof. unfold returned_keys. by rewrite as_completed_perm. Qed.

(** C8. For every batch of tasks with distinct keys and a pool of one
    worker or more, the loop over the finished futures ends and the
    report is returned, whichever tasks raised. Every task of the batch
    runs, in the state that the tasks scheduled before it have left,
    whether they raised or not. A task whose lookup raises leaves the
    entry of its key as it was, and so does one that returns data from
    which no record can be built; a task whose lookup returns
    well-formed data has, under its key, the record built from exactly
    that data, whatever its siblings did. The tasks that
    [enrich_online] submits have distinct keys. *)
Theorem C8_failure_isolation (fs : list task) (online : list (string * OnlineSpec))
        (st : state) :
  (0 < max_workers)%Z ->
  NoDup (key <$> fs) ->
  exists done st',
    run_pool (schedule fs) st = (done, st')
    /\ gather max_workers schedule as_completed fs online st
       = (Ok (collect (as_completed done) online), st')
    /\ (forall k v spec,
           Returned k v ∈ done -> OnlineSpec_of v = Ok spec ->
           dict_get k (collect (as_completed done) online) = Some spec)
    /\ (forall k,
           k ∉ returned_keys done ->
           dict_get k (collect (as_completed done) online) = dict_get k online)
    /\ (forall rep, NoDup (key <$> futures net py_repr rep))
    /\ (forall pre t post,
           schedule fs = pre ++ t :: post ->
           exists outs1 st1 r st2,
             run_pool pre st = (outs1, st1)
             /\ lookup t st1 = (r, st2)
             /\ match r with
                | Ok v =>
                    Returned (key t) v ∈ done
                    /\ match OnlineSpec_of v with
                       | Ok spec =>
                           dict_get (key t) (collect (as_completed done) online) = Some spec
                       | Raise _ =>
                           dict_get (key t) (collect (as_completed done) online)
                           = dict_get (key t) online
                       end
                | Raise e =>
                    Raised e ∈ done
                    /\ dict_get (key t) (collect (as_completed done) online)
                       = dict_get (key t) online
                end)
    /\ (forall t v spec,
           t ∈ fs ->
           (forall s, exists s', lookup t s = (Ok v, s')) ->
           OnlineSpec_of v = Ok spec ->
           dict_get (key t) (collect (as_completed done) online) = Some spec).
Proof.
  intros Hw Hnd.
  destruct (run_pool (schedule fs) st) as [done st'] eqn:Hrun.
  exists done, st'.
  assert (Hkeys : NoDup (returned_keys done)).
  { eapply sublist_NoDup; [|by eapply run_pool_keys]. by rewrite schedule_perm. }
  assert (Hentry : forall k v spec,
             Returned k v ∈ done -> OnlineSpec_of v = Ok spec ->
             dict_get k (collect (as_completed done) online) = Some spec).
  { intros k v spec Hin Hspec. eapply collect_entry; [|by rewrite as_completed_perm|done].
    by rewrite returned_keys_as_completed. }
  assert (Hother : forall k,
             k ∉ returned_keys done ->
             dict_get k (collect (as_completed done) online) = dict_get k online).
  { intros k Hk. apply collect_other. by rewrite returned_keys_as_completed. }
  assert (Htrace : forall pre t post,
             schedule fs = pre ++ t :: post ->
             exists outs1 st1 r st2,
               run_pool pre st = (outs1, st1)
               /\ lookup t st1 = (r, st2)
               /\ match r with
                  | Ok v =>
                      Returned (key t) v ∈ done
                      /\ match OnlineSpec_of v with
                         | Ok spec =>
                             dict_get (key t) (collect (as_completed done) online) = Some spec
                         | Raise _ =>
                             dict_get (key t) (collect (as_completed done) online)
                             = dict_get (key t) online
                         end
                  | Raise e =>
                      Raised e ∈ done
                      /\ dict_get (key t) (collect (as_completed done) online)
                         = dict_get (key t) online
                  end).
  { intros pre t post Hsplit. rewrite Hsplit in Hrun.
    destruct (run_pool_app _ _ _ _ _ _ Hrun)
      as (outs1 & st1 & r & st2 & outs2 & Hpre & Ht & Hpost & Hdone).
    exists outs1, st1, r, st2. split_and!; [done | done |].
    destruct r as [v|e].
    - assert (Hin : Returned (key t) v ∈ done).
      { rewrite Hdone. apply elem_of_app. right. by left. }
      split; [done|].
      destruct (OnlineSpec_of v) as [spec|e] eqn:Hspec; [by eapply Hentry|].
      eapply collect_ill_formed; [|by rewrite as_completed_perm|done].
      by rewrite returned_keys_as_completed.
    - split; [rewrite Hdone; apply elem_of_app; right; by left|].
      apply Hother. rewrite Hdone. unfold returned_keys. rewrite omap_app. simpl.
      assert (Hndk : NoDup (key <$> pre ++ t :: post)).
      { rewrite <- Hsplit. by rewrite schedule_perm. }
      rewrite fmap_app, fmap_cons in Hndk.
      apply NoDup_app in Hndk as (_ & Hpre_post & Hpost_nd).
      apply NoDup_cons in Hpost_nd as [Hpost_t _].
      intros [Hin|Hin]%elem_of_app.
      + apply (Hpre_post (key t)); [|by left].
        eapply sublist_subseteq; [by eapply run_pool_keys|done].
      + apply Hpost_t. eapply sublist_subseteq; [by eapply run_pool_keys|done]. }
  split_and!; [done| | done | done | apply futures_keys_NoDup | done |].
  - unfold gather. destruct (Z.leb_spec max_workers 0); [lia|]. by rewrite Hrun.
  - intros t v spec Ht Hall Hspec.
    assert (Hsched : t ∈ schedule fs) by (by rewrite schedule_perm).
    apply list_elem_of_split in Hsched as (pre & post & Hsplit).
    destruct (Htrace pre t post Hsplit) as (outs1 & st1 & r & st2 & _ & Hlook & Hr).
    destruct (Hall st1) as [s' Hs']. rewrite Hs' in Hlook. simplify_eq.
    destruct Hr as [_ Hr]. by rewrite Hspec in Hr.
Qed.

(** C9. For every inventory, when [enrich_online] returns a report, the
    keys of its [online] mapping are identifiers of the input
    components, [cpu] for the processor and [gpu] followed by its index
    for a video controller, and no key occurs twice. It does return one
    whenever the pool has one worker or more, or the online flag is
    off. *)
Theorem C9_report_keys (w : inventory) (online_flag : bool) (st : state) :
  ((0 < max_workers)%Z \/ online_flag = false ->
   exists rep' st',
     enrich_online net py_repr max_workers schedule as_completed
                   (collect_local w) online_flag st = (Ok rep', st'))
  /\ (forall rep' st',
         enrich_online net py_repr max_workers schedule as_completed
                       (collect_local w) online_flag st = (Ok rep', st') ->
         dict_keys (online rep') ⊆ identifiers (collect_local w)
         /\ NoDup (dict_keys (online rep'))).
Proof.
  unfold enrich_online, gather. split.
  - intros Hok. destruct online_flag; simpl; [|by eauto].
    destruct Hok as [Hw|?]; [|done]. run.
    destruct (Z.leb_spec max_workers 0); [lia|].
    destruct (run_pool _ st) as [done st']. by eauto.
  - intros rep' st'. destruct online_flag; simpl.
    2: { intros [= <- <-]. simpl. split; [set_solver | constructor]. }
    run. destruct (Z.leb_spec max_workers 0); [done|].
    destruct (run_pool _ st) as [done st1] eqn:Hrun. intros [= <- <-]. simpl.
    split; [|apply collect_NoDup; constructor].
    intros k [Hk|Hk]%collect_keys; [by apply elem_of_nil in Hk|].
    rewrite returned_keys_as_completed in Hk.
    apply run_pool_keys in Hrun.
    apply (sublist_subseteq _ _ Hrun) in Hk. rewrite schedule_perm in Hk.
    by apply (sublist_subseteq _ _ (futures_keys (collect_local w))).
Qed.

Lemma futures_unbound rep t log :
  t ∈ futures net py_repr rep ->
  run_task t {| CACHE := None; requests := log |}
  = (Raised NameError, {| CACHE := None; requests := log |}).
Proof.
  unfold futures. intros [Ht|Ht]%elem_of_app.
  - unfold cpu_futures in Ht. destruct (cpu rep) as [c|]; [|by apply elem_of_nil in Ht].
    destruct (negb (String.eqb (cpu_name c) "")); [|by apply elem_of_nil in Ht].
    destruct (Py.contains "intel" (Py.lower (manufacturer c))
              || Py.startswith "intel " (Py.lower (cpu_name c)));
      by apply list_elem_of_singleton in Ht as ->.
  - unfold gpu_futures in Ht. apply list_elem_of_omap in Ht as ([i g] & _ & Ht).
    simpl in Ht. destruct (negb (String.eqb (gpu_name g) "")); by simplify_eq.
Qed.

(** C10. [HWOC.py] never binds [CACHE]. In a process where the name is
    unbound, [_cache_or_fetch_json] raises [NameError] at its first
    line, so every lookup task that [enrich_online] submits raises it
    before any request is sent; the loop over the futures swallows each
    of them, and [enrich_online], on a pool of one worker or more,
    returns the report as it received it, with the empty [online]
    mapping that [collect_local] gave it. With the cache-refresh flag,
    [main] raises [NameError], which nothing catches. *)
Theorem C10_cache_is_unbound (log : list string) :
  let st := {| CACHE := CACHE module_state; requests := log |} in
  CACHE module_state = None
  /\ (forall key fetch_fn, _cache_or_fetch_json key fetch_fn st = (Raise NameError, st))
  /\ (forall rep t, t ∈ futures net py_repr rep -> run_task t st = (Raised NameError, st))
  /\ (forall rep online_flag,
         (0 < max_workers)%Z ->
         enrich_online net py_repr max_workers schedule as_completed rep online_flag st
         = (Ok rep, st))
  /\ (forall w online_flag,
         (0 < max_workers)%Z ->
         exists rep',
           enrich_online net py_repr max_workers schedule as_completed
                         (collect_local w) online_flag st = (Ok rep', st)
           /\ online rep' = [])
  /\ (forall no_online w,
         main net py_repr max_workers schedule as_completed true no_online w st
         = (Raise NameError, st)).
Proof.
  simpl.
  assert (Henrich : forall rep online_flag,
             (0 < max_workers)%Z ->
             enrich_online net py_repr max_workers schedule as_completed rep online_flag
                           {| CACHE := None; requests := log |}
             = (Ok rep, {| CACHE := None; requests := log |})).
  { intros rep [|] Hw; unfold enrich_online, gather; simpl; [|done]. run.
    destruct (Z.leb_spec max_workers 0); [lia|].
    destruct (run_pool_all_raise (schedule (futures net py_repr rep))
                {| CACHE := None; requests := log |} NameError) as (done & -> & Hdone).
    { intros t Ht. rewrite schedule_perm in Ht. by eapply futures_unbound. }
    rewrite collect_all_raised by (by rewrite as_completed_perm).
    by destruct rep. }
  split_and!; [done | done | | done | |done].
  - intros rep t. apply futures_unbound.
  - intros w online_flag Hw. exists (collect_local w). by rewrite Henrich.
Qed.
End Orchestrator.

(** ** The claims on the samples *)

(** C1, as stated, fails: with the network down the lookup of [i7] fails
    (the [try] block raises), and yet the call writes the empty mapping
    under the key, which the store did not hold before. *)
Lemma C1_failed_lookup_is_stored :
  fst (wikipedia_try offline no_repr "i7" fresh) = Raise HTTPError
  /\ stored fresh "wikipedia:i7" = None
  /\ fst (_wikipedia_summary offline no_repr "i7" fresh) = Ok (JDict [])
  /\ stored (snd (_wikipedia_summary offline no_repr "i7" fresh)) "wikipedia:i7"
     = Some (JDict []).
Proof. vm_compute. by split_and!. Qed.

(** C2, as stated, fails: the ARK search page has no matching link, the
    fallback resolver fails too, and the record built from the result has
    the empty source, not the source of the fallback resolver. *)
Lemma C2_source_is_empty_when_fallback_fails :
  no_link_net [] (intel_search_url "i7") = Some (page_response bare_page)
  /\ first_link "/products/" bare_page = None
  /\ and_then (fst (_intel_ark_specs no_link_net no_repr "i7" fresh)) OnlineSpec_of
     = Ok {| source := JStr ""; official_url := JStr ""; fields := JDict [] |}
  /\ JStr "" <> JStr (source_tag wikipedia).
Proof. vm_compute. by split_and!. Qed.

(** C3, as stated, fails: the first call returns the empty result while
    the network is down; the second call with the same name sends three
    requests more and returns another result. *)
Lemma C3_second_call_fetches_again :
  let first := _intel_ark_specs recovering_net no_repr "i7" fresh in
  let second := _intel_ark_specs recovering_net no_repr "i7" (snd first) in
  fst first = Ok (JDict [])
  /\ fst second = Ok (wikipedia_found no_repr (JNum 42) (JStr "Coffee Lake desktop processor."))
  /\ fst second <> fst first
  /\ length (requests (snd first)) = 2
  /\ length (requests (snd second)) = 5.
Proof. vm_compute. by split_and!. Qed.

(** C4, as stated, fails: a page with no pair and no title gives the
    entry [title] with the name of the component, not the empty mapping;
    and the TechPowerUp resolver does not read the [dt]/[dd] pair of a
    page. *)
Lemma C4_no_title_gives_the_name :
  intel_fields bare_page "Core i7-9700K" = [("title", "Core i7-9700K")]
  /\ intel_fields bare_page "Core i7-9700K" <> []
  /\ techpowerup_fields bare_page "RTX 4090" = [("title", "RTX 4090")]
  /\ dt_pairs dt_page = [("Architecture", "Ada Lovelace")]
  /\ techpowerup_fields dt_page "RTX 4090" = [("title", "RTX 4090 Specs")].
Proof. vm_compute. by split_and!. Qed.

(** C7, as stated, fails: the name contains [intel] in lower case, so a
    substring match recognises the vendor, and yet the CPU is routed to
    the generic fallback resolver. *)
Lemma C7_name_is_matched_by_prefix :
  Py.contains "intel" (Py.lower "Intel(R) Core(TM) i7-9700K") = true
  /\ route_by_substring CPU "" "Intel(R) Core(TM) i7-9700K" = intel_ark
  /\ route CPU "" "Intel(R) Core(TM) i7-9700K" = Some wikipedia.
Proof. vm_compute. by split_and!. Qed.

(** The amended C1 on a store that holds the empty mapping of an earlier
    failed lookup: the entry is a miss. *)
Lemma C1_witness :
  hit (stale_store !! "wikipedia:i7") = false
  /\ (forall d c' log',
         wikipedia_fetch offline no_repr "i7" {| CACHE := Some stale_store; requests := [] |}
         = (Ok (JDict d), {| CACHE := Some c'; requests := log' |}) ->
         _cache_or_fetch_json "wikipedia:i7" (wikipedia_fetch offline no_repr "i7")
                              {| CACHE := Some stale_store; requests := [] |}
         = (Ok (JDict d), {| CACHE := Some (<["wikipedia:i7" := JDict d]> c'); requests := log' |})).
Proof.
  split; [vm_compute; reflexivity|].
  apply (C1_cache_layer_writes "wikipedia:i7" (wikipedia_fetch offline no_repr "i7")
                               stale_store []).
  vm_compute; reflexivity.
Defined.

(** The amended C2 on the ARK search page with no link. *)
Lemma C2_witness :
  hit ((∅ : store) !! cache_key (vendor_resolver Intel) "i7") = false
  /\ no_link_net [] (vendor_search_url Intel "i7") = Some (page_response bare_page)
  /\ first_link (vendor_pattern Intel) (body_soup (page_response bare_page)) = None
  /\ exists w c1 log1,
      _wikipedia_summary no_link_net no_repr "i7"
        {| CACHE := Some ∅; requests := [vendor_search_url Intel "i7"] |}
      = (Ok w, {| CACHE := Some c1; requests := log1 |})
      /\ resolve no_link_net no_repr (vendor_resolver Intel) "i7"
           {| CACHE := Some ∅; requests := [] |}
         = (if is_dict w
            then (Ok w, {| CACHE := Some (<[cache_key (vendor_resolver Intel) "i7" := w]> c1);
                           requests := log1 |})
            else (Ok (JDict []), {| CACHE := Some c1; requests := log1 |}))
      /\ (hit ((∅ : store) !! wikipedia_key "i7") = false \/ fallback_entries_ok ∅ ->
          is_dict w = true /\
          resolve no_link_net no_repr (vendor_resolver Intel) "i7"
            {| CACHE := Some ∅; requests := [] |}
          = (Ok w, {| CACHE := Some (<[cache_key (vendor_resolver Intel) "i7" := w]> c1);
                      requests := log1 |}) /\
          exists spec,
            OnlineSpec_of w = Ok spec /\
            (source spec = JStr "wikipedia"
             \/ (source spec = JStr "" /\ fields spec = JDict [])) /\
            source spec <> JStr (source_tag (vendor_resolver Intel))).
Proof.
  split_and!; [vm_compute; reflexivity..|].
  apply (C2_no_link_delegates no_link_net no_repr Intel "i7" ∅ [] (page_response bare_page));
    vm_compute; reflexivity.
Defined.

(** The amended C3 on a lookup that the encyclopedia answers. *)
Lemma C3_witness :
  let v := wikipedia_found no_repr (JNum 42) (JStr "Coffee Lake desktop processor.") in
  let st' := snd (resolve encyclopedia_net no_repr wikipedia "i7" fresh) in
  resolve encyclopedia_net no_repr wikipedia "i7" fresh = (Ok v, st')
  /\ (truthy v = true ->
      forall net' py_repr', resolve net' py_repr' wikipedia "i7" st' = (Ok v, st'))
  /\ (truthy v = false ->
      exists w st'' new,
        resolve encyclopedia_net no_repr wikipedia "i7" st' = (Ok w, st'') /\
        requests st'' = new ++ requests st' /\
        1 <= length new).
Proof.
  intros v st'.
  assert (Hrun : resolve encyclopedia_net no_repr wikipedia "i7" fresh = (Ok v, st'))
    by (vm_compute; reflexivity).
  split; [exact Hrun|].
  exact (C3_second_call encyclopedia_net no_repr wikipedia "i7" fresh v st' Hrun).
Defined.

(** C6 on a lookup that the encyclopedia answers. *)
Lemma C6_witness :
  let v := wikipedia_found no_repr (JNum 42) (JStr "Coffee Lake desktop processor.") in
  let st' := snd (_wikipedia_summary encyclopedia_net no_repr "i7" fresh) in
  _wikipedia_summary encyclopedia_net no_repr "i7" {| CACHE := Some ∅; requests := [] |}
  = (Ok v, st')
  /\ truthy v = true
  /\ (hit ((∅ : store) !! wikipedia_key "i7") = false ->
      exists pageid extract summary,
        wikipedia_answered encyclopedia_net no_repr "i7" [] pageid extract summary
        /\ OnlineSpec_of v
           = Ok {| source := JStr "wikipedia";
                   official_url := JStr ("https://en.wikipedia.org/?curid=" +:+ py_str no_repr pageid);
                   fields := JDict [("summary", summary)] |}
        /\ json_slice_to 1200 extract = Ok summary
        /\ json_len summary <= 1200
        /\ (forall s, extract = JStr s ->
              summary = JStr (Py.slice_to 1200 s)
              /\ String.length (Py.slice_to 1200 s) <= 1200
              /\ (exists rest, s = Py.slice_to 1200 s +:+ rest)
              /\ (String.length s <= 1200 -> Py.slice_to 1200 s = s)))
  /\ (fallback_entries_ok ∅ ->
      exists url summary,
        OnlineSpec_of v
        = Ok {| source := JStr "wikipedia";
                official_url := JStr url;
                fields := JDict [("summary", summary)] |}
        /\ json_len summary <= 1200).
Proof.
  intros v st'.
  assert (Hrun : _wikipedia_summary encyclopedia_net no_repr "i7"
                   {| CACHE := Some ∅; requests := [] |} = (Ok v, st'))
    by (vm_compute; reflexivity).
  assert (Hv : truthy v = true) by reflexivity.
  split_and!; [exact Hrun | exact Hv | |];
    apply (C6_fallback_summary encyclopedia_net no_repr "i7" ∅ [] v st' Hrun Hv).
Defined.

(** C8 on a batch whose first task always raises: the report has the
    record of the second task under [gpu0] and nothing under [cpu]. *)
Lemma C8_witness :
  (forall l : list task, id l ≡ₚ l)
  /\ (forall l : list outcome, id l ≡ₚ l)
  /\ (0 < 4)%Z
  /\ NoDup (key <$> sample_batch)
  /\ gather 4 id id sample_batch [] fresh
     = (Ok [("gpu0",
             {| source := JStr "wikipedia";
                official_url := JStr "https://en.wikipedia.org/?curid=42";
                fields := JDict [("summary", JStr "An Ada Lovelace GPU.")] |})],
        fresh)
  /\ exists done st',
      run_pool (id sample_batch) fresh = (done, st')
      /\ gather 4 id id sample_batch [] fresh = (Ok (collect (id done) []), st')
      /\ (forall k v spec,
             Returned k v ∈ done -> OnlineSpec_of v = Ok spec ->
             dict_get k (collect (id done) []) = Some spec)
      /\ (forall k,
             k ∉ returned_keys done ->
             dict_get k (collect (id done) []) = dict_get k [])
      /\ (forall rep, NoDup (key <$> futures offline no_repr rep))
      /\ (forall pre t post,
             id sample_batch = pre ++ t :: post ->
             exists outs1 st1 r st2,
               run_pool pre fresh = (outs1, st1)
               /\ lookup t st1 = (r, st2)
               /\ match r with
                  | Ok v =>
                      Returned (key t) v ∈ done
                      /\ match OnlineSpec_of v with
                         | Ok spec => dict_get (key t) (collect (id done) []) = Some spec
                         | Raise _ =>
                             dict_get (key t) (collect (id done) []) = dict_get (key t) []
                         end
                  | Raise e =>
                      Raised e ∈ done
                      /\ dict_get (key t) (collect (id done) []) = dict_get (key t) []
                  end)
      /\ (forall t v spec,
             t ∈ sample_batch ->
             (forall s, exists s', lookup t s = (Ok v, s')) ->
             OnlineSpec_of v = Ok spec ->
             dict_get (key t) (collect (id done) []) = Some spec).
Proof.
  assert (Hs : forall l : list task, id l ≡ₚ l) by (intros l; reflexivity).
  assert (Hc : forall l : list outcome, id l ≡ₚ l) by (intros l; reflexivity).
  assert (Hw : (0 < 4)%Z) by reflexivity.
  assert (Hnd : NoDup (key <$> sample_batch))
    by (apply (bool_decide_unpack _); vm_compute; exact I).
  split_and!; [exact Hs | exact Hc | exact Hw | exact Hnd | vm_compute; reflexivity |].
  exact (C8_failure_isolation offline no_repr 4 id id Hs Hc sample_batch [] fresh Hw Hnd).
Defined.

(** C9 on a machine with an Intel processor and two video controllers,
    one of them without a name. *)
Lemma C9_witness :
  (forall l : list task, id l ≡ₚ l)
  /\ (forall l : list outcome, id l ≡ₚ l)
  /\ ((0 < 4)%Z \/ true = false ->
      exists rep' st',
        enrich_online encyclopedia_net no_repr 4 id id
                      (collect_local sample_inventory) true fresh = (Ok rep', st'))
  /\ (forall rep' st',
         enrich_online encyclopedia_net no_repr 4 id id
                       (collect_local sample_inventory) true fresh = (Ok rep', st') ->
         dict_keys (online rep') ⊆ identifiers (collect_local sample_inventory)
         /\ NoDup (dict_keys (online rep'))).
Proof.
  assert (Hs : forall l : list task, id l ≡ₚ l) by (intros l; reflexivity).
  assert (Hc : forall l : list outcome, id l ≡ₚ l) by (intros l; reflexivity).
  split_and!; [exact Hs | exact Hc | |];
    apply (C9_report_keys encyclopedia_net no_repr 4 id id Hs Hc sample_inventory true fresh).
Defined.

(** C10 on the same machine, in the state the module leaves. *)
Lemma C10_witness :
  (forall l : list task, id l ≡ₚ l)
  /\ (forall l : list outcome, id l ≡ₚ l)
  /\ (0 < 4)%Z
  /\ enrich_online encyclopedia_net no_repr 4 id id
                   (collect_local sample_inventory) true module_state
     = (Ok (collect_local sample_inventory), module_state)
  /\ main encyclopedia_net no_repr 4 id id true false sample_inventory module_state
     = (Raise NameError, module_state).
Proof.
  assert (Hs : forall l : list task, id l ≡ₚ l) by (intros l; reflexivity).
  assert (Hc : forall l : list outcome, id l ≡ₚ l) by (intros l; reflexivity).
  assert (Hw : (0 < 4)%Z) by reflexivity.
  pose proof (C10_cache_is_unbound encyclopedia_net no_repr 4 id id Hs Hc [])
    as (_ & _ & _ & Henrich & _ & Hmain).
  split_and!; [exact Hs | exact Hc | exact Hw | |].
  - exact (Henrich (collect_local sample_inventory) true Hw).
  - exact (Hmain false sample_inventory).
Defined.

(** What the samples compute: the report of the sample machine when the
    encyclopedia alone answers, and when [CACHE] is unbound. *)
Example enrich_online_sample :
  let rep := fst (enrich_online encyclopedia_net no_repr 4 id id
                                (collect_local sample_inventory) true fresh) in
  (fun r => dict_keys (online r)) <$> result_to_option rep = Some ["cpu"; "gpu0"].
Proof. vm_compute. reflexivity. Qed.

(** ** More on [normspace] *)

Lemma chars_rev_app s acc :
  list_ascii_of_string (String.rev_app s acc)
  = List.rev (list_ascii_of_string s) ++ list_ascii_of_string acc.
Proof.
  revert acc. induction s as [|c s IH]; intros acc; simpl; [done|].
  rewrite IH. simpl. by rewrite <- app_assoc.
Qed.

Lemma chars_rev s :
  list_ascii_of_string (String.rev s) = List.rev (list_ascii_of_string s).
Proof. unfold String.rev. rewrite chars_rev_app. simpl. by rewrite app_nil_r. Qed.

Lemma chars_inj s t : list_ascii_of_string s = list_ascii_of_string t -> s = t.
Proof.
  intros H. rewrite <- (string_of_list_ascii_of_string s), H.
  apply string_of_list_ascii_of_string.
Qed.

Lemma string_rev_involutive s : String.rev (String.rev s) = s.
Proof. apply chars_inj. by rewrite !chars_rev, rev_involutive. Qed.

(** [lstrip] removes a prefix of white space and leaves a text that does
    not start with white space. *)
Lemma lstrip_cases s :
  exists pre,
    list_ascii_of_string s = pre ++ list_ascii_of_string (Py.lstrip s)
    /\ Forall (fun c => Py.isspace c = true) pre
    /\ starts_clean (list_ascii_of_string (Py.lstrip s)).
Proof.
  induction s as [|c s (pre & Hs & Hpre & Hhead)]; simpl.
  - by exists [].
  - destruct (Py.isspace c) eqn:Hc.
    + exists (c :: pre). rewrite Hs. split_and!; [done | by constructor | done].
    + exists []. by split_and!.
Qed.

Lemma lstrip_id s : starts_clean (list_ascii_of_string s) -> Py.lstrip s = s.
Proof. destruct s as [|c s]; simpl; [done|]. by intros ->. Qed.

Lemma tidy_chars_nil : tidy_chars [].
Proof.
  split; [by intros c Hc%elem_of_nil|].
  intros l1 a b l2 H. by destruct l1.
Qed.

Lemma tidy_chars_cons c l :
  tidy_chars l ->
  (Py.isspace c = true -> c = " "%char /\ starts_clean l) ->
  tidy_chars (c :: l).
Proof.
  intros [Hsp Hadj] Hc. split.
  - intros x [->|Hx]%elem_of_cons Hws; [by apply Hc | by apply Hsp].
  - intros [|x l1] a b l2 Heq Ha Hb; simplify_eq/=.
    + destruct (Hc Ha) as [_ Hclean]. simpl in Hclean. congruence.
    + by eapply Hadj.
Qed.

Lemma tidy_chars_suffix pre l : tidy_chars (pre ++ l) -> tidy_chars l.
Proof.
  intros [Hsp Hadj]. split.
  - intros c Hc. apply Hsp. set_solver.
  - intros l1 a b l2 -> Ha Hb. apply (Hadj (pre ++ l1) a b l2); [|done..].
    by rewrite <- app_assoc.
Qed.

Lemma tidy_chars_rev l : tidy_chars l -> tidy_chars (List.rev l).
Proof.
  intros [Hsp Hadj]. split.
  - intros c Hc. apply Hsp. by apply list_elem_of_In, in_rev, list_elem_of_In.
  - intros l1 a b l2 Heq Ha Hb.
    apply (f_equal (@List.rev ascii)) in Heq.
    rewrite rev_involutive, rev_app_distr in Heq. simpl in Heq.
    rewrite <- !app_assoc in Heq. simpl in Heq.
    by eapply Hadj.
Qed.

(** What [re.sub] leaves: single spaces, and no leading one when the
    text before ended in white space. *)
Lemma sub_spaces_tidy in_run s :
  tidy_chars (list_ascii_of_string (Py.sub_spaces in_run s))
  /\ (in_run = true -> starts_clean (list_ascii_of_string (Py.sub_spaces in_run s))).
Proof.
  revert in_run. induction s as [|c s IH]; intros in_run; simpl.
  - split; [apply tidy_chars_nil | done].
  - destruct (Py.isspace c) eqn:Hc.
    + destruct in_run.
      * apply IH.
      * destruct (IH true) as [Ht Hclean]. split; [|done]. simpl.
        apply tidy_chars_cons; [done|]. intros _. split; [done | by apply Hclean].
    + destruct (IH false) as [Ht _]. simpl. split; [|by intros _].
      apply tidy_chars_cons; [done|]. simpl. congruence.
Qed.

(** A text of that shape is left as it is by [re.sub]. *)
Lemma sub_spaces_fix in_run s :
  tidy_chars (list_ascii_of_string s) ->
  (in_run = true -> starts_clean (list_ascii_of_string s)) ->
  Py.sub_spaces in_run s = s.
Proof.
  revert in_run. induction s as [|c s IH]; intros in_run Ht Hclean; simpl; [done|].
  simpl in Ht. pose proof (tidy_chars_suffix [c] _ Ht) as Ht'.
  destruct (Py.isspace c) eqn:Hc.
  - destruct in_run; [specialize (Hclean eq_refl); simpl in Hclean; congruence|].
    destruct Ht as [Hsp Hadj].
    rewrite (Hsp c) by (done || set_solver). f_equal. apply IH; [done|].
    intros _. destruct s as [|b s]; simpl; [done|].
    destruct (Py.isspace b) eqn:Hb; [|done].
    exfalso. by apply (Hadj [] c b (list_ascii_of_string s)).
  - f_equal. apply IH; [done | done].
Qed.

(** What [normspace] returns is of that shape at both ends. *)
Lemma normspace_shape s :
  tidy_chars (list_ascii_of_string (normspace s))
  /\ starts_clean (list_ascii_of_string (normspace s))
  /\ starts_clean (List.rev (list_ascii_of_string (normspace s))).
Proof.
  unfold normspace, Py.strip.
  set (u := Py.sub_spaces false s).
  destruct (sub_spaces_tidy false s) as [Hu _]. fold u in Hu.
  destruct (lstrip_cases u) as (pre & Hpre & _ & Hv).
  set (v := Py.lstrip u) in *.
  assert (Htv : tidy_chars (list_ascii_of_string v))
    by (rewrite Hpre in Hu; by eapply tidy_chars_suffix).
  destruct (lstrip_cases (String.rev v)) as (pre' & Hpre' & _ & Hw).
  set (w := Py.lstrip (String.rev v)) in *.
  rewrite chars_rev in Hpre'.
  assert (Htw : tidy_chars (list_ascii_of_string w)).
  { apply tidy_chars_rev in Htv. rewrite Hpre' in Htv. by eapply tidy_chars_suffix. }
  rewrite chars_rev, rev_involutive. split_and!; [by apply tidy_chars_rev | | done].
  apply (f_equal (@List.rev ascii)) in Hpre'.
  rewrite rev_involutive, rev_app_distr in Hpre'.
  destruct (List.rev (list_ascii_of_string w)) as [|a l]; [done|].
  rewrite Hpre' in Hv. by simpl in Hv.
Qed.

(** X1. [normspace] is idempotent: a text that it has normalised is
    left as it is by a second pass. *)
Theorem normspace_idempotent (s : string) :
  normspace (normspace s) = normspace s.
Proof.
  destruct (normspace_shape s) as (Ht & Hhead & Hlast).
  set (t := normspace s) in *.
  unfold normspace at 1, Py.strip.
  rewrite sub_spaces_fix by done.
  rewrite (lstrip_id t) by done.
  rewrite (lstrip_id (String.rev t)) by (by rewrite chars_rev).
  apply string_rev_involutive.
Qed.

(** X2. In what [normspace] returns every white-space character is a
    space, no two white-space characters are next to each other, and
    neither the first nor the last character is white space. *)
Theorem normspace_single_spaces (s : string) :
  let l := list_ascii_of_string (normspace s) in
  (forall c, c ∈ l -> Py.isspace c = true -> c = " "%char)
  /\ (forall l1 a b l2, l = l1 ++ a :: b :: l2 ->
        ~ (Py.isspace a = true /\ Py.isspace b = true))
  /\ (forall c l', l = c :: l' -> Py.isspace c = false)
  /\ (forall c l', l = l' ++ [c] -> Py.isspace c = false).
Proof.
  destruct (normspace_shape s) as ([Hsp Hadj] & Hhead & Hlast). simpl.
  split_and!.
  - done.
  - intros l1 a b l2 Heq [Ha Hb]. by eapply Hadj.
  - intros c l' Heq. by rewrite Heq in Hhead.
  - intros c l' Heq. rewrite Heq, rev_app_distr in Hlast. done.
Qed.

Lemma visible_sub_spaces in_run s : visible (Py.sub_spaces in_run s) = visible s.
Proof.
  unfold visible. revert in_run.
  induction s as [|c s IH]; intros in_run; simpl; [done|].
  destruct (Py.isspace c) eqn:Hc; simpl.
  - destruct in_run; simpl; [apply IH|].
    change (Py.isspace " ") with true. simpl. apply IH.
  - rewrite Hc. simpl. f_equal. apply IH.
Qed.

Lemma visible_lstrip s : visible (Py.lstrip s) = visible s.
Proof.
  unfold visible. induction s as [|c s IH]; simpl; [done|].
  destruct (Py.isspace c) eqn:Hc; simpl; [done|]. by rewrite Hc.
Qed.

Lemma visible_rev s : visible (String.rev s) = List.rev (visible s).
Proof. unfold visible. by rewrite chars_rev, List.filter_rev. Qed.

(** X3. [normspace] keeps the characters that are not white space, all of
    them and in their order; it returns the empty text exactly when the
    text has no such character. *)
Theorem normspace_keeps_visible (s : string) :
  visible (normspace s) = visible s
  /\ (normspace s = "" <-> Forall (fun c => Py.isspace c = true) (list_ascii_of_string s)).
Proof.
  assert (Hvis : visible (normspace s) = visible s).
  { unfold normspace, Py.strip.
    by rewrite visible_rev, visible_lstrip, visible_rev, rev_involutive,
      visible_lstrip, visible_sub_spaces. }
  split; [done|].
  assert (Hall : forall l : list ascii,
             List.filter (fun c => negb (Py.isspace c)) l = []
             <-> Forall (fun c => Py.isspace c = true) l).
  { induction l as [|c l IH]; simpl; [by split|].
    destruct (Py.isspace c) eqn:Hc; simpl.
    - rewrite IH. split; [by constructor | by inversion 1].
    - split; [done|]. inversion 1. congruence. }
  rewrite <- Hall. fold (visible s). rewrite <- Hvis. split; [by intros ->|].
  destruct (normspace_shape s) as (_ & Hhead & _).
  unfold visible. destruct (normspace s) as [|c t]; [done|].
  simpl in *. by rewrite Hhead.
Qed.

(** ** What a lookup does to the network and to the store *)

Section Effects.
Variable net : list string -> string -> option response.
Variable py_repr : json -> string.

Lemma accepted_empty : accepted (JDict []).
Proof. by eexists. Qed.

Lemma accepted_is_dict v : accepted v -> is_dict v = true.
Proof. intros [spec H]. by destruct v. Qed.

Lemma store_accepted_insert c k v :
  store_accepted c -> accepted v -> store_accepted (<[k := v]> c).
Proof.
  intros Hc Hv k' v'. rewrite lookup_insert.
  case_decide; [by intros [= <-] | apply Hc].
Qed.

Lemma quiet_insert c k v : quiet c -> truthy v = false -> quiet (<[k := v]> c).
Proof.
  intros Hc Hv k' v'. rewrite lookup_insert.
  case_decide; [by intros [= <-] | apply Hc].
Qed.

(** All that a call of the generic fallback resolver does when [CACHE]
    is bound. *)
Lemma wikipedia_summary_effects title c log :
  exists v c' new,
    _wikipedia_summary net py_repr title {| CACHE := Some c; requests := log |}
    = (Ok v, {| CACHE := Some c'; requests := new ++ log |})
    /\ length new <= 2
    /\ (hit (c !! wikipedia_key title) = true -> new = [] /\ c' = c)
    /\ (forall k, k <> wikipedia_key title -> c' !! k = c !! k)
    /\ (store_accepted c -> accepted v /\ store_accepted c')
    /\ ((forall sent u, net sent u = None) -> quiet c -> v = JDict [] /\ quiet c').
Proof.
  destruct (wikipedia_summary_cases net py_repr title c log)
    as (v & c' & new & Hrun & _ & Hlen & Hcases).
  exists v, c', new. split_and!; [done | done | | | |].
  - intros Hhit. destruct Hcases as [(_ & _ & -> & ->)|(Hmiss & _)]; [done | congruence].
  - intros k Hk. destruct Hcases as [(_ & _ & -> & _)|(_ & -> & _)]; [done|].
    by rewrite lookup_insert_ne.
  - intros Hok. destruct Hcases as [(Hget & _ & -> & _)|(_ & -> & _ & Hshape & _)].
    + split; [by eapply Hok | done].
    + assert (accepted v)
        by (destruct Hshape as [->|(? & ? & ? & _ & ->)]; by eexists).
      split; [done | by apply store_accepted_insert].
  - intros Hoff Hq. destruct Hcases as [(Hget & Hv & _)|(_ & -> & _ & Hshape & _)].
    + apply Hq in Hget. congruence.
    + destruct Hshape as [->|(? & ? & ? & (r1 & ? & ? & ? & Hnet & _) & _)].
      * split; [done | by apply quiet_insert].
      * by rewrite Hoff in Hnet.
Qed.

Lemma accepted_vendor_found vd href psoup name :
  accepted (vendor_found vd href psoup name).
Proof. by eexists. Qed.

(** All that the inner [fetch] of a vendor resolver does when [CACHE] is
    bound. *)
Lemma vendor_fetch_effects vd name c log :
  exists w c1 new,
    vendor_fetch net py_repr vd name {| CACHE := Some c; requests := log |}
    = (Ok w, {| CACHE := Some c1; requests := new ++ log |})
    /\ 1 <= length new <= 4
    /\ (forall k, k <> wikipedia_key name -> c1 !! k = c !! k)
    /\ (store_accepted c -> accepted w /\ store_accepted c1)
    /\ ((forall sent u, net sent u = None) -> quiet c -> w = JDict [] /\ quiet c1).
Proof.
  assert (Hfb : forall log0 pre, log0 = pre ++ log -> 1 <= length pre <= 2 ->
            exists w c1 new,
              _wikipedia_summary net py_repr name {| CACHE := Some c; requests := log0 |}
              = (Ok w, {| CACHE := Some c1; requests := new ++ log |})
              /\ 1 <= length new <= 4
              /\ (forall k, k <> wikipedia_key name -> c1 !! k = c !! k)
              /\ (store_accepted c -> accepted w /\ store_accepted c1)
              /\ ((forall sent u, net sent u = None) -> quiet c -> w = JDict [] /\ quiet c1)).
  { intros log0 pre -> Hpre.
    destruct (wikipedia_summary_effects name c (pre ++ log))
      as (w & c1 & new & Hrun & Hlen & _ & Hfoot & Hacc & Hoff).
    exists w, c1, (new ++ pre). rewrite <- app_assoc.
    split_and!; try done; rewrite length_app; lia. }
  unfold vendor_fetch, try_except, vendor_try, _http_get. run.
  set (u := vendor_search_url vd name).
  destruct (net log u) as [r|] eqn:Hnet; [|apply (Hfb _ [u]); [done | simpl; lia]].
  destruct (first_link (vendor_pattern vd) (body_soup r)) as [href|].
  2: { destruct (Hfb (u :: log) [u]) as (w & c1 & new & Hrun & Hrest); [done | simpl; lia|].
       rewrite Hrun. by exists w, c1, new. }
  destruct (String.eqb href "").
  { destruct (Hfb (u :: log) [u]) as (w & c1 & new & Hrun & Hrest); [done | simpl; lia|].
    rewrite Hrun. by exists w, c1, new. }
  set (d := detail_url vd href). simpl.
  destruct (net (u :: log) d) as [r2|]; simpl.
  - eexists _, c, [d; u]. split_and!; [done | simpl; lia | simpl; lia | done | |].
    + intros Hok. split; [apply accepted_vendor_found | done].
    + intros Hoff. by rewrite Hoff in Hnet.
  - apply (Hfb _ [d; u]); [done | simpl; lia].
Qed.

(** All that a call of a resolver does when [CACHE] is bound. *)
Lemma resolve_effects r name c log :
  exists w c2 new,
    resolve net py_repr r name {| CACHE := Some c; requests := log |}
    = (Ok w, {| CACHE := Some c2; requests := new ++ log |})
    /\ length new <= 4
    /\ (r = wikipedia -> length new <= 2)
    /\ (forall v, c !! cache_key r name = Some v -> truthy v = true ->
          new = [] /\ c2 = c /\ w = v)
    /\ (forall k, k <> cache_key r name -> k <> wikipedia_key name -> c2 !! k = c !! k)
    /\ (store_accepted c -> accepted w /\ store_accepted c2)
    /\ ((forall sent u, net sent u = None) -> quiet c -> w = JDict [] /\ quiet c2).
Proof.
  assert (Hvd : forall vd,
             exists w c2 new,
               resolve net py_repr (vendor_resolver vd) name {| CACHE := Some c; requests := log |}
               = (Ok w, {| CACHE := Some c2; requests := new ++ log |})
               /\ length new <= 4
               /\ (forall v, c !! cache_key (vendor_resolver vd) name = Some v ->
                     truthy v = true -> new = [] /\ c2 = c /\ w = v)
               /\ (forall k, k <> cache_key (vendor_resolver vd) name ->
                     k <> wikipedia_key name -> c2 !! k = c !! k)
               /\ (store_accepted c -> accepted w /\ store_accepted c2)
               /\ ((forall sent u, net sent u = None) -> quiet c -> w = JDict [] /\ quiet c2)).
  { intros vd. rewrite resolve_vendor.
    destruct (hit (c !! cache_key (vendor_resolver vd) name)) eqn:Hhit.
    - apply hit_true in Hhit as (v & Hget & Hv).
      rewrite (cache_hit _ _ _ _ v) by done.
      exists v, c, []. split_and!; [done | simpl; lia | | done | |].
      + intros v' Hget' _. by simplify_eq.
      + intros Hok. split; [by eapply Hok | done].
      + intros _ Hq. apply Hq in Hget. congruence.
    - rewrite cache_miss by done.
      destruct (vendor_fetch_effects vd name c log)
        as (w & c1 & new & Hrun & Hlen & Hfoot & Hacc & Hoff).
      unfold bind at 1. rewrite Hrun.
      assert (Hnohit : forall v, c !! cache_key (vendor_resolver vd) name = Some v ->
                truthy v = true -> False).
      { intros v Hget Hv. rewrite Hget in Hhit. simpl in Hhit. congruence. }
      destruct (is_dict w) eqn:Hd.
      + exists w, (<[cache_key (vendor_resolver vd) name := w]> c1), new.
        split_and!; [done | lia | | | |].
        * intros v Hget Hv. by destruct (Hnohit v).
        * intros k Hk Hk'. rewrite lookup_insert_ne by done. by apply Hfoot.
        * intros Hok. destruct (Hacc Hok). split; [done | by apply store_accepted_insert].
        * intros Hnet Hq. destruct (Hoff Hnet Hq) as [-> Hq1].
          split; [done | by apply quiet_insert].
      + exists (JDict []), c1, new. split_and!; [done | lia | | | |].
        * intros v Hget Hv. by destruct (Hnohit v).
        * intros k _ Hk'. by apply Hfoot.
        * intros Hok. destruct (Hacc Hok). split; [apply accepted_empty | done].
        * intros Hnet Hq. destruct (Hoff Hnet Hq) as [_ Hq1]. done. }
  destruct r.
  - destruct (Hvd Intel) as (w & c2 & new & ? & ? & ? & ? & ? & ?).
    exists w, c2, new. by split_and!.
  - destruct (wikipedia_summary_effects name c log)
      as (w & c2 & new & Hrun & Hlen & Hhit & Hfoot & Hacc & Hoff).
    exists w, c2, new. split_and!; [done | lia | done | | | done | done].
    + intros v Hget Hv.
      assert (Hh : hit (c !! wikipedia_key name) = true).
      { unfold wikipedia_key. rewrite Hget. done. }
      destruct (Hhit Hh) as [-> ->]. split_and!; [done..|].
      simpl in Hrun. unfold _wikipedia_summary in Hrun.
      rewrite (cache_hit _ _ _ _ v) in Hrun by done. by simplify_eq.
    + intros k Hk _. by apply Hfoot.
  - destruct (Hvd TechPowerUp) as (w & c2 & new & ? & ? & ? & ? & ? & ?).
    exists w, c2, new. by split_and!.
Qed.

(** In every state a call of a resolver ends, and it has sent four
    requests at most. *)
Lemma resolve_requests (r : resolver) (name : string) (st : state) :
  exists o st' new,
    resolve net py_repr r name st = (o, st')
    /\ requests st' = new ++ requests st
    /\ length new <= 4.
Proof.
  destruct st as [[c|] log].
  - destruct (resolve_effects r name c log) as (w & c2 & new & Hrun & Hlen & _).
    by eexists _, _, new.
  - exists (Raise NameError), {| CACHE := None; requests := log |}, [].
    rewrite resolve_cache, cache_unbound. split_and!; [done | done | simpl; lia].
Qed.

(** X4. A call of a resolver sends four requests at most, two at most for
    the generic fallback resolver, whatever the state and the network; a
    call that finds a non-empty document under its key returns it and
    sends none. With [CACHE] unbound the call sends none, raises
    [NameError] and leaves the state as it was. *)
Theorem resolver_requests_bounded (r : resolver) (name : string) (st : state) :
  exists o st' new,
    resolve net py_repr r name st = (o, st')
    /\ requests st' = new ++ requests st
    /\ length new <= 4
    /\ (r = wikipedia -> length new <= 2)
    /\ (forall c v, CACHE st = Some c -> c !! cache_key r name = Some v ->
          truthy v = true -> new = [] /\ o = Ok v)
    /\ (CACHE st = None -> new = [] /\ o = Raise NameError /\ st' = st).
Proof.
  destruct st as [[c|] log].
  - destruct (resolve_effects r name c log)
      as (w & c2 & new & Hrun & Hlen & Hw & Hhit & _).
    eexists _, _, new. split_and!; [done..| |done].
    intros c' v [= <-] Hget Hv. destruct (Hhit v Hget Hv) as (-> & _ & ->). done.
  - exists (Raise NameError), {| CACHE := None; requests := log |}, [].
    rewrite resolve_cache, cache_unbound.
    split_and!; [done | done | simpl; lia | simpl; lia | by intros | done].
Qed.

(** X5. A call of a resolver for a name changes the store under two keys
    at most: its own key for the name and the key of the generic fallback
    resolver for the same name. Every other entry is left as it was. *)
Theorem resolver_store_footprint (r : resolver) (name : string) (c : store)
        (log : list string) :
  exists w c2 log2,
    resolve net py_repr r name {| CACHE := Some c; requests := log |}
    = (Ok w, {| CACHE := Some c2; requests := log2 |})
    /\ forall k, k <> cache_key r name -> k <> wikipedia_key name -> c2 !! k = c !! k.
Proof.
  destruct (resolve_effects r name c log) as (w & c2 & new & Hrun & _ & _ & _ & Hfoot & _).
  by exists w, c2, (new ++ log).
Qed.
End Effects.

(** ** The two ways out of a vendor resolver *)

Section VendorPaths.
Variable net : list string -> string -> option response.
Variable py_repr : json -> string.

Lemma first_link_nonempty vd doc href :
  first_link (vendor_pattern vd) doc = Some href -> String.eqb href "" = false.
Proof.
  unfold first_link. intros [_ Hp]%List.find_some.
  apply andb_prop in Hp as [Hp _].
  destruct href as [|a href]; [|done]. by destruct vd.
Qed.

Lemma detail_url_absolute vd href : Py.startswith "http" (detail_url vd href) = true.
Proof.
  unfold detail_url. destruct (Py.startswith "http" href) eqn:Hh; [done|].
  by destruct vd.
Qed.

Lemma vendor_fields_nonempty vd psoup name : vendor_fields vd psoup name <> [].
Proof.
  destruct vd; simpl; unfold intel_fields, techpowerup_fields;
    match goal with
    | |- context [fields_of (keep_wanted ?w ?raw) ?raw ?t] =>
        destruct (fields_of_chosen w raw t) as (_ & _ & _ & H)
    end; exact H.
Qed.

(** X6. When a vendor resolver misses its cache, finds a matching link on
    the search page and gets the detail page, it returns the record of
    its own source whose official URL is the address of the detail page,
    an absolute one, and whose fields are not empty; it stores the record
    under its key and has sent exactly the two requests. A link that
    matches is never the empty text. *)
Theorem vendor_found_page (vd : vendor) (name : string) (c : store) (log : list string)
        (r r2 : response) (href : string) :
  hit (c !! cache_key (vendor_resolver vd) name) = false ->
  net log (vendor_search_url vd name) = Some r ->
  first_link (vendor_pattern vd) (body_soup r) = Some href ->
  net (vendor_search_url vd name :: log) (detail_url vd href) = Some r2 ->
  let found := vendor_found vd (detail_url vd href) (body_soup r2) name in
  resolve net py_repr (vendor_resolver vd) name {| CACHE := Some c; requests := log |}
  = (Ok found,
     {| CACHE := Some (<[cache_key (vendor_resolver vd) name := found]> c);
        requests := detail_url vd href :: vendor_search_url vd name :: log |})
  /\ OnlineSpec_of found
     = Ok {| source := JStr (source_tag (vendor_resolver vd));
             official_url := JStr (detail_url vd href);
             fields := json_fields (vendor_fields vd (body_soup r2) name) |}
  /\ Py.startswith "http" (detail_url vd href) = true
  /\ vendor_fields vd (body_soup r2) name <> []
  /\ href <> "".
Proof.
  intros Hmiss Hnet Hlink Hnet2 found.
  pose proof (first_link_nonempty _ _ _ Hlink) as Hne.
  split_and!.
  - rewrite resolve_vendor, cache_miss by done.
    unfold bind at 1, vendor_fetch, try_except, vendor_try, bind, _http_get. simpl.
    rewrite Hnet. simpl. rewrite Hlink, Hne. simpl. rewrite Hnet2. done.
  - done.
  - apply detail_url_absolute.
  - apply vendor_fields_nonempty.
  - intros ->. done.
Qed.

(** X7. When the search request of a vendor resolver fails, or the
    request for the detail page of the link it found fails, the resolver
    calls the generic fallback resolver in the state the failed request
    left. When that call fetches (a miss under its key too), or serves
    from a store that only this program has written, its result is a
    mapping: the vendor resolver returns it and stores it under its own
    key, and the record built from it has the source [wikipedia] or the
    empty source with empty fields, never the source of the vendor. When
    that call serves a stored document that is not a mapping, the vendor
    resolver returns the empty mapping and stores nothing. *)
Theorem vendor_failure_delegates (vd : vendor) (name : string) (c : store)
        (log sent : list string) :
  hit (c !! cache_key (vendor_resolver vd) name) = false ->
  (net log (vendor_search_url vd name) = None /\ sent = [vendor_search_url vd name])
  \/ (exists r href,
        net log (vendor_search_url vd name) = Some r
        /\ first_link (vendor_pattern vd) (body_soup r) = Some href
        /\ net (vendor_search_url vd name :: log) (detail_url vd href) = None
        /\ sent = [detail_url vd href; vendor_search_url vd name]) ->
  exists w c1 log1,
    _wikipedia_summary net py_repr name {| CACHE := Some c; requests := sent ++ log |}
    = (Ok w, {| CACHE := Some c1; requests := log1 |})
    /\ resolve net py_repr (vendor_resolver vd) name {| CACHE := Some c; requests := log |}
       = (if is_dict w
          then (Ok w, {| CACHE := Some (<[cache_key (vendor_resolver vd) name := w]> c1);
                         requests := log1 |})
          else (Ok (JDict []), {| CACHE := Some c1; requests := log1 |}))
    /\ (hit (c !! wikipedia_key name) = false \/ fallback_entries_ok c ->
        resolve net py_repr (vendor_resolver vd) name {| CACHE := Some c; requests := log |}
        = (Ok w, {| CACHE := Some (<[cache_key (vendor_resolver vd) name := w]> c1);
                    requests := log1 |}) /\
        exists spec,
          OnlineSpec_of w = Ok spec /\
          (source spec = JStr "wikipedia"
           \/ (source spec = JStr "" /\ fields spec = JDict [])) /\
          source spec <> JStr (source_tag (vendor_resolver vd))).
Proof.
  intros Hmiss Hfail.
  destruct (fallback_result_shape net py_repr name c (sent ++ log))
    as (w & c1 & new & Hrun & Hshape).
  assert (Hres : resolve net py_repr (vendor_resolver vd) name
                   {| CACHE := Some c; requests := log |}
                 = (if is_dict w
                    then (Ok w, {| CACHE := Some (<[cache_key (vendor_resolver vd) name := w]> c1);
                                   requests := new ++ sent ++ log |})
                    else (Ok (JDict []),
                          {| CACHE := Some c1; requests := new ++ sent ++ log |}))).
  { rewrite resolve_vendor, cache_miss by done.
    destruct Hfail as [[Hnet ->]|(r & href & Hnet & Hlink & Hnet2 & ->)].
    - unfold bind at 1, vendor_fetch, try_except, vendor_try, bind, _http_get.
      simpl. simpl in Hrun. rewrite Hnet, Hrun. by destruct (is_dict w).
    - pose proof (first_link_nonempty _ _ _ Hlink) as Hne.
      unfold bind at 1, vendor_fetch, try_except, vendor_try, bind, _http_get.
      simpl. simpl in Hrun. rewrite Hnet. simpl. rewrite Hlink, Hne. simpl.
      rewrite Hnet2, Hrun. by destruct (is_dict w). }
  exists w, c1, (new ++ sent ++ log). split_and!; [done | done |].
  intros Hstore. destruct (Hshape Hstore) as (Hd & spec & Hspec & Hsrc & Hvd).
  split; [by rewrite Hres, Hd|]. exists spec. split_and!; [done | done | apply Hvd].
Qed.
End VendorPaths.

(** ** The whole enrichment *)

Section Enrichment.
Variable net : list string -> string -> option response.
Variable py_repr : json -> string.

(** Every submitted task is the call of a resolver. *)
Lemma futures_resolve rep t :
  t ∈ futures net py_repr rep ->
  exists r name, lookup t = resolve net py_repr r name.
Proof.
  unfold futures. intros [Ht|Ht]%elem_of_app.
  - unfold cpu_futures in Ht. destruct (cpu rep) as [c|]; [|by apply elem_of_nil in Ht].
    destruct (negb (String.eqb (cpu_name c) "")); [|by apply elem_of_nil in Ht].
    destruct (Py.contains "intel" (Py.lower (manufacturer c))
              || Py.startswith "intel " (Py.lower (cpu_name c)));
      apply list_elem_of_singleton in Ht as ->.
    + by exists intel_ark, (cpu_name c).
    + by exists wikipedia, (cpu_name c).
  - unfold gpu_futures in Ht. apply list_elem_of_omap in Ht as ([i g] & _ & Ht).
    simpl in Ht. destruct (negb (String.eqb (gpu_name g) "")); simplify_eq.
    by exists techpowerup, (gpu_name g).
Qed.

(** A component that has a name has a task, under [cpu] for the
    processor and under [gpu] and its position for a video controller. *)
Lemma named_has_task rep k :
  (k = "cpu" /\ exists c, cpu rep = Some c /\ cpu_name c <> "")
  \/ (exists i g, k = "gpu" +:+ pretty i /\ gpus rep !! i = Some g /\ gpu_name g <> "") ->
  exists t, t ∈ futures net py_repr rep /\ key t = k.
Proof.
  unfold futures. intros [(-> & c & Hc & Hn)|(i & g & -> & Hg & Hn)].
  - apply String.eqb_neq in Hn. unfold cpu_futures. rewrite Hc, Hn. cbn [negb].
    generalize (Py.contains "intel" (Py.lower (manufacturer c))
                || Py.startswith "intel " (Py.lower (cpu_name c))).
    intros [|]; eexists;
      (split; [apply elem_of_app; left; apply list_elem_of_singleton; reflexivity|done]).
  - apply String.eqb_neq in Hn. eexists. split.
    + apply elem_of_app. right. unfold gpu_futures. apply list_elem_of_omap.
      exists (i, g). split; [by apply (elem_of_lookup_imap_2 (fun i g => (i, g)))|].
      simpl. rewrite Hn. reflexivity.
    + done.
Qed.

(** Conversely the key of a task is the key of a component that has a
    name. *)
Lemma task_is_named rep k :
  k ∈ key <$> futures net py_repr rep ->
  (k = "cpu" /\ exists c, cpu rep = Some c /\ cpu_name c <> "")
  \/ (exists i g, k = "gpu" +:+ pretty i /\ gpus rep !! i = Some g /\ gpu_name g <> "").
Proof.
  intros (t & -> & Ht)%list_elem_of_fmap. unfold futures in Ht.
  apply elem_of_app in Ht as [Ht|Ht].
  - left. unfold cpu_futures in Ht. destruct (cpu rep) as [c|]; [|by apply elem_of_nil in Ht].
    destruct (String.eqb_spec (cpu_name c) ""); cbn [negb] in Ht;
      [by apply elem_of_nil in Ht|].
    revert Ht.
    generalize (Py.contains "intel" (Py.lower (manufacturer c))
                || Py.startswith "intel " (Py.lower (cpu_name c))).
    intros [|] Ht; apply list_elem_of_singleton in Ht as ->; simpl; eauto.
  - right. unfold gpu_futures in Ht. apply list_elem_of_omap in Ht as ([i g] & Hig & Ht).
    apply elem_of_lookup_imap in Hig as (i' & g' & [= <- <-] & Hg).
    simpl in Ht. destruct (String.eqb_spec (gpu_name g) ""); simplify_eq/=.
    by exists i, g.
Qed.

Lemma futures_length rep : length (futures net py_repr rep) <= 1 + length (gpus rep).
Proof.
  pose proof (sublist_length _ _ (futures_keys net py_repr rep)) as H.
  rewrite length_fmap in H. unfold identifiers in H.
  rewrite length_app, length_imap in H. destruct (cpu rep); simpl in H; lia.
Qed.

(** The pool sends no more requests than its tasks do. *)
Lemma run_pool_requests n ts st :
  (forall t, t ∈ ts -> forall st0,
      exists o st1 new, lookup t st0 = (o, st1)
                        /\ requests st1 = new ++ requests st0 /\ length new <= n) ->
  exists done st' new,
    run_pool ts st = (done, st')
    /\ requests st' = new ++ requests st
    /\ length new <= n * length ts.
Proof.
  revert st. induction ts as [|t ts IH]; intros st Hall; simpl.
  - exists [], st, []. split_and!; [done | done | simpl; lia].
  - destruct (Hall t (list_elem_of_here _ _) st) as (o & st1 & new1 & Ht & Hlog1 & Hlen1).
    destruct (IH st1) as (outs & st2 & new2 & Hrun & Hlog2 & Hlen2).
    { intros t' Ht'. apply Hall. by apply list_elem_of_further. }
    unfold run_task. rewrite Ht.
    destruct o as [v|e]; simpl; rewrite Hrun; eexists _, st2, (new2 ++ new1);
      (split_and!; [done | by rewrite Hlog2, Hlog1, app_assoc | rewrite length_app; lia]).
Qed.

(** The pool keeps an invariant of the store that each of its tasks
    keeps, and each task then returns. *)
Lemma run_pool_invariant (I : store -> Prop) (Q : json -> Prop) ts c log :
  (forall t, t ∈ ts -> forall c0 log0, I c0 ->
      exists v c1 log1,
        lookup t {| CACHE := Some c0; requests := log0 |}
        = (Ok v, {| CACHE := Some c1; requests := log1 |}) /\ Q v /\ I c1) ->
  I c ->
  exists done c' log',
    run_pool ts {| CACHE := Some c; requests := log |}
    = (done, {| CACHE := Some c'; requests := log' |})
    /\ I c'
    /\ returned_keys done = key <$> ts
    /\ (forall t, t ∈ ts -> exists v, Returned (key t) v ∈ done /\ Q v).
Proof.
  revert c log. induction ts as [|t ts IH]; intros c log Hall Hc; simpl.
  - exists [], c, log. split_and!; [done..|]. by intros t Ht%elem_of_nil.
  - destruct (Hall t (list_elem_of_here _ _) c log Hc) as (v & c1 & log1 & Ht & Hv & Hc1).
    destruct (IH c1 log1) as (outs & c2 & log2 & Hrun & Hc2 & Hkeys & Hdone); [|done|].
    { intros t' Ht'. apply Hall. by apply list_elem_of_further. }
    unfold run_task. rewrite Ht. simpl. rewrite Hrun.
    exists (Returned (key t) v :: outs), c2, log2. split_and!; [done | done | |].
    + csimpl. by rewrite Hkeys.
    + intros t' [->|Ht']%elem_of_cons.
      * exists v. split; [apply list_elem_of_here | done].
      * destruct (Hdone t' Ht') as (v' & ? & ?). exists v'.
        split; [by apply list_elem_of_further | done].
Qed.

Variable max_workers : Z.
Variable schedule : list task -> list task.
Variable as_completed : list outcome -> list outcome.
Hypothesis schedule_perm : forall l, schedule l ≡ₚ l.
Hypothesis as_completed_perm : forall l, as_completed l ≡ₚ l.

(** X8. Whatever the state, the network and the order of the pool, one
    call of [enrich_online] sends four requests at most for each
    component: four times one more than the number of video controllers
    at most. *)
Theorem enrich_online_requests_bounded (rep : Report) (online_flag : bool) (st : state) :
  exists o st' new,
    enrich_online net py_repr max_workers schedule as_completed rep online_flag st = (o, st')
    /\ requests st' = new ++ requests st
    /\ length new <= 4 * (1 + length (gpus rep)).
Proof.
  unfold enrich_online, gather.
  destruct online_flag; simpl; [|exists (Ok rep), st, []; split_and!; [done | done | simpl; lia]].
  run. destruct (Z.leb_spec max_workers 0).
  { eexists _, st, []. split_and!; [done | done | simpl; lia]. }
  destruct (run_pool_requests 4 (schedule (futures net py_repr rep)) st)
    as (outs & st' & new & Hrun & Hlog & Hlen).
  { intros t Ht st0. rewrite schedule_perm in Ht.
    apply futures_resolve in Ht as (r & name & ->).
    apply (resolve_requests net py_repr r name st0). }
  rewrite Hrun. eexists _, st', new. split_and!; [done | done |].
  rewrite schedule_perm in Hlen. pose proof (futures_length rep). lia.
Qed.

(** With an invariant of the store that every resolver keeps, every
    component that has a name gets the record of what its resolver
    returned. *)
Lemma enrich_online_invariant (I : store -> Prop) (Q : json -> Prop) rep c log :
  (forall r name c0 log0, I c0 ->
      exists v c1 log1,
        resolve net py_repr r name {| CACHE := Some c0; requests := log0 |}
        = (Ok v, {| CACHE := Some c1; requests := log1 |}) /\ Q v /\ I c1) ->
  (forall v, Q v -> accepted v) ->
  (0 < max_workers)%Z ->
  I c ->
  exists rep' c' log',
    enrich_online net py_repr max_workers schedule as_completed rep true
                  {| CACHE := Some c; requests := log |}
    = (Ok rep', {| CACHE := Some c'; requests := log' |})
    /\ I c'
    /\ forall t, t ∈ futures net py_repr rep ->
         exists v spec, Q v /\ OnlineSpec_of v = Ok spec
                        /\ dict_get (key t) (online rep') = Some spec.
Proof.
  intros Hres HQ Hw Hc. unfold enrich_online, gather. simpl. run.
  destruct (Z.leb_spec max_workers 0); [lia|].
  destruct (run_pool_invariant I Q (schedule (futures net py_repr rep)) c log)
    as (outs & c' & log' & Hrun & Hc' & Hkeys & Hdone); [|done|].
  { intros t Ht c0 log0 Hc0. rewrite schedule_perm in Ht.
    apply futures_resolve in Ht as (r & name & ->). by apply Hres. }
  rewrite Hrun. eexists _, c', log'. split_and!; [done | done |]. simpl.
  intros t Ht. destruct (Hdone t) as (v & Hin & Hv); [by rewrite schedule_perm|].
  destruct (HQ v Hv) as [spec Hspec]. exists v, spec. split_and!; [done | done |].
  eapply collect_entry; [|by rewrite as_completed_perm|done].
  rewrite returned_keys_as_completed by done.
  rewrite Hkeys, schedule_perm. apply futures_keys_NoDup.
Qed.

(** X9. With [CACHE] bound to a store whose documents [OnlineSpec]
    accepts (the empty store, or one that this program has written) and a
    pool of one worker or more, [enrich_online] returns, the store still
    holds such documents only, and every component that has a name has an
    entry in the report: the processor under [cpu], the video controller
    at position [i] under [gpu] followed by [i], whatever the network
    answered. *)
Theorem enrich_online_covers_named (rep : Report) (c : store) (log : list string) :
  (0 < max_workers)%Z ->
  store_accepted c ->
  exists rep' c' log',
    enrich_online net py_repr max_workers schedule as_completed rep true
                  {| CACHE := Some c; requests := log |}
    = (Ok rep', {| CACHE := Some c'; requests := log' |})
    /\ store_accepted c'
    /\ (forall p, cpu rep = Some p -> cpu_name p <> "" ->
          is_Some (dict_get "cpu" (online rep')))
    /\ (forall i g, gpus rep !! i = Some g -> gpu_name g <> "" ->
          is_Some (dict_get ("gpu" +:+ pretty i) (online rep'))).
Proof.
  intros Hw Hc.
  destruct (enrich_online_invariant store_accepted accepted rep c log)
    as (rep' & c' & log' & Hrun & Hc' & Hall); [|done..|].
  { intros r name c0 log0 Hc0.
    destruct (resolve_effects net py_repr r name c0 log0)
      as (v & c1 & new & Hrun & _ & _ & _ & _ & Hacc & _).
    destruct (Hacc Hc0). by exists v, c1, (new ++ log0). }
  exists rep', c', log'. split_and!; [done | done | |].
  - intros p Hp Hn. destruct (named_has_task rep "cpu") as (t & Ht & <-); [left; eauto|].
    destruct (Hall t Ht) as (v & spec & _ & _ & ->). done.
  - intros i g Hg Hn.
    destruct (named_has_task rep ("gpu" +:+ pretty i)) as (t & Ht & <-); [right; eauto|].
    destruct (Hall t Ht) as (v & spec & _ & _ & ->). done.
Qed.

(** X10. When no request is answered, the store has no document that
    counts as a hit and the pool has one worker or more, [enrich_online]
    gives every component that has a name the empty [OnlineSpec]: empty
    source, empty URL, no field. *)
Theorem enrich_online_offline (rep : Report) (c : store) (log : list string) :
  (0 < max_workers)%Z ->
  (forall sent u, net sent u = None) ->
  quiet c ->
  exists rep' c' log',
    enrich_online net py_repr max_workers schedule as_completed rep true
                  {| CACHE := Some c; requests := log |}
    = (Ok rep', {| CACHE := Some c'; requests := log' |})
    /\ quiet c'
    /\ forall k,
         (k = "cpu" /\ exists p, cpu rep = Some p /\ cpu_name p <> "")
         \/ (exists i g, k = "gpu" +:+ pretty i /\ gpus rep !! i = Some g /\ gpu_name g <> "") ->
         dict_get k (online rep')
         = Some {| source := JStr ""; official_url := JStr ""; fields := JDict [] |}.
Proof.
  intros Hw Hoff Hc.
  destruct (enrich_online_invariant quiet (fun v => v = JDict []) rep c log)
    as (rep' & c' & log' & Hrun & Hc' & Hall); [| |done..|].
  { intros r name c0 log0 Hc0.
    destruct (resolve_effects net py_repr r name c0 log0)
      as (v & c1 & new & Hrun & _ & _ & _ & _ & _ & Hq).
    destruct (Hq Hoff Hc0). by exists v, c1, (new ++ log0). }
  { intros v ->. apply accepted_empty. }
  exists rep', c', log'. split_and!; [done | done |].
  intros k Hk. destruct (named_has_task rep k Hk) as (t & Ht & <-).
  destruct (Hall t Ht) as (v & spec & -> & Hspec & ->).
  simpl in Hspec. by simplify_eq.
Qed.

(** X11. A component without a name gets no entry: when the report had
    none under its key, the report that [enrich_online] returns has none
    either, whatever the state and the network. The keys follow the
    positions in the list of video controllers, unnamed ones included. *)
Theorem enrich_online_skips_unnamed (rep : Report) (online_flag : bool) (st : state)
        rep' st' (k : string) :
  enrich_online net py_repr max_workers schedule as_completed rep online_flag st
  = (Ok rep', st') ->
  dict_get k (online rep) = None ->
  (k = "cpu" /\ forall p, cpu rep = Some p -> cpu_name p = "")
  \/ (exists i, k = "gpu" +:+ pretty i /\ forall g, gpus rep !! i = Some g -> gpu_name g = "") ->
  dict_get k (online rep') = None.
Proof.
  intros Hrun Hnone Hk. unfold enrich_online, gather in Hrun.
  destruct online_flag; simpl in Hrun; [|unfold ret in Hrun; by simplify_eq].
  run. destruct (Z.leb_spec max_workers 0); [done|].
  destruct (run_pool _ st) as [outs st1] eqn:Hpool. simplify_eq. simpl.
  rewrite collect_other; [done|].
  rewrite returned_keys_as_completed by done. intros Hin.
  apply run_pool_keys in Hpool. apply (sublist_subseteq _ _ Hpool) in Hin.
  rewrite schedule_perm in Hin. apply task_is_named in Hin.
  destruct Hk as [(-> & Hcpu)|(i & -> & Hgpu)];
    destruct Hin as [(Heq & p & Hp & Hn)|(j & g & Heq & Hg & Hn)].
  - by apply Hn, Hcpu.
  - discriminate.
  - discriminate.
  - apply gpu_key_inj in Heq as ->. by apply Hn, Hgpu.
Qed.
End Enrichment.

(** ** Sizes for the reader *)

Example bytes_to_human_ex :
  bytes_to_human (Some 17179869184%Z) = "16.0 GiB"
  /\ bytes_to_human (Some 1536%Z) = "1.5 KiB"
  /\ bytes_to_human (Some 1280%Z) = "1.2 KiB"
  /\ bytes_to_human (Some 1048575%Z) = "1024.0 KiB"
  /\ bytes_to_human (Some 512%Z) = "512.0 B"
  /\ bytes_to_human (Some 0%Z) = "".
Proof. vm_compute. by split_and!. Qed.

(** Where the loop stops. *)
Lemma scale_stops more n i :
  let j := scale more n i in
  i <= j <= i + more
  /\ ((1024 ^ Z.of_nat i <= n)%Z -> (1024 ^ Z.of_nat j <= n)%Z)
  /\ (j < i + more -> (n < 1024 ^ Z.of_nat (S j))%Z).
Proof.
  revert i. induction more as [|more IH]; intros i; simpl.
  - split_and!; [lia | lia | done | lia].
  - destruct (Z.leb_spec (1024 ^ Z.of_nat (S i)) n) as [Hle|Hlt].
    + destruct (IH (S i)) as ((? & ?) & Hlow & Hup).
      split_and!; [lia | lia | by intros _; apply Hlow | intros ?; apply Hup; lia].
    + split_and!; [lia | lia | done | done].
Qed.

(** The rounding is to a nearest integer. *)
Lemma round_half_even_near a d :
  (0 < d)%Z ->
  let t := round_half_even a d in
  (2 * Z.abs (a - t * d) <= d)%Z /\ (a / d <= t <= a / d + 1)%Z.
Proof.
  intros Hd. unfold round_half_even.
  pose proof (Z.div_mod a d ltac:(lia)) as Hdm.
  pose proof (Z.mod_pos_bound a d Hd) as Hr.
  destruct (Z.ltb_spec (2 * (a mod d)) d); [split; nia|].
  destruct (Z.ltb_spec d (2 * (a mod d))); [split; nia|].
  destruct (Z.even (a / d)); split; nia.
Qed.

(** X12. For a positive byte count below [2^53], [bytes_to_human] prints
    a number with one decimal and a unit: the unit is the largest of B,
    KiB, MiB, GiB, TiB that the count reaches, the number is within one
    twentieth of the count divided by the unit, it is at least 1.0 above
    the unit B, and at most 1024.0 below the unit TiB, a value that is
    reached. For no count, zero or a negative count the text is
    empty. *)
Theorem bytes_to_human_shape (n : Z) :
  (0 < n < 2 ^ 53)%Z ->
  exists (i : nat) (t : Z) (unit : string),
    bytes_to_human (Some n) = format_tenths t +:+ " " +:+ unit
    /\ units !! i = Some unit
    /\ (1024 ^ Z.of_nat i <= n)%Z
    /\ (i < 4 -> (n < 1024 ^ Z.of_nat (S i))%Z)
    /\ (2 * Z.abs (10 * n - t * 1024 ^ Z.of_nat i) <= 1024 ^ Z.of_nat i)%Z
    /\ (1 <= i -> (10 <= t)%Z)
    /\ (i < 4 -> (t <= 10240)%Z)
    /\ bytes_to_human (Some 1048575%Z) = "1024.0 KiB"
    /\ bytes_to_human None = ""
    /\ (forall z, (z <= 0)%Z -> bytes_to_human (Some z) = "").
Proof.
  intros [Hpos _].
  destruct (scale_stops 4 n 0) as ((_ & Hi) & Hlow & Hup).
  set (i := scale 4 n 0) in *.
  assert (Hd : (0 < 1024 ^ Z.of_nat i)%Z) by (apply Z.pow_pos_nonneg; lia).
  destruct (round_half_even_near (10 * n) (1024 ^ Z.of_nat i) Hd) as [Hnear [Hq1 Hq2]].
  assert (Hunit : exists unit, units !! i = Some unit).
  { apply lookup_lt_is_Some. simpl. lia. }
  destruct Hunit as [unit Hunit].
  exists i, (tenths n (1024 ^ Z.of_nat i)), unit.
  specialize (Hlow ltac:(simpl; lia)).
  split_and!.
  - unfold bytes_to_human.
    rewrite (proj2 (Z.eqb_neq n 0)) by lia. rewrite (proj2 (Z.leb_gt n 0)) by lia.
    cbn [orb]. change (length units - 1) with 4. fold i. by rewrite Hunit.
  - done.
  - done.
  - intros Hlt. apply Hup. lia.
  - done.
  - intros Hone. unfold tenths.
    assert (10 <= 10 * n / 1024 ^ Z.of_nat i)%Z; [|lia].
    apply Z.div_le_lower_bound; lia.
  - intros Hlt. unfold tenths. specialize (Hup ltac:(lia)).
    assert (10 * n / 1024 ^ Z.of_nat i < 10240)%Z; [|lia].
    apply Z.div_lt_upper_bound; [lia|].
    rewrite Nat2Z.inj_succ, Z.pow_succ_r in Hup by lia. lia.
  - by vm_compute.
  - done.
  - intros z Hz. unfold bytes_to_human.
    destruct (Z.eqb_spec z 0); [done|]. by destruct (Z.leb_spec z 0); [|lia].
Qed.

(** ** Reading the video controllers *)

Example collect_gpus_ex :
  (GPU.vendor_id <$> collect_gpus (Some (take 1 sample_controllers))) = [Some "10DE"]
  /\ (GPU.name <$> collect_gpus (Some (take 1 sample_controllers))) = ["NVIDIA GeForce RTX 4090"]
  /\ (GPU.adapter_ram <$> collect_gpus (Some (take 1 sample_controllers))) = [None]
  /\ collect_gpus (Some sample_controllers) = [].
Proof. vm_compute. by split_and!. Qed.

Lemma pnp_id_cases tag pnp :
  match pnp with
  | None => pnp_id tag pnp = Ok None
  | Some p =>
      (p = "" /\ pnp_id tag pnp = Ok None)
      \/ (p <> "" /\ exists m, search_id tag p = Some m /\ pnp_id tag pnp = Ok (Some (upper_hexes m)))
      \/ (p <> "" /\ search_id tag p = None /\ pnp_id tag pnp = Raise AttributeError)
  end.
Proof.
  destruct pnp as [p|]; simpl; [|done].
  destruct (String.eqb_spec p ""); [by left|]. right.
  destruct (search_id tag p) as [m|]; [left | right]; eauto.
Qed.

Lemma gpu_info_readable g :
  pnp_readable g <-> exists info, gpu_info g = Ok info.
Proof.
  unfold pnp_readable, gpu_info.
  pose proof (pnp_id_cases "ven_" (Win32_VideoController.PNPDeviceID g)) as Hv.
  pose proof (pnp_id_cases "dev_" (Win32_VideoController.PNPDeviceID g)) as Hd.
  destruct (Win32_VideoController.PNPDeviceID g) as [p|].
  - destruct Hv as [(-> & Hv)|[(Hp & mv & Hsv & Hv)|(Hp & Hsv & Hv)]].
    + rewrite Hv. simpl. split; [by eauto | by left].
    + destruct Hd as [(-> & Hd)|[(_ & md & Hsd & Hd)|(_ & Hsd & Hd)]]; [done| |].
      * rewrite Hv, Hd. simpl. split; [by eauto|]. intros _. right. rewrite Hsv, Hsd. by eauto.
      * rewrite Hv, Hd. simpl. split; [|by intros [? ?]].
        intros [?|[_ [? Hm]]]; [done|]. rewrite Hsd in Hm. done.
    + rewrite Hv. simpl. split; [|by intros [? ?]].
      intros [?|[[? Hm] _]]; [done|]. rewrite Hsv in Hm. done.
  - rewrite Hv, Hd. simpl. split; by eauto.
Qed.

Lemma gpu_info_name g info :
  gpu_info g = Ok info ->
  GPU.name info = normspace (default "" (Win32_VideoController.Name g)).
Proof.
  unfold gpu_info.
  destruct (pnp_id "ven_" _); simpl; [|done].
  destruct (pnp_id "dev_" _); simpl; [|done]. by intros [= <-].
Qed.

Lemma gpu_infos_readable l :
  Forall pnp_readable l ->
  exists infos, gpu_infos l = Ok infos
    /\ GPU.name <$> infos
       = (fun g => normspace (default "" (Win32_VideoController.Name g))) <$> l.
Proof.
  induction 1 as [|g l Hg _ (infos & Hinfos & Hnames)]; [by exists []|]. simpl.
  apply gpu_info_readable in Hg as [info Hinfo]. rewrite Hinfo, Hinfos. simpl.
  exists (info :: infos). split; [done|]. csimpl. f_equal; [by apply gpu_info_name | done].
Qed.

Lemma gpu_infos_unreadable l g :
  g ∈ l -> ~ pnp_readable g -> exists e, gpu_infos l = Raise e.
Proof.
  intros Hg Hbad. induction l as [|g' l IH]; [by apply elem_of_nil in Hg|]. simpl.
  destruct (gpu_info g') as [info|e] eqn:Hinfo; simpl; [|by eauto].
  apply elem_of_cons in Hg as [->|Hg].
  - exfalso. apply Hbad, gpu_info_readable. eauto.
  - destruct (IH Hg) as [e ->]. simpl. eauto.
Qed.

(** X13. [collect_local] reads the video controllers all or none: if the
    PNP identifier of one controller is not empty and lacks [VEN_] or
    [DEV_] followed by four hexadecimal digits, the list of GPUs of the
    report stays empty, whatever the other controllers are; otherwise
    the report has one GPU for each controller, in order, each with the
    normalised name of its controller. *)
Theorem collect_gpus_all_or_none (l : list Win32_VideoController.t) :
  ((exists g, g ∈ l /\ ~ pnp_readable g) -> collect_gpus (Some l) = [])
  /\ (Forall pnp_readable l ->
      GPU.name <$> collect_gpus (Some l)
      = (fun g => normspace (default "" (Win32_VideoController.Name g))) <$> l).
Proof.
  unfold collect_gpus. split.
  - intros (g & Hg & Hbad).
    by destruct (gpu_infos_unreadable l g Hg Hbad) as [e ->].
  - intros Hl. by destruct (gpu_infos_readable l Hl) as (infos & -> & Hnames).
Qed.

Lemma four_hex_spec s m :
  four_hex s = Some m ->
  String.length m = 4 /\ Forall (fun c => is_hex c = true) (list_ascii_of_string m)
  /\ Py.startswith m s = true.
Proof.
  destruct s as [|a [|b [|c [|d s]]]]; simpl; try done.
  destruct (is_hex a) eqn:Ha, (is_hex b) eqn:Hb, (is_hex c) eqn:Hc, (is_hex d) eqn:Hd;
    simpl; try done.
  intros [= <-]. simpl. split_and!; [done | by repeat constructor|].
  by repeat (destruct (ascii_dec _ _); [|done]).
Qed.

Lemma search_id_spec tag s m :
  search_id tag s = Some m ->
  String.length m = 4 /\ Forall (fun c => is_hex c = true) (list_ascii_of_string m).
Proof.
  induction s as [|c s IH]; simpl.
  - unfold match_id. destruct (Py.startswith tag (Py.lower "")); [|done].
    simpl. done.
  - destruct (match_id tag (String c s)) as [m'|] eqn:Hm; [|done].
    intros [= ->]. unfold match_id in Hm.
    destruct (Py.startswith tag _); [|done].
    by apply four_hex_spec in Hm as (? & ? & _).
Qed.

Lemma upper_hexes_spec m :
  Forall (fun c => is_hex c = true) (list_ascii_of_string m) ->
  String.length (upper_hexes m) = String.length m
  /\ Forall (fun c => Py.between 48 57 c || Py.between 65 70 c = true)
            (list_ascii_of_string (upper_hexes m)).
Proof.
  induction m as [|c m IH]; simpl; [done|].
  intros [Hc Hm]%Forall_cons. destruct (IH Hm) as [Hlen Hup].
  split; [by rewrite Hlen|]. constructor; [|done].
  clear -Hc. destruct c as [[] [] [] [] [] [] [] []]; vm_compute in Hc |- *; done.
Qed.

(** X14. In every [GPUInfo] that [collect_local] builds, a vendor or a
    device identifier that is present is made of four characters, each a
    digit or a capital letter from A to F, and an adapter memory that is
    present is positive. *)
Theorem gpu_info_fields (g : Win32_VideoController.t) (info : GPU.GPUInfo) :
  gpu_info g = Ok info ->
  (forall id, GPU.vendor_id info = Some id \/ GPU.device_id info = Some id ->
     String.length id = 4
     /\ Forall (fun c => Py.between 48 57 c || Py.between 65 70 c = true)
               (list_ascii_of_string id))
  /\ (forall ram, GPU.adapter_ram info = Some ram -> (0 < ram)%Z).
Proof.
  unfold gpu_info.
  assert (Hid : forall tag o, pnp_id tag (Win32_VideoController.PNPDeviceID g) = Ok o ->
            forall id, o = Some id ->
              String.length id = 4
              /\ Forall (fun c => Py.between 48 57 c || Py.between 65 70 c = true)
                        (list_ascii_of_string id)).
  { intros tag o Ho id ->. unfold pnp_id in Ho.
    destruct (Win32_VideoController.PNPDeviceID g) as [p|]; [|done].
    destruct (String.eqb p ""); [done|].
    destruct (search_id tag p) as [m|] eqn:Hm; [|done]. simplify_eq.
    apply search_id_spec in Hm as [Hlen Hhex].
    destruct (upper_hexes_spec m Hhex) as [Hlen' Hup]. split; [congruence | done]. }
  destruct (pnp_id "ven_" _) as [v|] eqn:Hv; simpl; [|done].
  destruct (pnp_id "dev_" _) as [d|] eqn:Hd; simpl; [|done].
  intros [= <-]. simpl. split.
  - intros id [Hid'|Hid']; [by eapply (Hid "ven_") | by eapply (Hid "dev_")].
  - intros ram. unfold positive_ram.
    destruct (Win32_VideoController.AdapterRAM g) as [z|]; [|done].
    destruct (Z.eqb_spec z 0); simpl; [done|].
    destruct (Z.ltb_spec 0 z); [|done]. by intros [= <-].
Qed.


(** ** The properties at sample inputs *)

(** The ARK pages [ark_search_page] and [ark_product_page] through the
    Intel resolver. *)
Lemma vendor_found_page_witness :
  hit ((∅ : store) !! cache_key (vendor_resolver Intel) "i7") = false
  /\ ark_net [] (vendor_search_url Intel "i7") = Some (page_response ark_search_page)
  /\ first_link (vendor_pattern Intel) (body_soup (page_response ark_search_page))
     = Some "/content/www/us/en/ark/products/186604/i7.html"
  /\ ark_net [vendor_search_url Intel "i7"]
       (detail_url Intel "/content/www/us/en/ark/products/186604/i7.html")
     = Some (page_response ark_product_page)
  /\ (let url := detail_url Intel "/content/www/us/en/ark/products/186604/i7.html" in
      let found := vendor_found Intel url (body_soup (page_response ark_product_page)) "i7" in
      resolve ark_net no_repr (vendor_resolver Intel) "i7" {| CACHE := Some ∅; requests := [] |}
      = (Ok found,
         {| CACHE := Some (<[cache_key (vendor_resolver Intel) "i7" := found]> ∅);
            requests := [url; vendor_search_url Intel "i7"] |})
      /\ OnlineSpec_of found
         = Ok {| source := JStr (source_tag (vendor_resolver Intel));
                 official_url := JStr url;
                 fields := json_fields
                             (vendor_fields Intel (body_soup (page_response ark_product_page)) "i7") |}
      /\ Py.startswith "http" url = true
      /\ vendor_fields Intel (body_soup (page_response ark_product_page)) "i7" <> []
      /\ "/content/www/us/en/ark/products/186604/i7.html" <> "").
Proof.
  split_and!; [vm_compute; reflexivity..|].
  apply (vendor_found_page ark_net no_repr Intel "i7" ∅ []
           (page_response ark_search_page) (page_response ark_product_page)
           "/content/www/us/en/ark/products/186604/i7.html");
    vm_compute; reflexivity.
Defined.

(** The Intel resolver with no network: the search request fails, the
    fallback resolver fails as well, and the empty mapping is returned
    and stored under both keys. *)
Lemma vendor_failure_delegates_witness :
  hit ((∅ : store) !! cache_key (vendor_resolver Intel) "i7") = false
  /\ offline [] (vendor_search_url Intel "i7") = None
  /\ resolve offline no_repr (vendor_resolver Intel) "i7" {| CACHE := Some ∅; requests := [] |}
     = (Ok (JDict []),
        {| CACHE := Some (<[cache_key (vendor_resolver Intel) "i7" := JDict []]>
                            (<[wikipedia_key "i7" := JDict []]> ∅));
           requests := [wikipedia_search_url "i7"; vendor_search_url Intel "i7"] |})
  /\ exists w c1 log1,
      _wikipedia_summary offline no_repr "i7"
        {| CACHE := Some ∅; requests := [vendor_search_url Intel "i7"] ++ [] |}
      = (Ok w, {| CACHE := Some c1; requests := log1 |})
      /\ resolve offline no_repr (vendor_resolver Intel) "i7"
           {| CACHE := Some ∅; requests := [] |}
         = (if is_dict w
            then (Ok w, {| CACHE := Some (<[cache_key (vendor_resolver Intel) "i7" := w]> c1);
                           requests := log1 |})
            else (Ok (JDict []), {| CACHE := Some c1; requests := log1 |}))
      /\ (hit ((∅ : store) !! wikipedia_key "i7") = false \/ fallback_entries_ok ∅ ->
          resolve offline no_repr (vendor_resolver Intel) "i7"
            {| CACHE := Some ∅; requests := [] |}
          = (Ok w, {| CACHE := Some (<[cache_key (vendor_resolver Intel) "i7" := w]> c1);
                      requests := log1 |}) /\
          exists spec,
            OnlineSpec_of w = Ok spec /\
            (source spec = JStr "wikipedia"
             \/ (source spec = JStr "" /\ fields spec = JDict [])) /\
            source spec <> JStr (source_tag (vendor_resolver Intel))).
Proof.
  assert (Hmiss : hit ((∅ : store) !! cache_key (vendor_resolver Intel) "i7") = false)
    by (vm_compute; reflexivity).
  assert (Hnet : offline [] (vendor_search_url Intel "i7") = None) by reflexivity.
  split_and!; [exact Hmiss | exact Hnet | vm_compute; reflexivity |].
  apply (vendor_failure_delegates offline no_repr Intel "i7" ∅ []
           [vendor_search_url Intel "i7"] Hmiss).
  left. split; [exact Hnet | reflexivity].
Defined.

(** The sample inventory, one worker after the other. *)
Lemma enrich_online_requests_bounded_witness :
  (forall l : list task, id l ≡ₚ l)
  /\ exists o st' new,
      enrich_online encyclopedia_net no_repr 4 id id
        (collect_local sample_inventory) true fresh = (o, st')
      /\ requests st' = new ++ requests fresh
      /\ length new <= 4 * (1 + length (gpus (collect_local sample_inventory))).
Proof.
  assert (Hs : forall l : list task, id l ≡ₚ l) by (intros l; reflexivity).
  split; [exact Hs|].
  apply (enrich_online_requests_bounded encyclopedia_net no_repr 4 id id Hs
           (collect_local sample_inventory) true fresh).
Defined.

Lemma enrich_online_covers_named_witness :
  (forall l : list task, id l ≡ₚ l)
  /\ (forall l : list outcome, id l ≡ₚ l)
  /\ (0 < 4)%Z
  /\ store_accepted ∅
  /\ exists rep' c' log',
      enrich_online encyclopedia_net no_repr 4 id id
        (collect_local sample_inventory) true {| CACHE := Some ∅; requests := [] |}
      = (Ok rep', {| CACHE := Some c'; requests := log' |})
      /\ store_accepted c'
      /\ (forall p, cpu (collect_local sample_inventory) = Some p -> cpu_name p <> "" ->
            is_Some (dict_get "cpu" (online rep')))
      /\ (forall i g, gpus (collect_local sample_inventory) !! i = Some g -> gpu_name g <> "" ->
            is_Some (dict_get ("gpu" +:+ pretty i) (online rep'))).
Proof.
  assert (Hs : forall l : list task, id l ≡ₚ l) by (intros l; reflexivity).
  assert (Hc : forall l : list outcome, id l ≡ₚ l) by (intros l; reflexivity).
  assert (Hpos : (0 < 4)%Z) by lia.
  assert (Hstore : store_accepted ∅) by (intros k v Hk; by rewrite lookup_empty in Hk).
  split_and!; [exact Hs | exact Hc | exact Hpos | exact Hstore |].
  apply (enrich_online_covers_named encyclopedia_net no_repr 4 id id Hs Hc
           (collect_local sample_inventory) ∅ [] Hpos Hstore).
Defined.

Lemma enrich_online_offline_witness :
  (forall l : list task, id l ≡ₚ l)
  /\ (forall l : list outcome, id l ≡ₚ l)
  /\ (0 < 4)%Z
  /\ (forall sent u, offline sent u = None)
  /\ quiet ∅
  /\ exists rep' c' log',
      enrich_online offline no_repr 4 id id three_gpus true
        {| CACHE := Some ∅; requests := [] |}
      = (Ok rep', {| CACHE := Some c'; requests := log' |})
      /\ quiet c'
      /\ forall k,
          (k = "cpu" /\ exists p, cpu three_gpus = Some p /\ cpu_name p <> "")
          \/ (exists i g, k = "gpu" +:+ pretty i
                /\ gpus three_gpus !! i = Some g /\ gpu_name g <> "") ->
          dict_get k (online rep')
          = Some {| source := JStr ""; official_url := JStr ""; fields := JDict [] |}.
Proof.
  assert (Hs : forall l : list task, id l ≡ₚ l) by (intros l; reflexivity).
  assert (Hc : forall l : list outcome, id l ≡ₚ l) by (intros l; reflexivity).
  assert (Hpos : (0 < 4)%Z) by lia.
  assert (Hoff : forall sent u, offline sent u = None) by (intros sent u; reflexivity).
  assert (Hquiet : quiet ∅) by (intros k v Hk; by rewrite lookup_empty in Hk).
  split_and!; [exact Hs | exact Hc | exact Hpos | exact Hoff | exact Hquiet |].
  apply (enrich_online_offline offline no_repr 4 id id Hs Hc three_gpus ∅ [] Hpos Hoff Hquiet).
Defined.

(** The second of [three_gpus] has no name. *)
Lemma enrich_online_skips_unnamed_witness :
  (forall l : list task, id l ≡ₚ l)
  /\ (forall l : list outcome, id l ≡ₚ l)
  /\ exists rep' st',
      enrich_online offline no_repr 4 id id three_gpus true fresh = (Ok rep', st')
      /\ dict_get "gpu1" (online three_gpus) = None
      /\ (exists i, "gpu1" = "gpu" +:+ pretty i
            /\ forall g, gpus three_gpus !! i = Some g -> gpu_name g = "")
      /\ dict_get "gpu0" (online rep')
         = Some {| source := JStr ""; official_url := JStr ""; fields := JDict [] |}
      /\ dict_get "gpu1" (online rep') = None.
Proof.
  assert (Hs : forall l : list task, id l ≡ₚ l) by (intros l; reflexivity).
  assert (Hc : forall l : list outcome, id l ≡ₚ l) by (intros l; reflexivity).
  split_and!; [exact Hs | exact Hc |].
  assert (Hunnamed : exists i, "gpu1" = "gpu" +:+ pretty i
            /\ forall g, gpus three_gpus !! i = Some g -> gpu_name g = "").
  { exists 1. split; [vm_compute; reflexivity|]. intros g Hg. injection Hg as <-. reflexivity. }
  eexists _, _. split; [vm_compute; reflexivity|].
  split_and!; [reflexivity | exact Hunnamed | vm_compute; reflexivity |].
  eapply (enrich_online_skips_unnamed offline no_repr 4 id id Hs Hc three_gpus true fresh
            _ _ "gpu1");
    [vm_compute; reflexivity | reflexivity | right; exact Hunnamed].
Defined.

(** One and a half KiB. *)
Lemma bytes_to_human_shape_witness :
  (0 < 1536 < 2 ^ 53)%Z
  /\ bytes_to_human (Some 1536%Z) = "1.5 KiB"
  /\ exists (i : nat) (t : Z) (unit : string),
      bytes_to_human (Some 1536%Z) = format_tenths t +:+ " " +:+ unit
      /\ units !! i = Some unit
      /\ (1024 ^ Z.of_nat i <= 1536)%Z
      /\ (i < 4 -> (1536 < 1024 ^ Z.of_nat (S i))%Z)
      /\ (2 * Z.abs (10 * 1536 - t * 1024 ^ Z.of_nat i) <= 1024 ^ Z.of_nat i)%Z
      /\ (1 <= i -> (10 <= t)%Z)
      /\ (i < 4 -> (t <= 10240)%Z)
      /\ bytes_to_human (Some 1048575%Z) = "1024.0 KiB"
      /\ bytes_to_human None = ""
      /\ (forall z, (z <= 0)%Z -> bytes_to_human (Some z) = "").
Proof.
  assert (Hn : (0 < 1536 < 2 ^ 53)%Z) by (split; reflexivity).
  split_and!; [exact (proj1 Hn) | exact (proj2 Hn) | vm_compute; reflexivity |].
  apply (bytes_to_human_shape 1536 Hn).
Defined.

(** The two sample controllers: the second has a PNP identifier without
    [VEN_], and with it the first is lost as well. *)
Lemma collect_gpus_all_or_none_witness :
  virtual_controller ∈ sample_controllers
  /\ ~ pnp_readable virtual_controller
  /\ collect_gpus (Some sample_controllers) = []
  /\ Forall pnp_readable [nvidia_controller]
  /\ GPU.name <$> collect_gpus (Some [nvidia_controller]) = ["NVIDIA GeForce RTX 4090"].
Proof.
  assert (Hin : virtual_controller ∈ sample_controllers) by (right; left).
  assert (Hbad : ~ pnp_readable virtual_controller).
  { intros [Hempty|[[m Hm] _]]; [discriminate Hempty | vm_compute in Hm; discriminate Hm]. }
  assert (Hgood : Forall pnp_readable [nvidia_controller]).
  { constructor; [|constructor]. right. split; vm_compute; eauto. }
  split_and!; [exact Hin | exact Hbad | | exact Hgood |].
  - apply (proj1 (collect_gpus_all_or_none sample_controllers)).
    exists virtual_controller. split; [exact Hin | exact Hbad].
  - apply (proj2 (collect_gpus_all_or_none [nvidia_controller]) Hgood).
Defined.

(** The identifiers of the first sample controller, written in lower
    case in its PNP identifier, and its negative adapter memory. *)
Lemma gpu_info_fields_witness :
  exists info,
    gpu_info nvidia_controller = Ok info
    /\ GPU.vendor_id info = Some "10DE"
    /\ GPU.device_id info = Some "2684"
    /\ GPU.adapter_ram info = None
    /\ (forall id, GPU.vendor_id info = Some id \/ GPU.device_id info = Some id ->
          String.length id = 4
          /\ Forall (fun c => Py.between 48 57 c || Py.between 65 70 c = true)
                    (list_ascii_of_string id))
    /\ (forall ram, GPU.adapter_ram info = Some ram -> (0 < ram)%Z).
Proof.
  eexists. split; [vm_compute; reflexivity|].
  split_and!; [reflexivity | reflexivity | reflexivity | |];
    eapply (gpu_info_fields nvidia_controller); vm_compute; reflexivity.
Defined.


(** ** Reading the network adapters *)

Example collect_nics_ex :
  collect_nics (Some sample_adapters) (Some sample_configs)
  = [{| NIC.name := "Intel(R) Ethernet"; NIC.mac := "00:11:22:33:44:55";
        NIC.manufacturer := "Intel"; NIC.status := "2"; NIC.ip4 := ["192.168.1.10"] |};
     {| NIC.name := "Wi-Fi"; NIC.mac := ""; NIC.manufacturer := ""; NIC.status := "";
        NIC.ip4 := [] |}].
Proof. vm_compute. reflexivity. Qed.

Lemma nics_set_keys k v d :
  (nics_set k v d).*1 = if decide (k ∈ d.*1) then d.*1 else d.*1 ++ [k].
Proof.
  induction d as [|[k' v'] d IH].
  - destruct (decide (k ∈ ([] : list (Z * NIC.NICInfo)).*1)) as [Hin|_]; [|done].
    by apply elem_of_nil in Hin.
  - change (((k', v') :: d).*1) with (k' :: d.*1).
    change (nics_set k v ((k', v') :: d))
      with (if (k =? k')%Z then (k, v) :: d else (k', v') :: nics_set k v d).
    destruct (Z.eqb_spec k k') as [->|Hne].
    + destruct (decide (k' ∈ k' :: d.*1)) as [_|Hout]; [done|].
      exfalso. apply Hout. by left.
    + change (((k', v') :: nics_set k v d).*1) with (k' :: (nics_set k v d).*1).
      rewrite IH.
      destruct (decide (k ∈ d.*1)) as [Hin|Hout], (decide (k ∈ k' :: d.*1)) as [Hin'|Hout'];
        try done.
      * exfalso. apply Hout'. by right.
      * apply elem_of_cons in Hin' as [?|?]; done.
Qed.

Lemma nics_set_elem k v d i x :
  (i, x) ∈ nics_set k v d -> (i = k /\ x = v) \/ (i, x) ∈ d.
Proof.
  induction d as [|[k' v'] d IH]; simpl.
  - intros Hin%list_elem_of_singleton. left. by simplify_eq.
  - destruct (Z.eqb_spec k k') as [->|Hne].
    + intros [Heq|Hin]%elem_of_cons; [left; by simplify_eq | right; by right].
    + intros [Heq|Hin]%elem_of_cons; [right; rewrite Heq; by left|].
      destruct (IH Hin) as [?|?]; [by left | right; by right].
Qed.

Lemma nics_get_elem k v d : nics_get k d = Some v -> (k, v) ∈ d.
Proof.
  induction d as [|[k' v'] d IH]; simpl; [done|].
  destruct (Z.eqb_spec k k') as [->|Hne].
  - intros [= ->]. by left.
  - intros Hget. right. by apply IH.
Qed.

Lemma nics_set_NoDup k v d : NoDup d.*1 -> NoDup (nics_set k v d).*1.
Proof.
  intros Hd. rewrite nics_set_keys. case_decide; [done|].
  apply NoDup_app. split_and!; [done | | apply NoDup_singleton].
  intros x Hx ->%list_elem_of_singleton. done.
Qed.

Lemma nics_set_present k v d : k ∈ d.*1 -> (nics_set k v d).*1 = d.*1.
Proof. intros Hk. rewrite nics_set_keys. by rewrite decide_True. Qed.

Lemma adapters_by_index_inv (adapters seen : list Win32_NetworkAdapter.t) d :
  NoDup d.*1 ->
  (forall i, i ∈ d.*1 <-> exists n, n ∈ seen /\ Win32_NetworkAdapter.Index n = i) ->
  (forall i nic, (i, nic) ∈ d ->
     exists n, n ∈ seen /\ Win32_NetworkAdapter.Index n = i /\ nic = nic_info n) ->
  let d' := fold_left (fun d n => nics_set (Win32_NetworkAdapter.Index n) (nic_info n) d)
                      adapters d in
  NoDup d'.*1
  /\ (forall i, i ∈ d'.*1 <-> exists n, n ∈ seen ++ adapters /\ Win32_NetworkAdapter.Index n = i)
  /\ (forall i nic, (i, nic) ∈ d' ->
        exists n, n ∈ seen ++ adapters /\ Win32_NetworkAdapter.Index n = i /\ nic = nic_info n).
Proof.
  revert seen d. induction adapters as [|a adapters IH]; intros seen d Hnd Hkeys Hvals; simpl.
  - by rewrite app_nil_r.
  - replace (seen ++ a :: adapters) with ((seen ++ [a]) ++ adapters)
      by (by rewrite <- app_assoc).
    apply IH.
    + by apply nics_set_NoDup.
    + intros i. rewrite nics_set_keys. setoid_rewrite elem_of_app.
      setoid_rewrite list_elem_of_singleton. case_decide as Hin.
      * rewrite Hkeys. split; [intros (n & ? & ?); by eauto|].
        intros (n & [?| ->] & Hi); [by eauto|]. apply Hkeys. by rewrite <- Hi.
      * rewrite elem_of_app, list_elem_of_singleton, Hkeys. split.
        -- intros [(n & ? & ?)| ->]; by eauto.
        -- intros (n & [?| ->] & Hi); [left; by eauto | by right].
    + intros i nic [[-> ->]|Hin]%nics_set_elem.
      * exists a. split_and!; [|done..]. apply elem_of_app. right. by left.
      * destruct (Hvals i nic Hin) as (n & ? & ? & ?). exists n.
        split_and!; [|done..]. apply elem_of_app. by left.
Qed.

Lemma assign_ip4_inv adapters (configs seen : list Win32_NetworkAdapterConfiguration.t) d :
  (forall i nic, (i, nic) ∈ d -> nic_entry_ok adapters seen i nic) ->
  let d' := fold_left assign_ip4 configs d in
  d'.*1 = d.*1
  /\ (forall i nic, (i, nic) ∈ d' -> nic_entry_ok adapters (seen ++ configs) i nic).
Proof.
  revert seen d. induction configs as [|conf configs IH]; intros seen d Hd; simpl.
  - by rewrite app_nil_r.
  - replace (seen ++ conf :: configs) with ((seen ++ [conf]) ++ configs)
      by (by rewrite <- app_assoc).
    assert (Hkeys : (assign_ip4 d conf).*1 = d.*1).
    { unfold assign_ip4.
      destruct (nics_get _ d) as [nic|] eqn:Hget; [|done].
      apply nics_set_present. apply nics_get_elem in Hget.
      apply list_elem_of_fmap. by exists (Win32_NetworkAdapterConfiguration.Index conf, nic). }
    destruct (IH (seen ++ [conf]) (assign_ip4 d conf)) as [Hk Hv].
    + intros i nic Hin. unfold assign_ip4 in Hin.
      assert (Hweak : forall i nic, (i, nic) ∈ d -> nic_entry_ok adapters (seen ++ [conf]) i nic).
      { intros j x Hj. destruct (Hd j x Hj) as [Hbase Hip]. split; [done|].
        destruct Hip as [?|(c0 & ? & ? & ?)]; [by left|]. right. exists c0.
        split_and!; [|done..]. apply elem_of_app. by left. }
      destruct (nics_get _ d) as [old|] eqn:Hget; [|by apply Hweak].
      apply nics_set_elem in Hin as [[-> ->]|Hin]; [|by apply Hweak].
      apply nics_get_elem in Hget. destruct (Hd _ _ Hget) as [Hbase _].
      split; [done|]. right. exists conf. split_and!; [|done..].
      apply elem_of_app. right. by left.
    + split; [by rewrite Hk|done].
Qed.

Lemma ipv4_only_no_colon conf :
  Forall (fun ip => Py.contains ":" ip = false) (ipv4_only conf).
Proof.
  apply Forall_forall. intros ip Hin. apply list_elem_of_In in Hin.
  apply filter_In in Hin as [_ Hip]. by apply negb_true_iff in Hip.
Qed.

(** X15. The network adapters of the report: [collect_local] keeps one
    entry for each adapter index, made from an adapter with that index
    (name and manufacturer normalised, the status in decimal or empty);
    its addresses are none, or the addresses without a colon of a
    configuration with the same index, so that no address of the report
    contains a colon; a configuration whose index no adapter has adds
    nothing; and if one of the two queries fails, the report has no
    adapter at all. *)
Theorem collect_nics_shape (adapters : list Win32_NetworkAdapter.t)
    (configs : list Win32_NetworkAdapterConfiguration.t) :
  let d := nics_by_index adapters configs in
  collect_nics (Some adapters) (Some configs) = d.*2
  /\ NoDup d.*1
  /\ (forall i, i ∈ d.*1 <-> exists n, n ∈ adapters /\ Win32_NetworkAdapter.Index n = i)
  /\ (forall i nic, (i, nic) ∈ d -> nic_entry_ok adapters configs i nic)
  /\ Forall (fun nic => Forall (fun ip => Py.contains ":" ip = false) (NIC.ip4 nic))
            (collect_nics (Some adapters) (Some configs))
  /\ collect_nics None (Some configs) = []
  /\ collect_nics (Some adapters) None = [].
Proof.
  intros d.
  destruct (adapters_by_index_inv adapters [] []) as (Hnd & Hkeys & Hvals).
  { constructor. }
  { intros i. split; [by intros ?%elem_of_nil | by intros (n & ?%elem_of_nil & _)]. }
  { by intros i nic ?%elem_of_nil. }
  simpl in Hnd, Hkeys, Hvals. fold (adapters_by_index adapters) in Hnd, Hkeys, Hvals.
  destruct (assign_ip4_inv adapters configs [] (adapters_by_index adapters)) as [Hk Hok].
  { intros i nic Hin. destruct (Hvals i nic Hin) as (n & Hn & Hi & ->).
    split; [by exists n | by left]. }
  simpl in Hk, Hok. fold (nics_by_index adapters configs) in Hk, Hok. fold d in Hk, Hok.
  assert (Hentries : forall i nic, (i, nic) ∈ d -> nic_entry_ok adapters configs i nic) by done.
  split_and!; [done | by rewrite Hk | by intros i; rewrite Hk | done | | done..].
  simpl. fold d. apply Forall_forall. intros nic Hnic.
  apply list_elem_of_fmap in Hnic as ([i nic'] & -> & Hin). simpl.
  destruct (Hentries i nic' Hin) as [_ [->|(conf & _ & _ & ->)]];
    [constructor | apply ipv4_only_no_colon].
Qed.


(** ** A stored document that is not a mapping *)

(** With [foreign_store] the fallback resolver serves the list it finds,
    and a vendor resolver that delegates to it, for want of a link or
    after a failed request, returns the empty mapping and stores
    nothing. *)
Example foreign_document_is_dropped :
  _wikipedia_summary no_link_net no_repr "i7"
    {| CACHE := Some foreign_store; requests := [vendor_search_url Intel "i7"] |}
  = (Ok (JList [JNum 1]),
     {| CACHE := Some foreign_store; requests := [vendor_search_url Intel "i7"] |})
  /\ resolve no_link_net no_repr (vendor_resolver Intel) "i7"
       {| CACHE := Some foreign_store; requests := [] |}
     = (Ok (JDict []),
        {| CACHE := Some foreign_store; requests := [vendor_search_url Intel "i7"] |})
  /\ resolve offline no_repr (vendor_resolver Intel) "i7"
       {| CACHE := Some foreign_store; requests := [] |}
     = (Ok (JDict []),
        {| CACHE := Some foreign_store; requests := [vendor_search_url Intel "i7"] |}).
Proof. split_and!; vm_compute; reflexivity. Qed.
